(** * The performance-monitor hooks of the portfolio site

    A shallow embedding of the two [usePerformanceMonitor] hooks of the
    repository: the configurable hook ([Monitor], with a capacity, a storage
    key and switches for persistence and analytics) and the fixed-constant
    hook ([BasicMonitor]).  Both keep a bounded list of performance metrics
    in React state, mirror it to [localStorage], and derive per-name averages,
    ratings, trends and an overall score from it.

    Numbers.  A measured [value] is a JavaScript number and is modelled by
    Rocq's primitive binary64 floats, so sums, means and the relative change
    round exactly as the hook's arithmetic does.  Array lengths, counters,
    scores and epoch-millisecond timestamps are integer valued and far below
    2^53; they are modelled by [nat] and [Z], and a division of two such
    integers that is only compared or rounded ([length / 2], [score / count])
    by [Q]. *)

From Stdlib Require Import ZArith QArith Qround Floats Uint63 Lia.
From stdpp Require Import base gmap strings list sorting.

(* The literal 0.1 of the trend threshold denotes, as in JavaScript, the
   nearest binary64 number. *)
Set Warnings "-inexact-float".

(** ** JavaScript primitives the hooks rely on *)

Module JS.

(** What a statement can complete with: a value, or a thrown error. *)
Inductive Error :=
| SecurityError
| QuotaExceededError
| SyntaxError
| TypeError
| ReferenceError.

Inductive Completion (A : Type) :=
| Normal (a : A)
| Throw (e : Error).
Arguments Normal {A} a.
Arguments Throw {A} e.

Definition bind {A B} (c : Completion A) (k : A → Completion B) : Completion B :=
  match c with
  | Normal a => k a
  | Throw e => Throw e
  end.

Definition cmap {A B} (f : A → B) (c : Completion A) : Completion B :=
  bind c (λ a, Normal (f a)).

(** [if (s)] on an optional string: [undefined] and the empty string are
    falsy. *)
Definition truthy_string (s : option string) : option string :=
  match s with
  | Some s => if decide (s = EmptyString) then None else Some s
  | None => None
  end.

(** [if (n)] on an optional integer-valued number: [undefined] and [0] are
    falsy. *)
Definition truthy_number (n : option Z) : option Z :=
  match n with
  | Some n => if decide (n = 0%Z) then None else Some n
  | None => None
  end.

(** A relative index of [Array.prototype.slice]: negative indices count
    from the end, and the result is clamped to [0 .. len]. *)
Definition relative_index (len : nat) (i : Z) : nat :=
  if (i <? 0)%Z then Z.to_nat (Z.max (Z.of_nat len + i) 0)
  else Z.to_nat (Z.min i (Z.of_nat len)).

(** [l.slice(start, stop)]; [stop] is [None] when the argument is left out. *)
Definition slice {A} (l : list A) (start : Z) (stop : option Z) : list A :=
  let k := relative_index (length l) start in
  let final :=
    match stop with
    | Some e => relative_index (length l) e
    | None => length l
    end in
  take (final - k) (drop k l).

(** The number an array length or a counter stands for. *)
Definition int (n : nat) : Q := inject_Z (Z.of_nat n).

Definition gt (x y : Q) : bool := if Qlt_le_dec y x then true else false.

Definition Math_floor (x : Q) : Z := Qfloor x.

(** [Math.round] rounds to the nearest integer, a half towards +∞. *)
Definition Math_round (x : Q) : Z := Qfloor (x + (1 # 2))%Q.

(** [Math.max(...l)]; over no arguments it is [-Infinity], written [None]. *)
Definition Math_max (l : list Z) : option Z :=
  match l with
  | [] => None
  | x :: l => Some (fold_left Z.max l x)
  end.

(** An array length as the binary64 number it divides a sum by. *)
Definition number (n : nat) : float :=
  PrimFloat.of_uint63 (Uint63.of_Z (Z.of_nat n)).

(** [l[i]]: [undefined] below zero and past the end. *)
Definition at_index {A} (l : list A) (i : Z) : option A :=
  if (i <? 0)%Z then None else l !! Z.to_nat i.

(** An integer as the binary64 number it is written as (exact below 2^53). *)
Definition integer (z : Z) : float :=
  if (z <? 0)%Z then (- PrimFloat.of_uint63 (Uint63.of_Z (- z)))%float
  else PrimFloat.of_uint63 (Uint63.of_Z z).

(** [Math.min(...l)]; over no arguments it is [Infinity], written [None]. *)
Definition Math_min (l : list Z) : option Z :=
  match l with
  | [] => None
  | x :: l => Some (fold_left Z.min l x)
  end.

(** [[...new Set(l)]]: the distinct strings of [l] in the order they first
    occur. *)
Definition Set_values (l : list string) : list string :=
  fold_left (λ seen x, if decide (x ∈ seen) then seen else seen ++ [x]) l [].

(** The value of a string of decimal digits, read left to right. *)
Fixpoint digits_value (s : string) (acc : N) : option N :=
  match s with
  | EmptyString => Some acc
  | String a s =>
      let c := Ascii.N_of_ascii a in
      if ((48 <=? c) && (c <=? 57))%N
      then digits_value s (10 * acc + (c - 48))%N
      else None
  end.

(** A property key is an array index when it is the canonical decimal
    numeral of an integer from [0] to [2^32 - 2]. *)
Definition array_index (s : string) : option N :=
  match s with
  | EmptyString => None
  | String a rest =>
      if (Ascii.N_of_ascii a =? 48)%N then
        match rest with
        | EmptyString => Some 0%N
        | String _ _ => None
        end
      else
        match digits_value s 0 with
        | Some v => if (v <? 4294967295)%N then Some v else None
        | None => None
        end
  end.

Fixpoint insert_index (k : string) (l : list string) : list string :=
  match l with
  | [] => [k]
  | x :: l' =>
      if (default 0 (array_index k) <=? default 0 (array_index x))%N
      then k :: l
      else x :: insert_index k l'
  end.

(** The order in which an object lists its own string keys, given the
    order they were first assigned in: array indices ascending, then the
    other keys in assignment order. *)
Definition own_keys (assigned : list string) : list string :=
  let keys := Set_values assigned in
  foldr insert_index [] (filter (λ k, is_Some (array_index k)) keys)
  ++ filter (λ k, ¬ is_Some (array_index k)) keys.

(** [Object.entries(o)] of an object whose keys were assigned in the order
    [assigned]. *)
Definition entries {A} (assigned : list string) (o : gmap string A) : list (string * A) :=
  omap (λ k, (λ v, (k, v)) <$> o !! k) (own_keys assigned).

(** [o[k] = v] for an object [v] on an ordinary object [o]: the key
    [__proto__] names the prototype's setter and creates no own property. *)
Definition assign {A} (k : string) (v : A) (o : gmap string A) : gmap string A :=
  if decide (k = "__proto__") then o else <[k := v]> o.

(** [l.sort(cmp)] for a consistent comparator: the stable sort, an element
    moving behind another exactly when [cmp] of the two is positive. *)
Fixpoint sort_insert {A} (cmp : A → A → Z) (x : A) (l : list A) : list A :=
  match l with
  | [] => [x]
  | y :: l' => if (0 <? cmp x y)%Z then y :: sort_insert cmp x l' else x :: l
  end.

Definition sort {A} (cmp : A → A → Z) (l : list A) : list A :=
  foldr (sort_insert cmp) [] l.

(** The names every object literal inherits from [Object.prototype].  Read
    through [acc[key]] they yield a function (or, for [__proto__], the
    prototype itself): a truthy value without a [push] method. *)
Definition Object_prototype_keys : list string :=
  [ "constructor"; "__defineGetter__"; "__defineSetter__"; "hasOwnProperty";
    "__lookupGetter__"; "__lookupSetter__"; "isPrototypeOf";
    "propertyIsEnumerable"; "toString"; "valueOf"; "__proto__";
    "toLocaleString" ].

End JS.

#[global] Instance Completion_bind : MBind JS.Completion := λ A B k c, JS.bind c k.

(** ** The data model *)

Inductive Rating := good | needs_improvement | poor.
Inductive Trend := improving | stable | declining.

#[global] Instance Rating_eq_dec : EqDecision Rating.
Proof. solve_decision. Defined.
#[global] Instance Trend_eq_dec : EqDecision Trend.
Proof. solve_decision. Defined.

(** [interface PerformanceMetric].  The configurable hook's optional
    [metadata] bag is carried along untouched by every function below and is
    left out. *)
Record PerformanceMetric := {
  name : string;
  value : float;
  rating : Rating;
  timestamp : Z;
  url : option string;
}.

(** The argument of [recordMetric]: a metric whose timestamp is optional. *)
Record MetricInput := {
  in_name : string;
  in_value : float;
  in_rating : Rating;
  in_timestamp : option Z;
  in_url : option string;
}.

(** What a call reads from its surroundings: [Date.now()] and
    [window.location.pathname]. *)
Record Ambient := {
  now : Z;
  pathname : string;
}.

(** ** The browser and the hook's React state *)

(** The text held under a [localStorage] key, by what [JSON.parse] makes of
    it.  [ArrayText ms] is the text [JSON.stringify] writes for [ms]. *)
Inductive StoredText :=
| EmptyText
| Unparseable
| NotAnArray
| ArrayText (ms : list PerformanceMetric).

Inductive Parsed :=
| ParsedOther
| ParsedArray (ms : list PerformanceMetric).

(** [denied]: storage is disabled for the page and every access to it raises.
    [quota]: how many serialised metrics fit the origin's quota. *)
Record Storage := {
  denied : bool;
  quota : nat;
  items : gmap string StoredText;
}.

Record GtagEvent := {
  event_label : string;
  metric_rating : Rating;
  metric_url : option string;
}.

(** [window]: its storage and, when the analytics snippet is installed, the
    events handed to [gtag] so far (label and rating; the rounded value is
    not tracked). *)
Record Window := {
  localStorage : Storage;
  gtag : option (list GtagEvent);
}.

(** One mounted hook in its surroundings.  [window] is [None] outside a
    browser; [warnings] collects what [console.warn] was given. *)
Record World := {
  window : option Window;
  metrics : list PerformanceMetric;
  isLoading : bool;
  warnings : list JS.Error;
}.

(** A hook method or effect: it runs on a world, completes normally or by
    throwing, and leaves a world behind. *)
Definition Hook (A : Type) : Type := World → JS.Completion A * World.

Definition ret {A} (a : A) : Hook A := λ w, (JS.Normal a, w).

Definition bindH {A B} (m : Hook A) (k : A → Hook B) : Hook B := λ w,
  match m w with
  | (JS.Normal a, w') => k a w'
  | (JS.Throw e, w') => (JS.Throw e, w')
  end.

Definition thenH {A B} (m : Hook A) (k : Hook B) : Hook B := bindH m (λ _, k).

(** [try { body } catch (error) { handler(error) } finally { final }], for a
    handler and a final block that do not throw themselves. *)
Definition try_catch_finally (body : Hook unit) (handler : JS.Error → World → World)
    (final : World → World) : Hook unit := λ w,
  match body w with
  | (JS.Normal _, w') => (JS.Normal (), final w')
  | (JS.Throw e, w') => (JS.Normal (), final (handler e w'))
  end.

Definition console_warn (e : JS.Error) (w : World) : World :=
  {| window := window w; metrics := metrics w; isLoading := isLoading w;
     warnings := warnings w ++ [e] |}.

(** [setMetrics(updater)] and [setIsLoading(b)]. *)
Definition setMetrics (updater : list PerformanceMetric → list PerformanceMetric) : Hook unit :=
  λ w, (JS.Normal (),
        {| window := window w; metrics := updater (metrics w);
           isLoading := isLoading w; warnings := warnings w |}).

Definition setIsLoading (b : bool) (w : World) : World :=
  {| window := window w; metrics := metrics w; isLoading := b;
     warnings := warnings w |}.

(** *** [localStorage] *)

Definition stored_size (t : StoredText) : nat :=
  match t with
  | ArrayText ms => length ms
  | _ => 0
  end.

(** Reaching the [localStorage] global: a [ReferenceError] where there is no
    window, a [SecurityError] where storage is denied. *)
Definition with_storage {A} (f : Storage → JS.Completion A * Storage) : Hook A := λ w,
  match window w with
  | None => (JS.Throw JS.ReferenceError, w)
  | Some win =>
      if denied (localStorage win) then (JS.Throw JS.SecurityError, w)
      else
        let '(c, st) := f (localStorage win) in
        (c, {| window := Some {| localStorage := st; gtag := gtag win |};
               metrics := metrics w; isLoading := isLoading w;
               warnings := warnings w |})
  end.

Definition getItem (key : string) : Hook (option StoredText) :=
  with_storage (λ st, (JS.Normal (items st !! key), st)).

Definition setItem (key : string) (text : StoredText) : Hook unit :=
  with_storage (λ st,
    if quota st <? stored_size text then (JS.Throw JS.QuotaExceededError, st)
    else (JS.Normal (),
          {| denied := denied st; quota := quota st;
             items := <[key := text]> (items st) |})).

Definition removeItem (key : string) : Hook unit :=
  with_storage (λ st,
    (JS.Normal (),
     {| denied := denied st; quota := quota st; items := delete key (items st) |})).

Definition JSON_parse (t : StoredText) : JS.Completion Parsed :=
  match t with
  | EmptyText | Unparseable => JS.Throw JS.SyntaxError
  | NotAnArray => JS.Normal ParsedOther
  | ArrayText ms => JS.Normal (ParsedArray ms)
  end.

Definition JSON_stringify (ms : list PerformanceMetric) : StoredText := ArrayText ms.

(** The persisted copy under [key], as a later page load would find it. *)
Definition persisted (key : string) (w : World) : option StoredText :=
  match window w with
  | Some win => items (localStorage win) !! key
  | None => None
  end.

(** [window.gtag('event', 'performance_metric', ...)]. *)
Definition send_gtag (ev : GtagEvent) : Hook unit := λ w,
  match window w with
  | Some {| localStorage := st; gtag := Some log |} =>
      (JS.Normal (),
       {| window := Some {| localStorage := st; gtag := Some (log ++ [ev]) |};
          metrics := metrics w; isLoading := isLoading w; warnings := warnings w |})
  | _ => (JS.Normal (), w)
  end.

(** ** The configurable hook *)

Module Monitor.

(** [interface PerformanceMonitorConfig]: every field is optional. *)
Record PerformanceMonitorConfig := {
  opt_maxStoredMetrics : option Z;
  opt_enableLocalStorage : option bool;
  opt_storageKey : option string;
  opt_enableAnalytics : option bool;
}.

(** The merged configuration the hook works with. *)
Record Config := {
  maxStoredMetrics : Z;
  enableLocalStorage : bool;
  storageKey : string;
  enableAnalytics : bool;
}.

Definition DEFAULT_CONFIG : Config := {|
  maxStoredMetrics := 1000;
  enableLocalStorage := true;
  storageKey := "portfolio_performance_metrics";
  enableAnalytics := true;
|}.

(** [{ ...DEFAULT_CONFIG, ...config }] *)
Definition finalConfig (config : PerformanceMonitorConfig) : Config := {|
  maxStoredMetrics := default (maxStoredMetrics DEFAULT_CONFIG) (opt_maxStoredMetrics config);
  enableLocalStorage := default (enableLocalStorage DEFAULT_CONFIG) (opt_enableLocalStorage config);
  storageKey := default (storageKey DEFAULT_CONFIG) (opt_storageKey config);
  enableAnalytics := default (enableAnalytics DEFAULT_CONFIG) (opt_enableAnalytics config);
|}.

Definition no_overrides : PerformanceMonitorConfig := {|
  opt_maxStoredMetrics := None;
  opt_enableLocalStorage := None;
  opt_storageKey := None;
  opt_enableAnalytics := None;
|}.

(** Entries of [interface MetricAverages]. *)
Record Averages := {
  average : float;
  count : nat;
  avg_rating : Rating;
  trend : Trend;
  lastUpdated : option Z;
}.

(** The effect that loads stored metrics on mount. *)
Definition loadEffect (cfg : Config) : Hook unit := λ w,
  if negb (enableLocalStorage cfg) || negb (bool_decide (is_Some (window w))) then
    (JS.Normal (), setIsLoading false w)
  else
    try_catch_finally
      (bindH (getItem (storageKey cfg)) (λ stored,
       match stored with
       | None | Some EmptyText => ret ()
       | Some text =>
           λ w', match JSON_parse text with
                 | JS.Throw e => (JS.Throw e, w')
                 | JS.Normal (ParsedArray parsedMetrics) =>
                     setMetrics (λ _, JS.slice parsedMetrics (- maxStoredMetrics cfg) None) w'
                 | JS.Normal ParsedOther => (JS.Normal (), w')
                 end
       end))
      console_warn
      (setIsLoading false)
      w.

(** The effect that saves the metrics whenever they change. *)
Definition saveEffect (cfg : Config) : Hook unit := λ w,
  if negb (isLoading w) && (0 <? length (metrics w)) && enableLocalStorage cfg
     && bool_decide (is_Some (window w))
  then
    try_catch_finally
      (setItem (storageKey cfg) (JSON_stringify (metrics w)))
      console_warn
      id
      w
  else (JS.Normal (), w).

Definition newMetric (has_window : bool) (amb : Ambient) (metric : MetricInput) : PerformanceMetric := {|
  name := in_name metric;
  value := in_value metric;
  rating := in_rating metric;
  timestamp := default (now amb) (JS.truthy_number (in_timestamp metric));
  url := match JS.truthy_string (in_url metric) with
         | Some u => Some u
         | None => if has_window then Some (pathname amb) else None
         end;
|}.

Definition recordMetric (cfg : Config) (amb : Ambient) (metric : MetricInput) : Hook unit := λ w,
  let newMetric := newMetric (bool_decide (is_Some (window w))) amb metric in
  thenH
    (setMetrics (λ prev,
       let updated := prev ++ [newMetric] in
       JS.slice updated (- maxStoredMetrics cfg) None))
    (if enableAnalytics cfg then
       send_gtag {| event_label := name newMetric;
                    metric_rating := rating newMetric;
                    metric_url := url newMetric |}
     else ret ())
    w.

(** [getMetrics] over a snapshot of the state. *)
Definition getMetrics (metrics : list PerformanceMetric) (now : Z)
    (metricName : option string) (timeRange : option Z) : list PerformanceMetric :=
  let filtered := metrics in
  let filtered :=
    match JS.truthy_string metricName with
    | Some metricName => filter (λ m, name m = metricName) filtered
    | None => filtered
    end in
  let filtered :=
    match JS.truthy_number timeRange with
    | Some timeRange =>
        let cutoff := (now - timeRange)%Z in
        filter (λ m, (cutoff < timestamp m)%Z) filtered
    | None => filtered
    end in
  filtered.

(** [getMetrics] as the method a caller invokes. *)
Definition query (now : Z) (metricName : option string) (timeRange : option Z)
    : Hook (list PerformanceMetric) := λ w,
  (JS.Normal (getMetrics (metrics w) now metricName timeRange), w).

(** The first [reduce] of [getAverages]: one step for one metric.  A name that
    [{}] inherits reads as a truthy non-array, whose [push] is not a function. *)
Definition group_step (acc : gmap string (list PerformanceMetric)) (metric : PerformanceMetric)
    : JS.Completion (gmap string (list PerformanceMetric)) :=
  if decide (name metric ∈ JS.Object_prototype_keys) then JS.Throw JS.TypeError
  else
    let acc :=
      match acc !! name metric with
      | None => <[name metric := []]> acc
      | Some _ => acc
      end in
    JS.Normal (<[name metric := default [] (acc !! name metric) ++ [metric]]> acc).

Definition grouped (relevantMetrics : list PerformanceMetric)
    : JS.Completion (gmap string (list PerformanceMetric)) :=
  fold_left (λ acc metric, acc ← acc; group_step acc metric)
            relevantMetrics (JS.Normal ∅).

(** The body of the second [reduce] of [getAverages]: the entry of one name. *)
Definition entry (name : string) (metricList : list PerformanceMetric) : Averages :=
  let values := map value metricList in
  let average :=
    (fold_left (λ sum val, sum + val) values 0 / JS.number (length values))%float in
  let recentMetrics := JS.slice metricList (-5) None in
  let ratings := map rating recentMetrics in
  let goodCount := length (filter (λ r, r = good) ratings) in
  let rating :=
    if JS.gt (JS.int goodCount) (JS.int (length ratings) / 2) then good
    else if JS.gt (JS.int goodCount) 0 then needs_improvement else poor in
  let trend :=
    if 10 <=? length metricList then
      let midPoint := JS.Math_floor (JS.int (length metricList) / 2) in
      let firstHalf := JS.slice metricList 0 (Some midPoint) in
      let secondHalf := JS.slice metricList midPoint None in
      let firstAvg :=
        (fold_left (λ sum m, sum + value m) firstHalf 0
         / JS.number (length firstHalf))%float in
      let secondAvg :=
        (fold_left (λ sum m, sum + value m) secondHalf 0
         / JS.number (length secondHalf))%float in
      let change := ((secondAvg - firstAvg) / firstAvg)%float in
      if (0.1 <? PrimFloat.abs change)%float then
        let isLowerBetter := bool_decide (name ∈ ["LCP"; "CLS"; "FID"; "TTFB"]) in
        if isLowerBetter
        then (if (change <? 0)%float then improving else declining)
        else (if (0 <? change)%float then improving else declining)
      else stable
    else stable in
  {| average := average;
     count := length metricList;
     avg_rating := rating;
     trend := trend;
     lastUpdated := JS.Math_max (map timestamp metricList) |}.

Definition getAverages (metrics : list PerformanceMetric) (now : Z) (timeRange : option Z)
    : JS.Completion (gmap string Averages) :=
  let relevantMetrics := getMetrics metrics now None timeRange in
  JS.cmap (map_imap (λ name metricList, Some (entry name metricList)))
          (grouped relevantMetrics).

Definition metricScore (r : Rating) : Z :=
  match r with
  | good => 100
  | needs_improvement => 75
  | poor => 25
  end.

Definition getPerformanceScore (metrics : list PerformanceMetric) (now : Z) : option Z :=
  let recentMetrics := getMetrics metrics now None (Some (24 * 60 * 60 * 1000)%Z) in
  let coreVitals := ["LCP"; "FID"; "CLS"] in
  let '(score, count) :=
    fold_left (λ '(score, count) vital,
      let vitalMetrics := filter (λ m, name m = vital) recentMetrics in
      if 0 <? length vitalMetrics then
        match vitalMetrics !! (length vitalMetrics - 1) with
        | Some latestMetric =>
            ((score + metricScore (rating latestMetric))%Z, (count + 1)%Z)
        | None => (score, count)
        end
      else (score, count))
      coreVitals (0%Z, 0%Z) in
  if (0 <? count)%Z then Some (JS.Math_round (inject_Z score / inject_Z count)) else None.

Definition clearMetrics (cfg : Config) : Hook unit :=
  thenH
    (setMetrics (λ _, []))
    (λ w, if enableLocalStorage cfg && bool_decide (is_Some (window w))
          then removeItem (storageKey cfg) w
          else (JS.Normal (), w)).

(** A state change re-renders the hook, and the save effect runs on the new
    state, also when the handler that changed it threw. *)
Definition rendered {A} (cfg : Config) (handler : Hook A) : Hook A := λ w,
  let '(c, w1) := handler w in
  (c, (saveEffect cfg w1).2).

Definition mount (cfg : Config) : Hook unit := rendered cfg (loadEffect cfg).
Definition record (cfg : Config) (amb : Ambient) (metric : MetricInput) : Hook unit :=
  rendered cfg (recordMetric cfg amb metric).
Definition clear (cfg : Config) : Hook unit := rendered cfg (clearMetrics cfg).

(** [getLatestMetric] over a snapshot of the state. *)
Definition getLatestMetric (metrics : list PerformanceMetric) (now : Z) (metricName : string)
    : option PerformanceMetric :=
  let metricsList := getMetrics metrics now (Some metricName) None in
  JS.at_index metricsList (Z.of_nat (length metricsList) - 1).

Record Insights := {
  summary : string;
  recommendations : list string;
  criticalIssues : list string;
  improvements : list string;
}.

Definition push_recommendation (text : string) (insights : Insights) : Insights :=
  {| summary := summary insights;
     recommendations := recommendations insights ++ [text];
     criticalIssues := criticalIssues insights;
     improvements := improvements insights |}.

Definition push_criticalIssue (text : string) (insights : Insights) : Insights :=
  {| summary := summary insights;
     recommendations := recommendations insights;
     criticalIssues := criticalIssues insights ++ [text];
     improvements := improvements insights |}.

Definition push_improvement (text : string) (insights : Insights) : Insights :=
  {| summary := summary insights;
     recommendations := recommendations insights;
     criticalIssues := criticalIssues insights;
     improvements := improvements insights ++ [text] |}.

(** The callback of the [forEach] over [Object.entries(averages)] in
    [getPerformanceInsights]. *)
Definition analyse (insights : Insights) (metricName : string) (data : Averages) : Insights :=
  let insights :=
    if decide (metricName = "LCP") then
      if decide (avg_rating data = poor) then
        push_criticalIssue
          "Largest Contentful Paint is slow - optimize images and server response times"
          insights
      else if decide (avg_rating data = needs_improvement) then
        push_recommendation
          "Consider optimizing LCP by improving server response times" insights
      else insights
    else if decide (metricName = "FID") then
      if decide (avg_rating data = poor) then
        push_criticalIssue
          "First Input Delay is high - reduce JavaScript execution time" insights
      else if decide (avg_rating data = needs_improvement) then
        push_recommendation "Optimize JavaScript to improve First Input Delay" insights
      else insights
    else if decide (metricName = "CLS") then
      if decide (avg_rating data = poor) then
        push_criticalIssue
          "Cumulative Layout Shift is high - ensure proper element sizing" insights
      else if decide (avg_rating data = needs_improvement) then
        push_recommendation "Reduce layout shifts by setting image dimensions" insights
      else insights
    else insights in
  if decide (trend data = improving)
  then push_improvement (metricName +:+ " is improving over time") insights
  else insights.

Definition getPerformanceInsights (metrics : list PerformanceMetric) (now : Z)
    : JS.Completion Insights :=
  averages ← getAverages metrics now None;
  let performanceScore := getPerformanceScore metrics now in
  let summary :=
    match performanceScore with
    | None => "No performance data available yet."
    | Some performanceScore =>
        if (90 <=? performanceScore)%Z then
          "Excellent performance! Your site is performing very well."
        else if (75 <=? performanceScore)%Z then
          "Good performance with room for improvement."
        else "Performance needs attention. Several metrics can be improved."
    end in
  let insights :=
    {| summary := summary; recommendations := []; criticalIssues := [];
       improvements := [] |} in
  JS.Normal
    (fold_left (λ insights e, analyse insights e.1 e.2)
       (JS.entries (map name (getMetrics metrics now None None)) averages)
       insights).

(** The keys of [ratingDistribution]. *)
Definition rating_name (r : Rating) : string :=
  match r with
  | good => "good"
  | needs_improvement => "needs-improvement"
  | poor => "poor"
  end.

Record Stats := {
  totalMetrics : nat;
  uniqueMetrics : nat;
  timeRange : Z;
  ratingDistribution : gmap string nat;
  averageMetricsPerDay : float;
  oldestMetric : option Z;
  newestMetric : option Z;
}.

Definition getMetricsStats (metrics : list PerformanceMetric) : Stats :=
  let uniqueMetrics := JS.Set_values (map name metrics) in
  let totalMetrics := length metrics in
  let timeRange :=
    if 0 <? length metrics then
      match JS.Math_max (map timestamp metrics), JS.Math_min (map timestamp metrics) with
      | Some newest, Some oldest => (newest - oldest)%Z
      | _, _ => 0%Z
      end
    else 0%Z in
  let ratingDistribution :=
    fold_left (λ acc metric,
        <[rating_name (rating metric) :=
            default 0 (acc !! rating_name (rating metric)) + 1]> acc)
      metrics (∅ : gmap string nat) in
  {| totalMetrics := totalMetrics;
     uniqueMetrics := length uniqueMetrics;
     timeRange := timeRange;
     ratingDistribution := ratingDistribution;
     averageMetricsPerDay :=
       if (0 <? timeRange)%Z
       then (JS.number totalMetrics / (JS.integer timeRange / 86400000))%float
       else 0%float;
     oldestMetric :=
       if 0 <? length metrics then JS.Math_min (map timestamp metrics) else None;
     newestMetric :=
       if 0 <? length metrics then JS.Math_max (map timestamp metrics) else None |}.

(** The configuration [useSimplePerformanceMonitor] mounts the hook with. *)
Definition useSimplePerformanceMonitor : Config :=
  finalConfig
    {| opt_maxStoredMetrics := Some 100%Z;
       opt_enableLocalStorage := Some true;
       opt_storageKey := None;
       opt_enableAnalytics := Some false |}.

(** A session: the world after a sequence of [recordMetric] calls, each with
    what it read from its surroundings. *)
Definition session (cfg : Config) (calls : list (Ambient * MetricInput)) (w : World) : World :=
  fold_left (λ w c, (record cfg c.1 c.2 w).2) calls w.

End Monitor.

(** ** The fixed-constant hook

    The same hook without a configuration: the key and the capacity are
    module constants, there is no analytics call, and storage is reached
    without asking whether a window exists.  Its mount effect is not needed
    below and is left out. *)

Module BasicMonitor.

Record Averages := {
  average : float;
  count : nat;
  avg_rating : Rating;
  trend : Trend;
}.

Definition METRIC_STORAGE_KEY : string := "portfolio_performance_metrics".
Definition MAX_STORED_METRICS : Z := 1000.

Definition saveEffect : Hook unit := λ w,
  if negb (isLoading w) && (0 <? length (metrics w)) then
    try_catch_finally
      (setItem METRIC_STORAGE_KEY (JSON_stringify (metrics w)))
      console_warn
      id
      w
  else (JS.Normal (), w).

Definition newMetric (has_window : bool) (amb : Ambient) (metric : MetricInput) : PerformanceMetric := {|
  name := in_name metric;
  value := in_value metric;
  rating := in_rating metric;
  timestamp := default (now amb) (JS.truthy_number (in_timestamp metric));
  url := match JS.truthy_string (in_url metric) with
         | Some u => Some u
         | None => if has_window then Some (pathname amb) else None
         end;
|}.

Definition recordMetric (amb : Ambient) (metric : MetricInput) : Hook unit := λ w,
  let newMetric := newMetric (bool_decide (is_Some (window w))) amb metric in
  setMetrics (λ prev,
    let updated := prev ++ [newMetric] in
    JS.slice updated (- MAX_STORED_METRICS) None) w.

Definition getMetrics (metrics : list PerformanceMetric) (now : Z)
    (metricName : option string) (timeRange : option Z) : list PerformanceMetric :=
  let filtered := metrics in
  let filtered :=
    match JS.truthy_string metricName with
    | Some metricName => filter (λ m, name m = metricName) filtered
    | None => filtered
    end in
  let filtered :=
    match JS.truthy_number timeRange with
    | Some timeRange =>
        let cutoff := (now - timeRange)%Z in
        filter (λ m, (cutoff < timestamp m)%Z) filtered
    | None => filtered
    end in
  filtered.

Definition group_step (acc : gmap string (list PerformanceMetric)) (metric : PerformanceMetric)
    : JS.Completion (gmap string (list PerformanceMetric)) :=
  if decide (name metric ∈ JS.Object_prototype_keys) then JS.Throw JS.TypeError
  else
    let acc :=
      match acc !! name metric with
      | None => <[name metric := []]> acc
      | Some _ => acc
      end in
    JS.Normal (<[name metric := default [] (acc !! name metric) ++ [metric]]> acc).

Definition grouped (relevantMetrics : list PerformanceMetric)
    : JS.Completion (gmap string (list PerformanceMetric)) :=
  fold_left (λ acc metric, acc ← acc; group_step acc metric)
            relevantMetrics (JS.Normal ∅).

Definition entry (name : string) (metricList : list PerformanceMetric) : Averages :=
  let values := map value metricList in
  let average :=
    (fold_left (λ sum val, sum + val) values 0 / JS.number (length values))%float in
  let recentMetrics := JS.slice metricList (-5) None in
  let ratings := map rating recentMetrics in
  let goodCount := length (filter (λ r, r = good) ratings) in
  let rating :=
    if JS.gt (JS.int goodCount) (JS.int (length ratings) / 2) then good
    else if JS.gt (JS.int goodCount) 0 then needs_improvement else poor in
  let trend :=
    if 10 <=? length metricList then
      let midPoint := JS.Math_floor (JS.int (length metricList) / 2) in
      let firstHalf := JS.slice metricList 0 (Some midPoint) in
      let secondHalf := JS.slice metricList midPoint None in
      let firstAvg :=
        (fold_left (λ sum m, sum + value m) firstHalf 0
         / JS.number (length firstHalf))%float in
      let secondAvg :=
        (fold_left (λ sum m, sum + value m) secondHalf 0
         / JS.number (length secondHalf))%float in
      let change := ((secondAvg - firstAvg) / firstAvg)%float in
      if (0.1 <? PrimFloat.abs change)%float then
        let isLowerBetter := bool_decide (name ∈ ["LCP"; "CLS"; "FID"; "TTFB"]) in
        if isLowerBetter
        then (if (change <? 0)%float then improving else declining)
        else (if (0 <? change)%float then improving else declining)
      else stable
    else stable in
  {| average := average;
     count := length metricList;
     avg_rating := rating;
     trend := trend |}.

Definition getAverages (metrics : list PerformanceMetric) (now : Z) (timeRange : option Z)
    : JS.Completion (gmap string Averages) :=
  let relevantMetrics := getMetrics metrics now None timeRange in
  JS.cmap (map_imap (λ name metricList, Some (entry name metricList)))
          (grouped relevantMetrics).

Definition metricScore (r : Rating) : Z :=
  match r with
  | good => 100
  | needs_improvement => 75
  | poor => 25
  end.

Definition getPerformanceScore (metrics : list PerformanceMetric) (now : Z) : option Z :=
  let recentMetrics := getMetrics metrics now None (Some (24 * 60 * 60 * 1000)%Z) in
  let coreVitals := ["LCP"; "FID"; "CLS"] in
  let '(score, count) :=
    fold_left (λ '(score, count) vital,
      let vitalMetrics := filter (λ m, name m = vital) recentMetrics in
      if 0 <? length vitalMetrics then
        match vitalMetrics !! (length vitalMetrics - 1) with
        | Some latestMetric =>
            ((score + metricScore (rating latestMetric))%Z, (count + 1)%Z)
        | None => (score, count)
        end
      else (score, count))
      coreVitals (0%Z, 0%Z) in
  if (0 <? count)%Z then Some (JS.Math_round (inject_Z score / inject_Z count)) else None.

Definition clearMetrics : Hook unit :=
  thenH (setMetrics (λ _, [])) (removeItem METRIC_STORAGE_KEY).

Definition rendered {A} (handler : Hook A) : Hook A := λ w,
  let '(c, w1) := handler w in
  (c, (saveEffect w1).2).

Definition record (amb : Ambient) (metric : MetricInput) : Hook unit :=
  rendered (recordMetric amb metric).
Definition clear : Hook unit := rendered clearMetrics.

Definition session (calls : list (Ambient * MetricInput)) (w : World) : World :=
  fold_left (λ w c, (record c.1 c.2 w).2) calls w.

End BasicMonitor.

(** ** The web-vitals hook

    [useWebVitals]: its store is unbounded and lives in React state only.
    Of [reportMetric] the model keeps the store and, in order, the calls it
    makes to the console, to [gtag] and to [fetch]. *)

Module WebVitals.

Record WebVitalMetric := {
  name : string;
  value : float;
  delta : float;
  id : string;
  rating : Rating;
  timestamp : Z;
}.

(** The hook's configuration after its defaults are filled in. *)
Record Config := {
  reportToAnalytics : bool;
  enableConsoleLogging : bool;
  sampleRate : float;
  endpoint : string;
}.

(** The defaults; [development] is [process.env.NODE_ENV === 'development']. *)
Definition defaults (development : bool) : Config := {|
  reportToAnalytics := true;
  enableConsoleLogging := development;
  sampleRate := 1;
  endpoint := "/api/web-vitals";
|}.

(** What one [reportMetric] call finds: the draw of [Math.random()], whether
    there is a window, whether [window.gtag] is installed, and whether the
    [fetch] it awaits rejects. *)
Record Surroundings := {
  random : float;
  in_browser : bool;
  gtag_installed : bool;
  fetch_rejects : bool;
}.

Inductive Call :=
| console_log (metricName : string)
| gtag_call (metricName label : string) (metric_rating : Rating)
| fetch_post (url metricName : string)
| console_warn_call.

Record State := {
  metrics : list WebVitalMetric;
  calls : list Call;
}.

Definition called (c : Call) (s : State) : State :=
  {| metrics := metrics s; calls := calls s ++ [c] |}.

Definition reportMetric (cfg : Config) (env : Surroundings) (metric : WebVitalMetric)
    (s : State) : State :=
  if (sampleRate cfg <? random env)%float then s
  else
    let s := if enableConsoleLogging cfg then called (console_log (name metric)) s else s in
    let s :=
      if reportToAnalytics cfg && in_browser env && gtag_installed env
      then called (gtag_call (name metric) (id metric) (rating metric)) s
      else s in
    let s :=
      if in_browser env && negb (bool_decide (endpoint cfg = EmptyString)) then
        let s := called (fetch_post (endpoint cfg) (name metric)) s in
        if fetch_rejects env then
          if enableConsoleLogging cfg then called console_warn_call s else s
        else s
      else s in
    {| metrics := metrics s ++ [metric]; calls := calls s |}.

Definition getMetricsByName (metrics : list WebVitalMetric) (metricName : string)
    : list WebVitalMetric :=
  filter (λ metric, name metric = metricName) metrics.

Definition getLatestMetric (metrics : list WebVitalMetric) (metricName : string)
    : option WebVitalMetric :=
  let metricsList := getMetricsByName metrics metricName in
  JS.at_index metricsList (Z.of_nat (length metricsList) - 1).

Definition getPerformanceScore (metrics : list WebVitalMetric) : option Z :=
  let coreVitals := ["LCP"; "FID"; "CLS"] in
  let '(totalScore, metricsCount) :=
    fold_left (λ '(totalScore, metricsCount) vital,
      match getLatestMetric metrics vital with
      | Some latestMetric =>
          let score :=
            match rating latestMetric with
            | good => 100
            | needs_improvement => 75
            | poor => 25
            end%Z in
          ((totalScore + score)%Z, (metricsCount + 1)%Z)
      | None => (totalScore, metricsCount)
      end)
      coreVitals (0%Z, 0%Z) in
  if (0 <? metricsCount)%Z
  then Some (JS.Math_round (inject_Z totalScore / inject_Z metricsCount))
  else None.

Record Summary := {
  totalMetrics : nat;
  uniqueMetrics : nat;
  performanceScore : option Z;
  latestMetrics : gmap string WebVitalMetric;
}.

Definition getMetricsSummary (metrics : list WebVitalMetric) : Summary :=
  {| totalMetrics := length metrics;
     uniqueMetrics := length (JS.Set_values (map name metrics));
     performanceScore := getPerformanceScore metrics;
     latestMetrics :=
       fold_left (λ latestMetrics metricName,
           match getLatestMetric metrics metricName with
           | Some latest => JS.assign metricName latest latestMetrics
           | None => latestMetrics
           end)
         (JS.Set_values (map name metrics)) ∅ |}.

Definition clearMetrics (s : State) : State := {| metrics := []; calls := calls s |}.

Record BudgetStatus := {
  withinBudget : bool;
  currentValue : float;
  budget : float;
}.

(** The metric of a name that [filter(...).sort(...)[0]] picks. *)
Definition newest (metrics : list WebVitalMetric) (metricName : string)
    : option WebVitalMetric :=
  JS.at_index
    (JS.sort (λ a b, (timestamp b - timestamp a)%Z)
       (filter (λ m, name m = metricName) metrics))
    0.

(** [checkPerformanceBudgets]; [budgets] are the entries of the budgets
    object as [Object.entries] lists them. *)
Definition checkPerformanceBudgets (metrics : list WebVitalMetric)
    (budgets : list (string * float)) : gmap string BudgetStatus :=
  fold_left (λ result e,
      let metricName := e.1 in
      let budget := e.2 in
      match newest metrics metricName with
      | Some latestMetric =>
          JS.assign metricName
            {| withinBudget := (value latestMetric <=? budget)%float;
               currentValue := value latestMetric;
               budget := budget |}
            result
      | None => result
      end)
    budgets ∅.

Record Violation := {
  metric : string;
  violated_budget : float;
  current : float;
  overage : float;
}.

(** [getBudgetViolations] and [getBudgetSummary] of [usePerformanceBudgets],
    over the entries of [budgetStatus]. *)
Definition getBudgetViolations (budgetStatus : list (string * BudgetStatus))
    : list Violation :=
  map (λ e, {| metric := e.1; violated_budget := budget e.2;
               current := currentValue e.2;
               overage := (currentValue e.2 - budget e.2)%float |})
    (filter (λ e, withinBudget e.2 = false) budgetStatus).

Record BudgetSummary := {
  total : nat;
  passing : Z;
  violations : nat;
  percentPassing : float;
}.

Definition getBudgetSummary (budgetStatus : list (string * BudgetStatus)) : BudgetSummary :=
  let total := length budgetStatus in
  let violations := length (getBudgetViolations budgetStatus) in
  let passing := (Z.of_nat total - Z.of_nat violations)%Z in
  {| total := total;
     passing := passing;
     violations := violations;
     percentPassing :=
       if 0 <? total then (JS.integer passing / JS.number total * 100)%float else 0%float |}.

(** The budget status [usePerformanceBudgets] derives, as its entries. *)
Definition budgetStatus (metrics : list WebVitalMetric) (budgets : list (string * float))
    : list (string * BudgetStatus) :=
  JS.entries (map fst budgets) (checkPerformanceBudgets metrics budgets).

Record VitalData := {
  vital_value : float;
  vital_rating : Rating;
  vital_timestamp : Z;
}.

Record Report := {
  summary : string;
  coreVitals : list (string * VitalData);
  recommendations : list string;
}.

(** The [switch] of [generatePerformanceReport] over one entry. *)
Definition recommend (recommendations : list string) (name : string) (data : VitalData)
    : list string :=
  if decide (name = "LCP") then
    if decide (vital_rating data = poor) then
      recommendations
        ++ ["Optimize LCP by improving server response times and optimizing images"]
    else if decide (vital_rating data = needs_improvement) then
      recommendations ++ ["Consider implementing image optimization for better LCP"]
    else recommendations
  else if decide (name = "FID") then
    if decide (vital_rating data = poor) then
      recommendations
        ++ ["Reduce FID by minimizing JavaScript execution and using code splitting"]
    else if decide (vital_rating data = needs_improvement) then
      recommendations ++ ["Optimize JavaScript to improve First Input Delay"]
    else recommendations
  else if decide (name = "CLS") then
    if decide (vital_rating data = poor) then
      recommendations
        ++ ["Fix CLS by setting explicit dimensions for images and avoiding layout shifts"]
    else if decide (vital_rating data = needs_improvement) then
      recommendations
        ++ ["Improve visual stability by reserving space for dynamic content"]
    else recommendations
  else recommendations.

(** [generatePerformanceReport].  The keys of [coreVitals] are assigned in
    the order of [coreVitalNames] and none is an array index, so its entries
    are the present names in that order. *)
Definition generatePerformanceReport (metrics : list WebVitalMetric) : Report :=
  let coreVitalNames := ["LCP"; "FID"; "CLS"; "FCP"; "TTFB"] in
  let coreVitals :=
    omap (λ name,
        match newest metrics name with
        | Some latest =>
            Some (name, {| vital_value := value latest;
                           vital_rating := rating latest;
                           vital_timestamp := timestamp latest |})
        | None => None
        end)
      coreVitalNames in
  let goodMetrics := length (filter (λ e, vital_rating e.2 = good) coreVitals) in
  let totalMetrics := length coreVitals in
  let summary :=
    if decide (totalMetrics = 0) then "No Core Web Vitals data available yet."
    else if decide (goodMetrics = totalMetrics) then
      "Excellent! All Core Web Vitals are performing well."
    else if (JS.number totalMetrics * 0.8 <=? JS.number goodMetrics)%float then
      "Good performance with minor areas for improvement."
    else "Performance needs attention. Several metrics require optimization." in
  {| summary := summary;
     coreVitals := coreVitals;
     recommendations := fold_left (λ recs e, recommend recs e.1 e.2) coreVitals [] |}.

End WebVitals.

(** A web-vitals metric as the monitor hooks would hold it. *)
Definition as_performance (m : WebVitals.WebVitalMetric) : PerformanceMetric :=
  {| name := WebVitals.name m; value := WebVitals.value m;
     rating := WebVitals.rating m; timestamp := WebVitals.timestamp m; url := None |}.

Definition vital (n : string) (v : float) (r : Rating) (t : Z) : WebVitals.WebVitalMetric :=
  {| WebVitals.name := n; WebVitals.value := v; WebVitals.delta := v;
     WebVitals.id := "v1-" +:+ n; WebVitals.rating := r; WebVitals.timestamp := t |}.

(** Web vitals taken out of order: the LCP metric recorded last is the older
    one. *)
Definition unordered_vitals : list WebVitals.WebVitalMetric :=
  [ vital "LCP" 2300 good 50; vital "FID" 320 poor 20; vital "LCP" 4100 poor 30 ].

Definition quiet_page : WebVitals.Surroundings :=
  {| WebVitals.random := 0.25; WebVitals.in_browser := true;
     WebVitals.gtag_installed := false; WebVitals.fetch_rejects := true |}.

(** How many metrics carry a rating. *)
Definition rated (r : Rating) (ms : list PerformanceMetric) : nat :=
  length (filter (λ m, rating m = r) ms).

(** The critical issue [getPerformanceInsights] words for a core vital. *)
Definition issue_text (n : string) : option string :=
  if decide (n = "LCP") then
    Some "Largest Contentful Paint is slow - optimize images and server response times"
  else if decide (n = "FID") then
    Some "First Input Delay is high - reduce JavaScript execution time"
  else if decide (n = "CLS") then
    Some "Cumulative Layout Shift is high - ensure proper element sizing"
  else None.

(** The recommendation it words for a core vital. *)
Definition advice_text (n : string) : option string :=
  if decide (n = "LCP") then
    Some "Consider optimizing LCP by improving server response times"
  else if decide (n = "FID") then
    Some "Optimize JavaScript to improve First Input Delay"
  else if decide (n = "CLS") then
    Some "Reduce layout shifts by setting image dimensions"
  else None.

(** What one entry of the averages adds to each list of the insights. *)
Definition issues_of (n : string) (a : Monitor.Averages) : list string :=
  if decide (Monitor.avg_rating a = poor) then option_list (issue_text n) else [].

Definition advice_of (n : string) (a : Monitor.Averages) : list string :=
  if decide (Monitor.avg_rating a = needs_improvement)
  then option_list (advice_text n) else [].

Definition progress_of (n : string) (a : Monitor.Averages) : list string :=
  if decide (Monitor.trend a = improving) then [n +:+ " is improving over time"] else [].

(** ** Beyond one page load *)

(** The hook of a later page load over the same browser storage: fresh React
    state, nothing logged yet. *)
Definition reload (w : World) : World :=
  {| window := window w; metrics := []; isLoading := true; warnings := [] |}.

(** The window's storage is reachable and holds [q] metrics at most. *)
Definition storage_open (q : nat) (w : World) : Prop :=
  ∃ win, window w = Some win
         ∧ denied (localStorage win) = false
         ∧ quota (localStorage win) = q.

(** What the mount effect takes from storage: the array under the key, cut
    by [slice(-maxStoredMetrics)], and nothing where persistence is off,
    there is no window, storage is denied, or the text under the key is
    missing, empty, unparseable or not an array. *)
Definition restorable (cfg : Monitor.Config) (w : World) : list PerformanceMetric :=
  match window w with
  | Some win =>
      if Monitor.enableLocalStorage cfg && negb (denied (localStorage win)) then
        match items (localStorage win) !! Monitor.storageKey cfg with
        | Some (ArrayText ms) => JS.slice ms (- Monitor.maxStoredMetrics cfg) None
        | _ => []
        end
      else []
  | None => []
  end.

(** What a call returned, and [d] if it threw. *)
Definition returned {A} (d : A) (c : JS.Completion A) : A :=
  match c with
  | JS.Normal a => a
  | JS.Throw _ => d
  end.

Definition no_insights : Monitor.Insights :=
  {| Monitor.summary := ""; Monitor.recommendations := [];
     Monitor.criticalIssues := []; Monitor.improvements := [] |}.

(** The events [gtag] has been given so far. *)
Definition gtag_log (w : World) : option (list GtagEvent) :=
  match window w with
  | Some win => gtag win
  | None => None
  end.

(** The event [recordMetric] hands to [gtag] for a metric. *)
Definition gtag_event (m : PerformanceMetric) : GtagEvent :=
  {| event_label := name m; metric_rating := rating m; metric_url := url m |}.

(** The score the analytics dashboard falls back to:
    [getPerformanceScore() || 95] over the default hook. *)
Definition dashboard_performanceScore (metrics : list PerformanceMetric) (now : Z) : Z :=
  match Monitor.getPerformanceScore metrics now with
  | Some score => if decide (score = 0%Z) then 95%Z else score
  | None => 95%Z
  end.

(** ** Sample data *)

Definition sample (n : string) (v : float) (r : Rating) (t : Z) : PerformanceMetric :=
  {| name := n; value := v; rating := r; timestamp := t; url := None |}.

Definition call (n : string) (v : float) (r : Rating) (t : option Z) : MetricInput :=
  {| in_name := n; in_value := v; in_rating := r; in_timestamp := t; in_url := None |}.

Definition open_storage : Storage := {| denied := false; quota := 5000; items := ∅ |}.
Definition denied_storage : Storage := {| denied := true; quota := 5000; items := ∅ |}.

Definition browser (st : Storage) (ms : list PerformanceMetric) : World :=
  {| window := Some {| localStorage := st; gtag := None |};
     metrics := ms; isLoading := false; warnings := [] |}.

Definition server (ms : list PerformanceMetric) : World :=
  {| window := None; metrics := ms; isLoading := false; warnings := [] |}.

(** Five LCP metrics rated good, good, poor, poor, poor. *)
Definition two_good_of_five : list PerformanceMetric :=
  [ sample "LCP" 2400 good 1; sample "LCP" 2450 good 2; sample "LCP" 4100 poor 3;
    sample "LCP" 4300 poor 4; sample "LCP" 4200 poor 5 ].

(** Ten metrics of one name: five of value 3000, then five of value 2000. *)
Definition ten_falling (n : string) : list PerformanceMetric :=
  map (λ t, sample n 3000 poor t) [1; 2; 3; 4; 5]%Z
  ++ map (λ t, sample n 2000 good t) [6; 7; 8; 9; 10]%Z.

(** What [getAverages] returned, and no entries if it threw. *)
Definition computed {A} (c : JS.Completion (gmap string A)) : gmap string A :=
  match c with
  | JS.Normal avgs => avgs
  | JS.Throw _ => ∅
  end.

(** A day's metrics in which LCP is last rated good, FID is last rated poor
    and CLS does not occur; a font metric and a two-day-old CLS metric do not
    count. *)
Definition lcp_good_fid_poor : list PerformanceMetric :=
  [ sample "CLS" 0.4 poor 1000; sample "LCP" 4100 poor 172801000;
    sample "FID" 320 poor 172802000; sample "fonts" 35 good 172803000;
    sample "LCP" 2300 good 172804000 ].

(** A metric taken exactly one window before the time of the query. *)
Definition on_the_cutoff : list PerformanceMetric := [ sample "LCP" 2400 good 900 ].

(** Metrics older than a day at time 172805000: LCP rated good, good, poor,
    poor, poor and one poor FID. *)
Definition stale_vitals : list PerformanceMetric :=
  two_good_of_five ++ [ sample "FID" 400 poor 6 ].

(** A browser with the analytics snippet installed. *)
Definition tracked_browser (st : Storage) (ms : list PerformanceMetric) : World :=
  {| window := Some {| localStorage := st; gtag := Some [] |};
     metrics := ms; isLoading := false; warnings := [] |}.

(** A storage that holds two metrics at most. *)
Definition small_storage : Storage := {| denied := false; quota := 2; items := ∅ |}.

Definition at_time (t : Z) : Ambient := {| now := t; pathname := "/" |}.

Definition capacity (c : Z) : Monitor.Config :=
  Monitor.finalConfig
    {| Monitor.opt_maxStoredMetrics := Some c;
       Monitor.opt_enableLocalStorage := None;
       Monitor.opt_storageKey := None;
       Monitor.opt_enableAnalytics := None |}.

(** Three calls that leave the timestamp to the hook. *)
Definition three_calls : list (Ambient * MetricInput) :=
  [ (at_time 10, call "LCP" 2400 good None);
    (at_time 20, call "FID" 80 good None);
    (at_time 30, call "CLS" 0.3 poor None) ].

(** Two calls that bring their own timestamps, the later one the older. *)
Definition backdated_calls : list (Ambient * MetricInput) :=
  [ (at_time 10, call "LCP" 2400 good (Some 2000%Z));
    (at_time 20, call "LCP" 2300 good (Some 1000%Z)) ].

(** ** Notions the properties are stated with *)

(** The [n] most recent entries of a list in insertion order. *)
Definition most_recent {A} (n : nat) (l : list A) : list A :=
  drop (length l - n) l.

Definition non_decreasing (l : list Z) : Prop :=
  ∀ i j a b, i ≤ j → l !! i = Some a → l !! j = Some b → (a ≤ b)%Z.

Definition has_window (w : World) : bool := bool_decide (is_Some (window w)).

(** The metrics a sequence of calls records, as [recordMetric] builds them. *)
Definition recorded (w : World) (calls : list (Ambient * MetricInput)) : list PerformanceMetric :=
  map (λ c, Monitor.newMetric (has_window w) c.1 c.2) calls.

(** A call supplies its own timestamp when the field is there and truthy. *)
Definition supplies_timestamp (m : MetricInput) : Prop :=
  is_Some (JS.truthy_number (in_timestamp m)).

(** The clock readings of a sequence of calls. *)
Definition clock (calls : list (Ambient * MetricInput)) : list Z :=
  map (λ c, now c.1) calls.

(** The metrics of one name, in insertion order. *)
Definition group (n : string) (ms : list PerformanceMetric) : list PerformanceMetric :=
  filter (λ m, name m = n) ms.

(** The group of a name as [getAverages] holds it: a name without metrics has
    no group. *)
Definition nonempty {A} (l : list A) : option (list A) :=
  match l with
  | [] => None
  | _ :: _ => Some l
  end.

Definition good_count (rs : list Rating) : nat :=
  length (filter (λ r, r = good) rs).

(** Mean of the values of a group, summed left to right from zero. *)
Definition mean (l : list PerformanceMetric) : float :=
  (fold_left (λ sum m, sum + value m) l 0 / JS.number (length l))%float.

Definition relative_change (firstHalfMean secondHalfMean : float) : float :=
  ((secondHalfMean - firstHalfMean) / firstHalfMean)%float.

(** Storage can be reached: there is no window to ask, or access is not
    denied. *)
Definition storage_reachable (w : World) : Prop :=
  match window w with
  | Some win => denied (localStorage win) = false
  | None => True
  end.

Definition lower_is_better (n : string) : Prop := n ∈ ["LCP"; "CLS"; "FID"; "TTFB"].

Definition day : Z := 24 * 60 * 60 * 1000.

(** The metrics of the last twenty-four hours. *)
Definition last_day (now : Z) (ms : list PerformanceMetric) : list PerformanceMetric :=
  filter (λ m, (now - day < timestamp m)%Z) ms.

(** The rating of the most recent metric of a name, if there is one. *)
Definition latest_rating (ms : list PerformanceMetric) (n : string) : option Rating :=
  rating <$> last (group n ms).

(** The scores of the core vitals that are present, in the order LCP, FID,
    CLS. *)
Definition present_scores (ms : list PerformanceMetric) : list Z :=
  omap (λ n, Monitor.metricScore <$> latest_rating ms n) ["LCP"; "FID"; "CLS"].

Definition sumZ (l : list Z) : Z := fold_right Z.add 0%Z l.

Definition core_vital (m : PerformanceMetric) : Prop := name m ∈ ["LCP"; "FID"; "CLS"].

(** An entry of the configurable hook without its [lastUpdated] field. *)
Definition forget_lastUpdated (a : Monitor.Averages) : BasicMonitor.Averages :=
  {| BasicMonitor.average := Monitor.average a;
     BasicMonitor.count := Monitor.count a;
     BasicMonitor.avg_rating := Monitor.avg_rating a;
     BasicMonitor.trend := Monitor.trend a |}.

(** ** Slices *)

Lemma slice_to_end {A} (l : list A) (start : Z) :
  JS.slice l start None = drop (JS.relative_index (length l) start) l.
Proof.
  unfold JS.slice. apply take_ge. rewrite length_drop. lia.
Qed.

Lemma slice_last {A} (l : list A) (n : Z) :
  (1 ≤ n)%Z → JS.slice l (- n) None = most_recent (Z.to_nat n) l.
Proof.
  intros Hn. rewrite slice_to_end. unfold most_recent, JS.relative_index.
  destruct (Z.ltb_spec (- n) 0); [|lia].
  f_equal. lia.
Qed.

Lemma slice_minus_zero {A} (l : list A) : JS.slice l (- 0) None = l.
Proof.
  rewrite slice_to_end. unfold JS.relative_index.
  change (- 0)%Z with 0%Z.
  destruct (Z.ltb_spec 0 0); [lia|].
  replace (Z.to_nat (Z.min 0 (Z.of_nat (length l)))) with 0 by lia.
  apply drop_0.
Qed.

Lemma slice_prefix {A} (l : list A) (k : nat) :
  k ≤ length l → JS.slice l 0 (Some (Z.of_nat k)) = take k l.
Proof.
  intros Hk. unfold JS.slice, JS.relative_index.
  change (0 <? 0)%Z with false. cbv iota.
  destruct (Z.ltb_spec (Z.of_nat k) 0); [lia|].
  replace (Z.to_nat (Z.min 0 (Z.of_nat (length l)))) with 0 by lia.
  replace (Z.to_nat (Z.min (Z.of_nat k) (Z.of_nat (length l))) - 0) with k by lia.
  reflexivity.
Qed.

Lemma slice_suffix {A} (l : list A) (k : nat) :
  k ≤ length l → JS.slice l (Z.of_nat k) None = drop k l.
Proof.
  intros Hk. rewrite slice_to_end. unfold JS.relative_index.
  destruct (Z.ltb_spec (Z.of_nat k) 0); [lia|].
  f_equal. lia.
Qed.

Lemma most_recent_length {A} (n : nat) (l : list A) :
  length (most_recent n l) = Nat.min (length l) n.
Proof. unfold most_recent. rewrite length_drop. lia. Qed.

Lemma most_recent_snoc {A} (n : nat) (l : list A) (x : A) :
  1 ≤ n → most_recent n (most_recent n l ++ [x]) = most_recent n (l ++ [x]).
Proof.
  intros Hn. unfold most_recent.
  rewrite !length_app, length_drop. simpl.
  destruct (decide (length l ≤ n)) as [Hle|Hgt].
  - replace (length l - n) with 0 by lia. rewrite drop_0. f_equal. lia.
  - rewrite drop_app_le by (rewrite length_drop; lia).
    rewrite drop_drop.
    rewrite (drop_app_le l) by lia.
    f_equal. f_equal. lia.
Qed.

Lemma most_recent_lookup {A} (n : nat) (l : list A) (i : nat) :
  most_recent n l !! i = l !! (length l - n + i).
Proof. unfold most_recent. apply lookup_drop. Qed.

(** ** What the storage calls leave untouched *)

Lemma with_storage_frame {A} (f : Storage → JS.Completion A * Storage) (w : World) :
  metrics (with_storage f w).2 = metrics w
  ∧ isLoading (with_storage f w).2 = isLoading w
  ∧ warnings (with_storage f w).2 = warnings w
  ∧ has_window (with_storage f w).2 = has_window w.
Proof.
  unfold with_storage, has_window.
  destruct (window w) as [win|] eqn:Hw; simpl; [|by rewrite Hw].
  destruct (denied (localStorage win)); simpl; [by rewrite Hw|].
  destruct (f (localStorage win)); simpl. done.
Qed.

Lemma Monitor_saveEffect_frame (cfg : Monitor.Config) (w : World) :
  (Monitor.saveEffect cfg w).1 = JS.Normal ()
  ∧ metrics (Monitor.saveEffect cfg w).2 = metrics w
  ∧ isLoading (Monitor.saveEffect cfg w).2 = isLoading w
  ∧ has_window (Monitor.saveEffect cfg w).2 = has_window w.
Proof.
  unfold Monitor.saveEffect, try_catch_finally, setItem.
  destruct (negb (isLoading w) && (0 <? length (metrics w))
            && Monitor.enableLocalStorage cfg && bool_decide (is_Some (window w)));
    [|done].
  set (f := λ st : Storage, _).
  destruct (with_storage_frame f w) as (Hm & Hl & _ & Hh).
  destruct (with_storage f w) as [[[]|e] w']; simpl in *; done.
Qed.

Lemma BasicMonitor_saveEffect_frame (w : World) :
  (BasicMonitor.saveEffect w).1 = JS.Normal ()
  ∧ metrics (BasicMonitor.saveEffect w).2 = metrics w
  ∧ isLoading (BasicMonitor.saveEffect w).2 = isLoading w
  ∧ has_window (BasicMonitor.saveEffect w).2 = has_window w.
Proof.
  unfold BasicMonitor.saveEffect, try_catch_finally, setItem.
  destruct (negb (isLoading w) && (0 <? length (metrics w))); [|done].
  set (f := λ st : Storage, _).
  destruct (with_storage_frame f w) as (Hm & Hl & _ & Hh).
  destruct (with_storage f w) as [[[]|e] w']; simpl in *; done.
Qed.

Lemma send_gtag_frame (ev : GtagEvent) (w : World) :
  (send_gtag ev w).1 = JS.Normal ()
  ∧ metrics (send_gtag ev w).2 = metrics w
  ∧ isLoading (send_gtag ev w).2 = isLoading w
  ∧ has_window (send_gtag ev w).2 = has_window w.
Proof.
  unfold send_gtag, has_window.
  destruct (window w) as [[st [log|]]|] eqn:Hw; simpl; rewrite ?Hw; done.
Qed.

(** ** [recordMetric]: one call *)

Lemma Monitor_record_spec (cfg : Monitor.Config) (amb : Ambient) (m : MetricInput) (w : World) :
  (Monitor.record cfg amb m w).1 = JS.Normal ()
  ∧ metrics (Monitor.record cfg amb m w).2
    = JS.slice (metrics w ++ [Monitor.newMetric (has_window w) amb m])
               (- Monitor.maxStoredMetrics cfg) None
  ∧ has_window (Monitor.record cfg amb m w).2 = has_window w.
Proof.
  unfold Monitor.record, Monitor.rendered, Monitor.recordMetric, thenH, bindH.
  set (nm := Monitor.newMetric _ amb m).
  destruct (setMetrics _ w) as [c w1] eqn:H1.
  unfold setMetrics in H1. injection H1 as <- <-.
  set (w1 := {| window := _ |}).
  set (k := if Monitor.enableAnalytics cfg then _ else _).
  assert (Hk : (k w1).1 = JS.Normal () ∧ metrics (k w1).2 = metrics w1
               ∧ has_window (k w1).2 = has_window w1).
  { subst k. destruct (Monitor.enableAnalytics cfg).
    - destruct (send_gtag_frame
        {| event_label := name nm; metric_rating := rating nm; metric_url := url nm |} w1)
        as (? & ? & _ & ?). done.
    - done. }
  destruct Hk as (Hc & Hm & Hh).
  destruct (k w1) as [c2 w2]. simpl in *.
  destruct (Monitor_saveEffect_frame cfg w2) as (_ & Hm' & _ & Hh').
  rewrite Hm', Hh', Hm, Hh. done.
Qed.

Lemma BasicMonitor_record_spec (amb : Ambient) (m : MetricInput) (w : World) :
  (BasicMonitor.record amb m w).1 = JS.Normal ()
  ∧ metrics (BasicMonitor.record amb m w).2
    = JS.slice (metrics w ++ [BasicMonitor.newMetric (has_window w) amb m])
               (- BasicMonitor.MAX_STORED_METRICS) None
  ∧ has_window (BasicMonitor.record amb m w).2 = has_window w.
Proof.
  unfold BasicMonitor.record, BasicMonitor.rendered, BasicMonitor.recordMetric, setMetrics.
  set (w1 := {| window := _ |}).
  destruct (BasicMonitor_saveEffect_frame w1) as (_ & Hm' & _ & Hh').
  simpl. rewrite Hm', Hh'. done.
Qed.

(** ** [recordMetric]: a session of calls *)

Lemma recorded_snoc (w : World) calls (c : Ambient * MetricInput) :
  recorded w (calls ++ [c]) = recorded w calls ++ [Monitor.newMetric (has_window w) c.1 c.2].
Proof. unfold recorded. by rewrite map_app. Qed.

Lemma Monitor_session_snoc (cfg : Monitor.Config) calls (c : Ambient * MetricInput) (w : World) :
  Monitor.session cfg (calls ++ [c]) w
  = (Monitor.record cfg c.1 c.2 (Monitor.session cfg calls w)).2.
Proof. unfold Monitor.session. by rewrite fold_left_app. Qed.

Lemma BasicMonitor_session_snoc calls (c : Ambient * MetricInput) (w : World) :
  BasicMonitor.session (calls ++ [c]) w
  = (BasicMonitor.record c.1 c.2 (BasicMonitor.session calls w)).2.
Proof. unfold BasicMonitor.session. by rewrite fold_left_app. Qed.

Lemma Monitor_session_has_window (cfg : Monitor.Config) calls (w : World) :
  has_window (Monitor.session cfg calls w) = has_window w.
Proof.
  induction calls as [|c calls IH] using rev_ind; [done|].
  rewrite Monitor_session_snoc.
  destruct (Monitor_record_spec cfg c.1 c.2 (Monitor.session cfg calls w)) as (_ & _ & ->).
  exact IH.
Qed.

Lemma BasicMonitor_session_has_window calls (w : World) :
  has_window (BasicMonitor.session calls w) = has_window w.
Proof.
  induction calls as [|c calls IH] using rev_ind; [done|].
  rewrite BasicMonitor_session_snoc.
  destruct (BasicMonitor_record_spec c.1 c.2 (BasicMonitor.session calls w)) as (_ & _ & ->).
  exact IH.
Qed.

(** Whatever the capacity, the store is a suffix of everything recorded. *)
Lemma Monitor_session_suffix (cfg : Monitor.Config) calls (w : World) :
  ∃ j, metrics (Monitor.session cfg calls w) = drop j (metrics w ++ recorded w calls).
Proof.
  induction calls as [|c calls [j IH]] using rev_ind.
  - exists 0. simpl. by rewrite app_nil_r.
  - rewrite Monitor_session_snoc, recorded_snoc.
    destruct (Monitor_record_spec cfg c.1 c.2 (Monitor.session cfg calls w)) as (_ & -> & _).
    rewrite Monitor_session_has_window, slice_to_end, IH.
    set (k := JS.relative_index _ _).
    destruct (decide (j ≤ length (metrics w ++ recorded w calls))) as [Hj|Hj].
    + exists (j + k). rewrite app_assoc.
      rewrite <- (drop_app_le _ _ j) by done. apply drop_drop.
    + exists (length (metrics w ++ recorded w calls) + k).
      rewrite app_assoc, drop_app_add.
      by rewrite (drop_ge (metrics w ++ recorded w calls) j) by lia.
Qed.

(** With a capacity of at least one, it is the most recent [capacity] of
    them. *)
Lemma Monitor_session_most_recent (cfg : Monitor.Config) calls (w : World) :
  (1 ≤ Monitor.maxStoredMetrics cfg)%Z →
  (Z.of_nat (length (metrics w)) ≤ Monitor.maxStoredMetrics cfg)%Z →
  metrics (Monitor.session cfg calls w)
  = most_recent (Z.to_nat (Monitor.maxStoredMetrics cfg)) (metrics w ++ recorded w calls).
Proof.
  intros HC Hlen.
  induction calls as [|c calls IH] using rev_ind.
  - simpl. rewrite app_nil_r. unfold most_recent.
    replace (length (metrics w) - _) with 0 by lia. done.
  - rewrite Monitor_session_snoc, recorded_snoc.
    destruct (Monitor_record_spec cfg c.1 c.2 (Monitor.session cfg calls w)) as (_ & -> & _).
    rewrite Monitor_session_has_window, slice_last, IH by done.
    rewrite most_recent_snoc by lia. by rewrite app_assoc.
Qed.

Lemma BasicMonitor_session_most_recent calls (w : World) :
  length (metrics w) ≤ 1000 →
  metrics (BasicMonitor.session calls w) = most_recent 1000 (metrics w ++ recorded w calls).
Proof.
  intros Hlen.
  induction calls as [|c calls IH] using rev_ind.
  - simpl. rewrite app_nil_r. unfold most_recent.
    replace (length (metrics w) - _) with 0 by lia. done.
  - rewrite BasicMonitor_session_snoc, recorded_snoc.
    destruct (BasicMonitor_record_spec c.1 c.2 (BasicMonitor.session calls w)) as (_ & -> & _).
    rewrite BasicMonitor_session_has_window, IH.
    unfold BasicMonitor.MAX_STORED_METRICS.
    rewrite (slice_last _ 1000) by lia.
    change (Z.to_nat 1000) with 1000.
    rewrite most_recent_snoc by lia. by rewrite app_assoc.
Qed.

(** ** Non-decreasing timestamps *)

Lemma non_decreasing_drop (j : nat) (l : list Z) :
  non_decreasing l → non_decreasing (drop j l).
Proof.
  intros Hl i1 i2 a b Hle Ha Hb. rewrite lookup_drop in Ha, Hb.
  apply (Hl (j + i1) (j + i2)); [lia|done..].
Qed.

Lemma recorded_timestamps (w : World) calls :
  Forall (λ c : Ambient * MetricInput, ¬ supplies_timestamp c.2) calls →
  map timestamp (recorded w calls) = clock calls.
Proof.
  unfold recorded, clock. induction 1 as [|c calls Hc _ IH]; [done|].
  simpl. rewrite IH. f_equal.
  unfold supplies_timestamp in Hc.
  destruct (JS.truthy_number (in_timestamp c.2)) as [t|]; [|done].
  destruct Hc. by exists t.
Qed.

(** ** The bounded store *)

(** C1, as amended: for every capacity of at least one and every sequence of
    [recordMetric] calls on a fresh store, the store holds exactly the
    [min (number recorded) capacity] most recently recorded metrics in
    insertion order; with capacity 1000 and 1200 calls its size is 1000 and
    its first element is the metric recorded at index 200.  The same holds
    for the fixed-constant hook with its capacity of 1000. *)
Theorem record_keeps_most_recent (cfg : Monitor.Config)
    (calls : list (Ambient * MetricInput)) (w : World) :
  (1 ≤ Monitor.maxStoredMetrics cfg)%Z →
  metrics w = [] →
  let C := Z.to_nat (Monitor.maxStoredMetrics cfg) in
  let store := metrics (Monitor.session cfg calls w) in
  store = most_recent C (recorded w calls)
  ∧ length store = Nat.min (length calls) C
  ∧ (∀ i, store !! i = recorded w calls !! (length calls - C + i))
  ∧ (C = 1000 → length calls = 1200 →
     length store = 1000 ∧ store !! 0 = recorded w calls !! 200)
  ∧ metrics (BasicMonitor.session calls w) = most_recent 1000 (recorded w calls).
Proof.
  intros HC Hw C store.
  assert (Hstore : store = most_recent C (recorded w calls)).
  { subst store C. rewrite Monitor_session_most_recent by (rewrite ?Hw; simpl; lia).
    by rewrite Hw. }
  assert (Hrec : length (recorded w calls) = length calls).
  { unfold recorded. apply length_map. }
  assert (Hlen : length store = Nat.min (length calls) C).
  { rewrite Hstore, most_recent_length, Hrec. done. }
  assert (Hlook : ∀ i, store !! i = recorded w calls !! (length calls - C + i)).
  { intros i. rewrite Hstore, most_recent_lookup, Hrec. done. }
  repeat split; try done.
  - rewrite Hlen. lia.
  - rewrite Hlook. f_equal. lia.
  - rewrite BasicMonitor_session_most_recent by (rewrite Hw; simpl; lia).
    by rewrite Hw.
Qed.

(** Three calls on a store of capacity two. *)
Lemma record_keeps_most_recent_witness :
  (1 ≤ Monitor.maxStoredMetrics (capacity 2))%Z
  ∧ metrics (browser open_storage []) = []
  ∧ metrics (Monitor.session (capacity 2) three_calls (browser open_storage []))
    = most_recent 2 (recorded (browser open_storage []) three_calls).
Proof.
  split; [simpl; lia|]. split; [reflexivity|].
  apply (record_keeps_most_recent (capacity 2) three_calls (browser open_storage []));
    [simpl; lia | reflexivity].
Defined.

(** C1 as stated fails for a capacity of zero: [slice(-0)] is [slice(0)], so
    nothing is ever evicted. *)
Lemma capacity_zero_keeps_everything :
  metrics (Monitor.session (capacity 0) three_calls (browser open_storage []))
    ≠ most_recent (Z.to_nat (Monitor.maxStoredMetrics (capacity 0)))
                  (recorded (browser open_storage []) three_calls)
  ∧ length (metrics (Monitor.session (capacity 0) three_calls (browser open_storage [])))
    ≠ Nat.min (length three_calls) (Z.to_nat (Monitor.maxStoredMetrics (capacity 0))).
Proof. split; vm_compute; discriminate. Qed.

(** C7, as amended: when no call supplies a timestamp of its own and the
    clock does not run backwards, the timestamps in the store are
    non-decreasing in insertion order, whatever the capacity. *)
Theorem timestamps_non_decreasing (cfg : Monitor.Config)
    (calls : list (Ambient * MetricInput)) (w : World) :
  metrics w = [] →
  Forall (λ c : Ambient * MetricInput, ¬ supplies_timestamp c.2) calls →
  non_decreasing (clock calls) →
  non_decreasing (map timestamp (metrics (Monitor.session cfg calls w))).
Proof.
  intros Hw Hcalls Hclock.
  destruct (Monitor_session_suffix cfg calls w) as [j ->].
  rewrite Hw. simpl.
  rewrite <- (recorded_timestamps w calls Hcalls) in Hclock.
  change (map timestamp (drop j (recorded w calls)))
    with (timestamp <$> drop j (recorded w calls)).
  rewrite fmap_drop. by apply non_decreasing_drop.
Qed.

(** Three calls stamped by the hook at times 10, 20 and 30. *)
Lemma timestamps_non_decreasing_witness :
  non_decreasing
    (map timestamp
       (metrics (Monitor.session Monitor.DEFAULT_CONFIG three_calls (browser open_storage [])))).
Proof.
  apply (timestamps_non_decreasing Monitor.DEFAULT_CONFIG three_calls (browser open_storage [])).
  - reflexivity.
  - repeat constructor; intros [t Ht]; discriminate Ht.
  - intros i j a b Hij Ha Hb.
    destruct i as [|[|[|i]]], j as [|[|[|j]]]; simpl in Ha, Hb;
      try discriminate; try lia;
      injection Ha as <-; injection Hb as <-; lia.
Defined.

(** C7 as stated fails: a call may bring any timestamp, and it is stored as
    given. *)
Lemma backdated_call_breaks_order :
  ¬ non_decreasing
      (map timestamp
         (metrics (Monitor.session Monitor.DEFAULT_CONFIG backdated_calls
                     (browser open_storage [])))).
Proof.
  intros H. specialize (H 0 1 2000%Z 1000%Z).
  assert (2000 ≤ 1000)%Z; [|lia].
  apply H; [lia | vm_compute; reflexivity..].
Qed.

(** ** Grouping by name *)

Lemma group_snoc (n : string) (ms : list PerformanceMetric) (m : PerformanceMetric) :
  group n (ms ++ [m]) = if decide (name m = n) then group n ms ++ [m] else group n ms.
Proof.
  unfold group. rewrite filter_app, filter_cons, filter_nil.
  destruct (decide (name m = n)); [done|]. by rewrite app_nil_r.
Qed.

Lemma nonempty_snoc {A} (l : list A) (x : A) :
  nonempty (l ++ [x]) = Some (l ++ [x]).
Proof. by destruct l. Qed.

Lemma grouped_snoc (ms : list PerformanceMetric) (m : PerformanceMetric) :
  Monitor.grouped (ms ++ [m]) = Monitor.grouped ms ≫= λ acc, Monitor.group_step acc m.
Proof. unfold Monitor.grouped. by rewrite fold_left_app. Qed.

(** The first [reduce] builds, for every name, the list of its metrics in
    insertion order. *)
Lemma grouped_lookup (ms : list PerformanceMetric) (g : gmap string (list PerformanceMetric))
    (n : string) :
  Monitor.grouped ms = JS.Normal g → g !! n = nonempty (group n ms).
Proof.
  revert g. induction ms as [|m ms IH] using rev_ind; intros g Hg.
  - injection Hg as <-. by rewrite lookup_empty.
  - rewrite grouped_snoc in Hg.
    destruct (Monitor.grouped ms) as [g0|e]; [|discriminate].
    specialize (IH g0 eq_refl).
    unfold mbind, Completion_bind, JS.bind, Monitor.group_step in Hg.
    destruct (decide (name m ∈ JS.Object_prototype_keys)); [discriminate|].
    injection Hg as <-.
    rewrite group_snoc.
    destruct (decide (name m = n)) as [->|Hne].
    + rewrite lookup_insert_eq, nonempty_snoc. f_equal. f_equal.
      destruct (g0 !! n) as [l|] eqn:Hl.
      * rewrite Hl. simpl. destruct (group n ms); [discriminate|]. by injection IH.
      * rewrite lookup_insert_eq. simpl. by destruct (group n ms).
    + rewrite lookup_insert_ne by done.
      destruct (g0 !! name m); [done|]. by rewrite lookup_insert_ne.
Qed.

(** It throws exactly when some name is one an object literal inherits. *)
Lemma grouped_normal (ms : list PerformanceMetric) :
  Forall (λ m, name m ∉ JS.Object_prototype_keys) ms →
  ∃ g, Monitor.grouped ms = JS.Normal g.
Proof.
  induction ms as [|m ms IH] using rev_ind; intros Hms.
  - by exists ∅.
  - apply Forall_app in Hms as [Hms Hm]. apply Forall_inv in Hm.
    destruct (IH Hms) as [g0 Hg0]. rewrite grouped_snoc, Hg0.
    unfold mbind, Completion_bind, JS.bind, Monitor.group_step.
    destruct (decide (name m ∈ JS.Object_prototype_keys)); [contradiction|]. eauto.
Qed.

Lemma getMetrics_window (ms : list PerformanceMetric) (now : Z) (timeRange : option Z) :
  Forall (λ m, name m ∉ JS.Object_prototype_keys) ms →
  Forall (λ m, name m ∉ JS.Object_prototype_keys) (Monitor.getMetrics ms now None timeRange).
Proof.
  intros Hms. unfold Monitor.getMetrics. simpl.
  destruct (JS.truthy_number timeRange); [|done].
  rewrite Forall_forall in Hms |- *.
  intros m Hm. apply list_elem_of_filter in Hm as [_ Hm]. by apply Hms.
Qed.

(** [getAverages] has one entry for each name with metrics in the window. *)
Lemma Monitor_getAverages_lookup (ms : list PerformanceMetric) (now : Z) (timeRange : option Z)
    (avgs : gmap string Monitor.Averages) (n : string) :
  Monitor.getAverages ms now timeRange = JS.Normal avgs →
  avgs !! n = Monitor.entry n <$> nonempty (group n (Monitor.getMetrics ms now None timeRange)).
Proof.
  unfold Monitor.getAverages, JS.cmap, JS.bind. intros H.
  destruct (Monitor.grouped _) as [g|e] eqn:Hg; [|discriminate].
  injection H as <-.
  rewrite map_lookup_imap, (grouped_lookup _ _ n Hg).
  by destruct (nonempty _).
Qed.

Lemma BasicMonitor_getAverages_lookup (ms : list PerformanceMetric) (now : Z)
    (timeRange : option Z) (avgs : gmap string BasicMonitor.Averages) (n : string) :
  BasicMonitor.getAverages ms now timeRange = JS.Normal avgs →
  avgs !! n
  = BasicMonitor.entry n <$> nonempty (group n (BasicMonitor.getMetrics ms now None timeRange)).
Proof.
  unfold BasicMonitor.getAverages, JS.cmap, JS.bind. intros H.
  change (BasicMonitor.grouped ?l) with (Monitor.grouped l) in H.
  destruct (Monitor.grouped _) as [g|e] eqn:Hg; [|discriminate].
  injection H as <-.
  rewrite map_lookup_imap, (grouped_lookup _ _ n Hg).
  by destruct (nonempty _).
Qed.

Lemma Monitor_getAverages_normal (ms : list PerformanceMetric) (now : Z) (timeRange : option Z) :
  Forall (λ m, name m ∉ JS.Object_prototype_keys) ms →
  ∃ avgs, Monitor.getAverages ms now timeRange = JS.Normal avgs.
Proof.
  intros Hms. unfold Monitor.getAverages.
  destruct (grouped_normal _ (getMetrics_window ms now timeRange Hms)) as [g ->].
  simpl. eauto.
Qed.

(** ** Comparisons and roundings of JavaScript numbers *)

Lemma gt_int_half (k len : nat) :
  JS.gt (JS.int k) (JS.int len / 2) = true ↔ len < 2 * k.
Proof.
  unfold JS.gt, JS.int.
  destruct (Qlt_le_dec _ _) as [H|H];
    unfold Qlt, Qle, Qdiv, Qmult, Qinv, inject_Z in H; simpl in H; split; intros; try done; lia.
Qed.

Lemma gt_int_zero (k : nat) : JS.gt (JS.int k) 0 = true ↔ 0 < k.
Proof.
  unfold JS.gt, JS.int.
  destruct (Qlt_le_dec _ _) as [H|H];
    unfold Qlt, Qle, inject_Z in H; simpl in H; split; intros; try done; lia.
Qed.

Lemma floor_half (len : nat) : JS.Math_floor (JS.int len / 2) = Z.of_nat (len / 2).
Proof.
  unfold JS.Math_floor, JS.int.
  change 2%Q with (inject_Z 2). rewrite <- Zdiv_Qdiv.
  by rewrite (Nat2Z.inj_div len 2).
Qed.

Lemma SFcompare_antisym (x y : spec_float) :
  SFcompare y x = CompOpp <$> SFcompare x y.
Proof.
  destruct x as [[]|[]| |[] m1 e1], y as [[]|[]| |[] m2 e2]; simpl; try reflexivity.
  all: rewrite (Z.compare_antisym e1 e2); destruct (e1 ?= e2)%Z; simpl; try reflexivity.
  all: rewrite (Pos.compare_cont_antisym m1 m2 Eq); simpl;
    try rewrite CompOpp_involutive; reflexivity.
Qed.

Lemma SFcompare_defined (x y : spec_float) :
  x ≠ S754_nan → y ≠ S754_nan → is_Some (SFcompare x y).
Proof. destruct x, y; simpl; intros; try done; eauto. Qed.

Lemma float_lt_numbers (x y : float) :
  (x <? y)%float = true → Prim2SF x ≠ S754_nan ∧ Prim2SF y ≠ S754_nan.
Proof.
  rewrite FloatAxioms.ltb_spec. unfold SFltb.
  destruct (Prim2SF x), (Prim2SF y); simpl; intros; try done.
Qed.

Lemma float_abs_number (x : float) :
  Prim2SF x ≠ S754_nan → Prim2SF (PrimFloat.abs x) ≠ S754_nan.
Proof. rewrite FloatAxioms.abs_spec. by destruct (Prim2SF x). Qed.

(** Among numbers, "not at most" is "greater". *)
Lemma float_not_le_gt (x y : float) :
  Prim2SF x ≠ S754_nan → Prim2SF y ≠ S754_nan →
  (x <=? y)%float = false → (y <? x)%float = true.
Proof.
  intros Hx Hy. rewrite FloatAxioms.leb_spec, FloatAxioms.ltb_spec. unfold SFleb, SFltb.
  rewrite (SFcompare_antisym (Prim2SF x) (Prim2SF y)).
  destruct (SFcompare_defined _ _ Hx Hy) as [c ->]. by destruct c.
Qed.

Lemma float_le_not_gt (x y : float) :
  (x <=? y)%float = true → (y <? x)%float = false.
Proof.
  rewrite FloatAxioms.leb_spec, FloatAxioms.ltb_spec. unfold SFleb, SFltb.
  rewrite (SFcompare_antisym (Prim2SF x) (Prim2SF y)).
  by destruct (SFcompare _ _) as [[]|].
Qed.

Lemma float_lt_asym (x y : float) :
  (x <? y)%float = true → (y <? x)%float = false.
Proof.
  rewrite !FloatAxioms.ltb_spec. unfold SFltb.
  rewrite (SFcompare_antisym (Prim2SF x) (Prim2SF y)).
  by destruct (SFcompare _ _) as [[]|].
Qed.

Lemma tenth_number : Prim2SF 0.1 ≠ S754_nan.
Proof. vm_compute. discriminate. Qed.

(** ** The entry of one name *)

Lemma most_recent_slice {A} (l : list A) : JS.slice l (-5) None = most_recent 5 l.
Proof. apply (slice_last l 5). lia. Qed.

Lemma Monitor_entry_rating (n : string) (g : list PerformanceMetric) :
  let recent := map rating (most_recent 5 g) in
  Monitor.avg_rating (Monitor.entry n g)
  = if decide (length recent < 2 * good_count recent) then good
    else if decide (0 < good_count recent) then needs_improvement else poor.
Proof.
  intros recent. cbv [Monitor.entry Monitor.avg_rating].
  rewrite most_recent_slice. fold recent. fold (good_count recent).
  destruct (decide (length recent < 2 * good_count recent)) as [H|H].
  - apply gt_int_half in H. by rewrite H.
  - destruct (JS.gt _ (_ / 2)) eqn:E; [by apply gt_int_half in E|].
    destruct (decide (0 < good_count recent)) as [H0|H0].
    + apply gt_int_zero in H0. by rewrite H0.
    + destruct (JS.gt _ 0) eqn:E0; [by apply gt_int_zero in E0|done].
Qed.

Lemma Monitor_entry_trend (n : string) (g : list PerformanceMetric) :
  Monitor.trend (Monitor.entry n g)
  = if 10 <=? length g then
      let change := relative_change (mean (take (length g / 2) g))
                                    (mean (drop (length g / 2) g)) in
      if (0.1 <? PrimFloat.abs change)%float then
        if bool_decide (lower_is_better n)
        then (if (change <? 0)%float then improving else declining)
        else (if (0 <? change)%float then improving else declining)
      else stable
    else stable.
Proof.
  cbv [Monitor.entry Monitor.trend].
  rewrite floor_half.
  rewrite slice_prefix, slice_suffix by (apply Nat.Div0.div_le_upper_bound; lia).
  reflexivity.
Qed.

Lemma BasicMonitor_entry_eq (n : string) (g : list PerformanceMetric) :
  BasicMonitor.entry n g = forget_lastUpdated (Monitor.entry n g).
Proof. reflexivity. Qed.

(** ** Rating and trend of a group *)

(** C3: for every name with metrics in the window, the rating [getAverages]
    computes is decided by the (up to) five most recent metrics of the name in
    insertion order: good when strictly more than half of them are rated good,
    needs-improvement when the good ones are a tie or a non-zero minority, and
    poor exactly when none is rated good.  The fixed-constant hook computes
    the same rating. *)
Theorem rating_is_majority_of_recent (ms : list PerformanceMetric) (now : Z)
    (timeRange : option Z) (n : string) (avgs : gmap string Monitor.Averages) :
  Monitor.getAverages ms now timeRange = JS.Normal avgs →
  let g := group n (Monitor.getMetrics ms now None timeRange) in
  g ≠ [] →
  let recent := map rating (most_recent 5 g) in
  ∃ a, avgs !! n = Some a
    ∧ (Monitor.avg_rating a = good ↔ length recent < 2 * good_count recent)
    ∧ (Monitor.avg_rating a = needs_improvement
       ↔ 0 < good_count recent ∧ 2 * good_count recent ≤ length recent)
    ∧ (Monitor.avg_rating a = poor ↔ good_count recent = 0)
    ∧ (∀ avgs', BasicMonitor.getAverages ms now timeRange = JS.Normal avgs' →
       BasicMonitor.avg_rating <$> avgs' !! n = Some (Monitor.avg_rating a)).
Proof.
  intros Havgs g Hg recent.
  assert (Hne : nonempty g = Some g) by (by destruct g).
  exists (Monitor.entry n g). split.
  { rewrite (Monitor_getAverages_lookup _ _ _ _ n Havgs). fold g. by rewrite Hne. }
  pose proof (Monitor_entry_rating n g) as Hr. cbv zeta in Hr. fold recent in Hr.
  rewrite Hr.
  refine (conj _ (conj _ (conj _ _))).
  1-3: split; repeat case_decide; intros; try done; try lia.
  intros avgs' Havgs'.
  rewrite (BasicMonitor_getAverages_lookup _ _ _ _ n Havgs').
  change (BasicMonitor.getMetrics ms now None timeRange)
    with (Monitor.getMetrics ms now None timeRange).
  fold g. rewrite Hne, <- Hr. reflexivity.
Qed.

(** Two good ratings among five. *)
Lemma rating_is_majority_of_recent_witness :
  ∃ a, computed (Monitor.getAverages two_good_of_five 100 None) !! "LCP" = Some a
    ∧ (Monitor.avg_rating a = needs_improvement
       ↔ 0 < good_count (map rating (most_recent 5 two_good_of_five))
         ∧ 2 * good_count (map rating (most_recent 5 two_good_of_five))
           ≤ length (map rating (most_recent 5 two_good_of_five))).
Proof.
  destruct (rating_is_majority_of_recent two_good_of_five 100 None "LCP"
              (computed (Monitor.getAverages two_good_of_five 100 None)))
    as (a & Ha & _ & Hni & _).
  - vm_compute. reflexivity.
  - discriminate.
  - exists a. split; [exact Ha | exact Hni].
Defined.

(** C4, as amended: when the five most recent metrics of a name are rated
    good, good, poor, poor, poor, the rating [getAverages] computes is
    needs-improvement: two good ones are a non-zero minority. *)
Theorem two_good_of_five_needs_improvement (ms : list PerformanceMetric) (now : Z)
    (timeRange : option Z) (n : string) (avgs : gmap string Monitor.Averages) :
  Monitor.getAverages ms now timeRange = JS.Normal avgs →
  map rating (most_recent 5 (group n (Monitor.getMetrics ms now None timeRange)))
    = [good; good; poor; poor; poor] →
  Monitor.avg_rating <$> avgs !! n = Some needs_improvement.
Proof.
  intros Havgs Hrecent.
  rewrite (Monitor_getAverages_lookup _ _ _ _ n Havgs).
  set (g := group n _) in *.
  assert (Hne : nonempty g = Some g).
  { destruct g; [discriminate Hrecent | done]. }
  pose proof (Monitor_entry_rating n g) as Hr. cbv zeta in Hr.
  rewrite Hrecent in Hr. rewrite Hne.
  change (Some (Monitor.avg_rating (Monitor.entry n g)) = Some needs_improvement).
  by rewrite Hr.
Qed.

(** The five LCP metrics of the sample data. *)
Lemma two_good_of_five_needs_improvement_witness :
  Monitor.avg_rating <$> computed (Monitor.getAverages two_good_of_five 100 None) !! "LCP"
  = Some needs_improvement.
Proof.
  apply (two_good_of_five_needs_improvement two_good_of_five 100 None "LCP").
  - vm_compute. reflexivity.
  - vm_compute. reflexivity.
Defined.

(** C4 as stated fails: with ratings good, good, poor, poor, poor the computed
    rating is not poor. *)
Lemma two_good_of_five_not_poor :
  map rating (most_recent 5 (group "LCP" (Monitor.getMetrics two_good_of_five 100 None None)))
    = [good; good; poor; poor; poor]
  ∧ Monitor.avg_rating <$> computed (Monitor.getAverages two_good_of_five 100 None) !! "LCP"
    ≠ Some poor.
Proof. split; vm_compute; [reflexivity | discriminate]. Qed.

(** The trend of a group read off the relative change between its halves. *)
Lemma Monitor_entry_trend_cases (n : string) (g : list PerformanceMetric) :
  let change := relative_change (mean (take (length g / 2) g))
                                (mean (drop (length g / 2) g)) in
  let t := Monitor.trend (Monitor.entry n g) in
  (length g < 10 → t = stable)
  ∧ (10 ≤ length g →
     ((PrimFloat.abs change <=? 0.1)%float = true → t = stable)
     ∧ ((PrimFloat.abs change <=? 0.1)%float = false →
        (lower_is_better n →
           ((change <? 0)%float = true → t = improving)
           ∧ ((0 <? change)%float = true → t = declining))
        ∧ (¬ lower_is_better n →
           ((0 <? change)%float = true → t = improving)
           ∧ ((change <? 0)%float = true → t = declining)))).
Proof.
  intros change t. subst t. rewrite Monitor_entry_trend. fold change.
  split.
  - intros Hlen. destruct (Nat.leb_spec 10 (length g)); [lia|done].
  - intros Hlen. destruct (Nat.leb_spec 10 (length g)); [|lia].
    cbv zeta. split.
    + intros Hle. by rewrite (float_le_not_gt _ _ Hle).
    + intros Hgt.
      assert (Hnum : Prim2SF change ≠ S754_nan → (0.1 <? PrimFloat.abs change)%float = true).
      { intros Hc. apply float_not_le_gt; [by apply float_abs_number|apply tenth_number|done]. }
      split; intros Hn.
      * rewrite (bool_decide_eq_true_2 _ Hn). split; intros Hc.
        -- rewrite Hnum by (by apply float_lt_numbers in Hc as [? ?]). by rewrite Hc.
        -- rewrite Hnum by (by apply float_lt_numbers in Hc as [? ?]).
           by rewrite (float_lt_asym _ _ Hc).
      * rewrite (bool_decide_eq_false_2 _ Hn). split; intros Hc.
        -- rewrite Hnum by (by apply float_lt_numbers in Hc as [? ?]). by rewrite Hc.
        -- rewrite Hnum by (by apply float_lt_numbers in Hc as [? ?]).
           by rewrite (float_lt_asym _ _ Hc).
Qed.

(** C5: for every name with metrics in the window, the trend [getAverages]
    computes is stable for fewer than ten metrics; otherwise, with the group
    split in insertion order at [floor (n / 2)] and the relative change
    [(secondHalfMean - firstHalfMean) / firstHalfMean], it is stable when the
    magnitude of the change is at most 0.1, and else improving for a negative
    and declining for a positive change when the name is LCP, CLS, FID or
    TTFB, and improving for a positive and declining for a negative change
    for every other name.  Ten LCP metrics with a first-half mean of 3000 and
    a second-half mean of 2000 are improving. *)
Theorem trend_compares_halves (ms : list PerformanceMetric) (now : Z)
    (timeRange : option Z) (n : string) (avgs : gmap string Monitor.Averages) :
  Monitor.getAverages ms now timeRange = JS.Normal avgs →
  let g := group n (Monitor.getMetrics ms now None timeRange) in
  g ≠ [] →
  let change := relative_change (mean (take (length g / 2) g))
                                (mean (drop (length g / 2) g)) in
  ∃ a, avgs !! n = Some a
    ∧ (length g < 10 → Monitor.trend a = stable)
    ∧ (10 ≤ length g →
       ((PrimFloat.abs change <=? 0.1)%float = true → Monitor.trend a = stable)
       ∧ ((PrimFloat.abs change <=? 0.1)%float = false →
          (lower_is_better n →
             ((change <? 0)%float = true → Monitor.trend a = improving)
             ∧ ((0 <? change)%float = true → Monitor.trend a = declining))
          ∧ (¬ lower_is_better n →
             ((0 <? change)%float = true → Monitor.trend a = improving)
             ∧ ((change <? 0)%float = true → Monitor.trend a = declining))))
    ∧ (n = "LCP" → length g = 10 →
       mean (take 5 g) = 3000%float → mean (drop 5 g) = 2000%float →
       Monitor.trend a = improving).
Proof.
  intros Havgs g Hg change.
  assert (Hne : nonempty g = Some g) by (by destruct g).
  exists (Monitor.entry n g). split.
  { rewrite (Monitor_getAverages_lookup _ _ _ _ n Havgs). fold g. by rewrite Hne. }
  destruct (Monitor_entry_trend_cases n g) as [Hshort Hlong]. fold change in Hlong.
  split; [exact Hshort|]. split; [exact Hlong|].
  intros -> Hlen Hfirst Hsecond.
  destruct (Hlong ltac:(lia)) as [_ Hfar].
  assert (Hchange : change = relative_change 3000 2000).
  { subst change. rewrite Hlen. change (10 / 2) with 5. by rewrite Hfirst, Hsecond. }
  clearbody change. subst change.
  destruct Hfar as [Hlower _]; [vm_compute; reflexivity|].
  destruct Hlower as [Himproving _]; [apply list_elem_of_here|].
  apply Himproving. vm_compute. reflexivity.
Qed.

(** Ten LCP metrics falling from 3000 to 2000. *)
Lemma trend_compares_halves_witness :
  ∃ a, computed (Monitor.getAverages (ten_falling "LCP") 100 None) !! "LCP" = Some a
    ∧ Monitor.trend a = improving.
Proof.
  destruct (trend_compares_halves (ten_falling "LCP") 100 None "LCP"
              (computed (Monitor.getAverages (ten_falling "LCP") 100 None)))
    as (a & Ha & _ & _ & Hscenario).
  - vm_compute. reflexivity.
  - discriminate.
  - exists a. split; [exact Ha|].
    apply Hscenario; vm_compute; reflexivity.
Defined.

(** ** The overall score *)

Lemma round_quotient (s : Z) (k : Z) :
  (0 < k)%Z →
  JS.Math_round (inject_Z s / inject_Z k) = ((2 * s + k) / (2 * k))%Z.
Proof.
  intros Hk. destruct k as [|p|p]; try lia.
  unfold JS.Math_round, Qfloor. simpl. f_equal; lia.
Qed.

(** Rounding to the nearest integer: the result is within a half of the
    quotient, and a quotient half-way between two integers goes up. *)
Lemma round_quotient_nearest (s k r : Z) :
  (0 < k)%Z → JS.Math_round (inject_Z s / inject_Z k) = r →
  (2 * k * r - k ≤ 2 * s < 2 * k * r + k)%Z.
Proof.
  intros Hk. rewrite round_quotient by done. intros <-.
  pose proof (Z.div_mod (2 * s + k) (2 * k) ltac:(lia)) as Hdiv.
  pose proof (Z.mod_pos_bound (2 * s + k) (2 * k) ltac:(lia)) as Hmod.
  lia.
Qed.

(** One round of the [forEach] over the core vitals. *)
Lemma latest_lookup (recent : list PerformanceMetric) (vital : string) :
  let vitalMetrics := filter (λ m, name m = vital) recent in
  (if 0 <? length vitalMetrics then vitalMetrics !! (length vitalMetrics - 1) else None)
  = last (group vital recent).
Proof.
  intros vitalMetrics. fold (group vital recent) in vitalMetrics. subst vitalMetrics.
  rewrite last_lookup, Nat.sub_1_r.
  by destruct (group vital recent).
Qed.

Lemma score_step (recent : list PerformanceMetric) (score count : Z) (vital : string) :
  (if 0 <? length (filter (λ m, name m = vital) recent) then
     match filter (λ m, name m = vital) recent
           !! (length (filter (λ m, name m = vital) recent) - 1) with
     | Some latestMetric =>
         ((score + Monitor.metricScore (rating latestMetric))%Z, (count + 1)%Z)
     | None => (score, count)
     end
   else (score, count))
  = match latest_rating recent vital with
    | Some r => ((score + Monitor.metricScore r)%Z, (count + 1)%Z)
    | None => (score, count)
    end.
Proof.
  unfold latest_rating.
  rewrite <- (latest_lookup recent vital). cbv zeta.
  destruct (0 <? length _); [|done].
  by destruct (_ !! _).
Qed.

(** The whole [forEach]: score and count after visiting [vitals]. *)
Lemma score_loop (recent : list PerformanceMetric) (vitals : list string) (sc : Z * Z) :
  fold_left (λ '(score, count) vital,
      let vitalMetrics := filter (λ m, name m = vital) recent in
      if 0 <? length vitalMetrics then
        match vitalMetrics !! (length vitalMetrics - 1) with
        | Some latestMetric =>
            ((score + Monitor.metricScore (rating latestMetric))%Z, (count + 1)%Z)
        | None => (score, count)
        end
      else (score, count))
    vitals sc
  = fold_left (λ sc vital,
      match latest_rating recent vital with
      | Some r => ((sc.1 + Monitor.metricScore r)%Z, (sc.2 + 1)%Z)
      | None => sc
      end)
    vitals sc.
Proof.
  revert sc. induction vitals as [|v vs IH]; intros [score count]; [done|].
  cbn [fold_left fst snd]. rewrite score_step. apply IH.
Qed.

Lemma score_loop_total (recent : list PerformanceMetric) (vitals : list string) (sc : Z * Z) :
  let scores := omap (λ n, Monitor.metricScore <$> latest_rating recent n) vitals in
  fold_left (λ sc vital,
      match latest_rating recent vital with
      | Some r => ((sc.1 + Monitor.metricScore r)%Z, (sc.2 + 1)%Z)
      | None => sc
      end)
    vitals sc
  = ((sc.1 + sumZ scores)%Z, (sc.2 + Z.of_nat (length scores))%Z).
Proof.
  revert sc. induction vitals as [|v vs IH]; intros [score count].
  - simpl. f_equal; lia.
  - cbn [fold_left omap list_omap]. rewrite IH.
    destruct (latest_rating recent v) as [r|]; cbn [fmap option_fmap option_map fst snd].
    + unfold sumZ. cbn [fold_right length]. f_equal; lia.
    + reflexivity.
Qed.

Lemma getPerformanceScore_scores (ms : list PerformanceMetric) (now : Z) :
  Monitor.getPerformanceScore ms now
  = let scores := present_scores (last_day now ms) in
    if (0 <? Z.of_nat (length scores))%Z
    then Some (JS.Math_round (inject_Z (sumZ scores) / inject_Z (Z.of_nat (length scores))))
    else None.
Proof.
  unfold Monitor.getPerformanceScore.
  change (Monitor.getMetrics ms now None (Some (24 * 60 * 60 * 1000)%Z))
    with (last_day now ms).
  rewrite score_loop, score_loop_total.
  reflexivity.
Qed.

Lemma group_core_vitals (now : Z) (ms : list PerformanceMetric) (n : string) :
  n ∈ ["LCP"; "FID"; "CLS"] →
  group n (last_day now (filter core_vital ms)) = group n (last_day now ms).
Proof.
  intros Hn. unfold group, last_day.
  rewrite !list_filter_filter. apply list_filter_iff.
  intros m. unfold core_vital. split.
  - intros [[? ?] ?]. done.
  - intros [Hm ?]. rewrite Hm. done.
Qed.

Lemma present_scores_core_vitals (now : Z) (ms : list PerformanceMetric) :
  present_scores (last_day now (filter core_vital ms)) = present_scores (last_day now ms).
Proof.
  unfold present_scores. cbn [omap list_omap]. unfold latest_rating.
  rewrite !group_core_vitals; [done|..].
  - apply list_elem_of_further, list_elem_of_further, list_elem_of_here.
  - apply list_elem_of_further, list_elem_of_here.
  - apply list_elem_of_here.
Qed.

(** C6: [getPerformanceScore] looks only at the metrics named LCP, FID and
    CLS of the last day; each of the three that is present contributes the
    score of its most recent rating (good 100, needs-improvement 75, poor 25),
    and the result is the unweighted mean of these scores rounded to the
    nearest integer, or [null] when none of the three is present.  With LCP
    last rated good, FID last rated poor and no CLS it is 63.  Both hooks
    compute the same score. *)
Theorem score_is_rounded_mean_of_core_vitals (ms : list PerformanceMetric) (now : Z) :
  let scores := present_scores (last_day now ms) in
  let k := Z.of_nat (length scores) in
  (Monitor.metricScore good = 100 ∧ Monitor.metricScore needs_improvement = 75
   ∧ Monitor.metricScore poor = 25)%Z
  ∧ (scores = [] → Monitor.getPerformanceScore ms now = None)
  ∧ (scores ≠ [] →
     ∃ r, Monitor.getPerformanceScore ms now = Some r
          ∧ (2 * k * r - k ≤ 2 * sumZ scores < 2 * k * r + k)%Z)
  ∧ Monitor.getPerformanceScore (filter core_vital ms) now
    = Monitor.getPerformanceScore ms now
  ∧ (latest_rating (last_day now ms) "LCP" = Some good →
     latest_rating (last_day now ms) "FID" = Some poor →
     latest_rating (last_day now ms) "CLS" = None →
     Monitor.getPerformanceScore ms now = Some 63%Z)
  ∧ BasicMonitor.getPerformanceScore ms now = Monitor.getPerformanceScore ms now.
Proof.
  intros scores k. split; [done|].
  pose proof (getPerformanceScore_scores ms now) as Hscore.
  cbv zeta in Hscore. fold scores in Hscore. fold k in Hscore.
  split; [|split; [|split; [|split]]].
  - intros Hnone. rewrite Hscore. subst k. by rewrite Hnone.
  - intros Hsome.
    assert (Hk : (0 < k)%Z) by (subst k; destruct scores; [done | simpl; lia]).
    rewrite Hscore. destruct (Z.ltb_spec 0 k); [|lia].
    eexists. split; [reflexivity|].
    by apply round_quotient_nearest.
  - rewrite !getPerformanceScore_scores. cbv zeta.
    by rewrite present_scores_core_vitals.
  - intros Hlcp Hfid Hcls. rewrite Hscore. subst k scores.
    unfold present_scores. cbn [omap list_omap]. rewrite Hlcp, Hfid, Hcls.
    reflexivity.
  - reflexivity.
Qed.

(** LCP good and FID poor within the day: (100 + 25) / 2 rounds to 63. *)
Lemma score_is_rounded_mean_of_core_vitals_witness :
  Monitor.getPerformanceScore lcp_good_fid_poor 172805000 = Some 63%Z.
Proof.
  destruct (score_is_rounded_mean_of_core_vitals lcp_good_fid_poor 172805000)
    as (_ & _ & _ & _ & Hscenario & _).
  apply Hscenario; vm_compute; reflexivity.
Defined.

(** ** Queries *)

(** C2, as amended: a query by a non-empty name returns exactly the metrics
    of that name, in order; a query by a non-zero window alone returns exactly
    the metrics whose timestamp is strictly later than [now - window], so a
    metric taken at exactly [now - window] is left out; and a query leaves the
    world as it was. *)
Theorem query_filters (w : World) (now : Z) (n : string) (window : Z) :
  n ≠ EmptyString → window ≠ 0%Z →
  Monitor.query now (Some n) None w
    = (JS.Normal (filter (λ m, name m = n) (metrics w)), w)
  ∧ Monitor.query now None (Some window) w
    = (JS.Normal (filter (λ m, (now - window < timestamp m)%Z) (metrics w)), w)
  ∧ Monitor.query now (Some n) (Some window) w
    = (JS.Normal (filter (λ m, (now - window < timestamp m)%Z)
                    (filter (λ m, name m = n) (metrics w))), w).
Proof.
  intros Hn Hwindow. unfold Monitor.query, Monitor.getMetrics. simpl.
  destruct (decide (n = "")) as [|_]; [done|].
  destruct (decide (window = 0%Z)) as [|_]; [done|].
  done.
Qed.

(** A query by window over one metric. *)
Lemma query_filters_witness :
  Monitor.query 1000 None (Some 100%Z) (browser open_storage on_the_cutoff)
  = (JS.Normal
       (filter (λ m, (1000 - 100 < timestamp m)%Z)
          (metrics (browser open_storage on_the_cutoff))),
     browser open_storage on_the_cutoff).
Proof.
  destruct (query_filters (browser open_storage on_the_cutoff) 1000 "LCP" 100)
    as (_ & Hwindow & _); [discriminate | discriminate | exact Hwindow].
Defined.

(** C2 as stated fails: a metric whose timestamp is exactly [now - window] is
    not returned. *)
Lemma query_excludes_the_cutoff :
  (Monitor.query 1000 None (Some 100%Z) (browser open_storage on_the_cutoff)).1
  ≠ JS.Normal (filter (λ m, (1000 - 100 ≤ timestamp m)%Z)
                 (metrics (browser open_storage on_the_cutoff))).
Proof. vm_compute. discriminate. Qed.

(** ** Failures of persistence *)

Lemma Monitor_loadEffect_returns (cfg : Monitor.Config) (w : World) :
  (Monitor.loadEffect cfg w).1 = JS.Normal ().
Proof.
  unfold Monitor.loadEffect, try_catch_finally.
  destruct (negb _ || negb _); [done|].
  by destruct (bindH _ _ w) as [[[]|e] w'].
Qed.

Lemma Monitor_mount_returns (cfg : Monitor.Config) (w : World) :
  (Monitor.mount cfg w).1 = JS.Normal ().
Proof.
  unfold Monitor.mount, Monitor.rendered.
  pose proof (Monitor_loadEffect_returns cfg w) as H.
  by destruct (Monitor.loadEffect cfg w).
Qed.

(** [clearMetrics] returns exactly when it does not touch a denied storage. *)
Lemma Monitor_clear_throws (cfg : Monitor.Config) (w : World) (win : Window) :
  Monitor.enableLocalStorage cfg = true →
  window w = Some win →
  denied (localStorage win) = true →
  (Monitor.clear cfg w).1 = JS.Throw JS.SecurityError.
Proof.
  intros Hcfg Hwin Hdenied.
  unfold Monitor.clear, Monitor.rendered, Monitor.clearMetrics, thenH, bindH,
    setMetrics, removeItem, with_storage.
  cbn [window]. rewrite Hcfg, Hwin, Hdenied.
  rewrite bool_decide_eq_true_2 by eauto. reflexivity.
Qed.

Lemma BasicMonitor_clear_throws (w : World) :
  ¬ storage_reachable w →
  (BasicMonitor.clear w).1 = JS.Throw JS.SecurityError.
Proof.
  unfold storage_reachable. intros Hw.
  unfold BasicMonitor.clear, BasicMonitor.rendered, BasicMonitor.clearMetrics, thenH,
    bindH, setMetrics, removeItem, with_storage.
  cbn [window]. destruct (window w) as [win|]; [|done].
  destruct (denied (localStorage win)); [reflexivity|done].
Qed.

(** What the mount effect loads fits the capacity. *)
Lemma Monitor_mount_bounded (cfg : Monitor.Config) (w : World) :
  (1 ≤ Monitor.maxStoredMetrics cfg)%Z →
  metrics w = [] →
  (Z.of_nat (length (metrics (Monitor.mount cfg w).2)) ≤ Monitor.maxStoredMetrics cfg)%Z.
Proof.
  intros HC Hw.
  unfold Monitor.mount, Monitor.rendered.
  destruct (Monitor.loadEffect cfg w) as [c w1] eqn:Hload. cbn [snd].
  destruct (Monitor_saveEffect_frame cfg w1) as (_ & -> & _).
  revert Hload. unfold Monitor.loadEffect, try_catch_finally, bindH, getItem.
  destruct (negb _ || negb _).
  { intros [= _ <-]. simpl. rewrite Hw. simpl. lia. }
  set (f := λ st : Storage, _).
  destruct (with_storage_frame f w) as (Hm & _).
  destruct (with_storage f w) as [[stored|e] w'] eqn:Hget; cbn [snd] in Hm.
  - destruct stored as [[| | |ms]|]; unfold ret, JSON_parse, setMetrics;
      intros [= _ <-]; cbn [metrics setIsLoading console_warn]; rewrite ?Hm, ?Hw;
      try (simpl; lia).
    rewrite (slice_last ms) by done. rewrite most_recent_length. lia.
  - intros [= _ <-]. cbn [metrics setIsLoading console_warn]. rewrite Hm, Hw. simpl. lia.
Qed.

(** C8: where storage is denied, [clearMetrics] of the configurable hook lets
    the [SecurityError] of [localStorage.removeItem] escape to its caller, and
    outside a browser [clearMetrics] of the fixed-constant hook lets the
    [ReferenceError] escape; loading and saving catch the same failures. *)
Theorem clear_throws_when_storage_is_denied :
  (Monitor.clear Monitor.DEFAULT_CONFIG (browser denied_storage two_good_of_five)).1
    = JS.Throw JS.SecurityError
  ∧ (BasicMonitor.clear (browser denied_storage two_good_of_five)).1
    = JS.Throw JS.SecurityError
  ∧ (BasicMonitor.clear (server two_good_of_five)).1 = JS.Throw JS.ReferenceError
  ∧ (Monitor.mount Monitor.DEFAULT_CONFIG (browser denied_storage two_good_of_five)).1
    = JS.Normal ()
  ∧ (Monitor.record Monitor.DEFAULT_CONFIG (at_time 10) (call "LCP" 2400 good None)
       (browser denied_storage two_good_of_five)).1
    = JS.Normal ().
Proof. repeat split; vm_compute; reflexivity. Qed.

(** ** Clearing *)

Lemma Monitor_saveEffect_empty (cfg : Monitor.Config) (w : World) :
  metrics w = [] → Monitor.saveEffect cfg w = (JS.Normal (), w).
Proof.
  intros Hw. unfold Monitor.saveEffect. rewrite Hw. simpl.
  by rewrite andb_false_r.
Qed.

(** C9: after [clearMetrics] a query without arguments returns the empty
    sequence, and when persistence is enabled and the call returned, nothing
    is persisted under the configured key, also after the re-render the call
    causes.  The call returns whenever storage can be reached. *)
Theorem clear_empties_store_and_storage (cfg : Monitor.Config) (w : World) (now : Z) :
  let out := Monitor.clear cfg w in
  (storage_reachable w → out.1 = JS.Normal ())
  ∧ (Monitor.query now None None out.2).1 = JS.Normal []
  ∧ (out.1 = JS.Normal () → Monitor.enableLocalStorage cfg = true →
     persisted (Monitor.storageKey cfg) out.2 = None).
Proof.
  assert (Hsave : ∀ win il ws,
    Monitor.saveEffect cfg {| window := win; metrics := []; isLoading := il; warnings := ws |}
    = (JS.Normal (), {| window := win; metrics := []; isLoading := il; warnings := ws |})).
  { intros. by apply Monitor_saveEffect_empty. }
  destruct w as [[[st g]|] ms il ws];
    unfold Monitor.clear, Monitor.rendered, Monitor.clearMetrics, thenH, bindH,
      setMetrics, removeItem, with_storage, storage_reachable, Monitor.query,
      Monitor.getMetrics, persisted;
    cbn [window metrics isLoading warnings localStorage gtag denied items quota];
    destruct (Monitor.enableLocalStorage cfg); cbn [andb].
  - rewrite bool_decide_eq_true_2 by eauto.
    destruct (denied st); rewrite Hsave; cbn; repeat split; try done.
    intros _ _. apply lookup_delete_eq.
  - rewrite Hsave. cbn. repeat split; done.
  - rewrite bool_decide_eq_false_2 by (intros [? ?]; done).
    rewrite Hsave. cbn. repeat split; done.
  - rewrite Hsave. cbn. repeat split; done.
Qed.

(** Clearing after a session of three calls that were saved to storage. *)
Lemma clear_empties_store_and_storage_witness :
  (Monitor.query 100 None None
     (Monitor.clear Monitor.DEFAULT_CONFIG
        (Monitor.session Monitor.DEFAULT_CONFIG three_calls (browser open_storage []))).2).1
    = JS.Normal []
  ∧ persisted (Monitor.storageKey Monitor.DEFAULT_CONFIG)
      (Monitor.clear Monitor.DEFAULT_CONFIG
         (Monitor.session Monitor.DEFAULT_CONFIG three_calls (browser open_storage []))).2
    = None.
Proof.
  destruct (clear_empties_store_and_storage Monitor.DEFAULT_CONFIG
              (Monitor.session Monitor.DEFAULT_CONFIG three_calls (browser open_storage []))
              100)
    as (Hreturns & Hquery & Hgone).
  split; [exact Hquery|].
  apply Hgone; [apply Hreturns|]; vm_compute; reflexivity.
Defined.

(** ** The two hooks side by side *)

(** C10: on every list of metrics, time and window, [getAverages] of the two
    hooks complete alike and return, for every name, the same average, count,
    rating and trend, and [getPerformanceScore] of the two hooks returns the
    same result. *)
Theorem hooks_aggregate_alike (ms : list PerformanceMetric) (now : Z) (timeRange : option Z) :
  JS.cmap (fmap forget_lastUpdated) (Monitor.getAverages ms now timeRange)
    = BasicMonitor.getAverages ms now timeRange
  ∧ (∀ n a b,
       computed (Monitor.getAverages ms now timeRange) !! n = Some a →
       computed (BasicMonitor.getAverages ms now timeRange) !! n = Some b →
       Monitor.average a = BasicMonitor.average b
       ∧ Monitor.count a = BasicMonitor.count b
       ∧ Monitor.avg_rating a = BasicMonitor.avg_rating b
       ∧ Monitor.trend a = BasicMonitor.trend b)
  ∧ Monitor.getPerformanceScore ms now = BasicMonitor.getPerformanceScore ms now.
Proof.
  assert (Hmaps : JS.cmap (fmap forget_lastUpdated) (Monitor.getAverages ms now timeRange)
                  = BasicMonitor.getAverages ms now timeRange).
  { unfold Monitor.getAverages, BasicMonitor.getAverages, JS.cmap, JS.bind.
    change (BasicMonitor.grouped (BasicMonitor.getMetrics ms now None timeRange))
      with (Monitor.grouped (Monitor.getMetrics ms now None timeRange)).
    destruct (Monitor.grouped _) as [g|e]; [|done].
    f_equal. apply map_eq. intros n.
    rewrite lookup_fmap, !map_lookup_imap.
    by destruct (g !! n). }
  split; [exact Hmaps|]. split; [|reflexivity].
  intros n a b Ha Hb. rewrite <- Hmaps in Hb.
  destruct (Monitor.getAverages ms now timeRange) as [avgs|e]; simpl in *.
  - rewrite lookup_fmap, Ha in Hb. injection Hb as <-. done.
  - by rewrite lookup_empty in Ha.
Qed.

(** ** The range of the score *)

Lemma metricScore_bounds (r : Rating) : (25 ≤ Monitor.metricScore r ≤ 100)%Z.
Proof. destruct r; simpl; lia. Qed.

Lemma present_scores_bounds (ms : list PerformanceMetric) :
  let scores := present_scores ms in
  (25 * Z.of_nat (length scores) ≤ sumZ scores ≤ 100 * Z.of_nat (length scores))%Z.
Proof.
  unfold present_scores. generalize ["LCP"; "FID"; "CLS"].
  intros vitals. induction vitals as [|v vitals IH]; [simpl; lia|].
  cbn [omap list_omap]. destruct (latest_rating ms v) as [r|]; [|exact IH].
  cbn [fmap option_fmap option_map]. cbv zeta in IH |- *.
  unfold sumZ in *. cbn [fold_right length].
  pose proof (metricScore_bounds r). lia.
Qed.

(** X1: whenever [getPerformanceScore] returns a number, it lies between 25
    and 100, in both hooks. *)
Theorem score_between_25_and_100 (ms : list PerformanceMetric) (now : Z) (r : Z) :
  Monitor.getPerformanceScore ms now = Some r ∨ BasicMonitor.getPerformanceScore ms now = Some r →
  (25 ≤ r ≤ 100)%Z.
Proof.
  intros H.
  assert (Hr : Monitor.getPerformanceScore ms now = Some r) by (by destruct H).
  clear H. rewrite getPerformanceScore_scores in Hr. cbv zeta in Hr.
  pose proof (present_scores_bounds (last_day now ms)) as Hb. cbv zeta in Hb.
  set (scores := present_scores (last_day now ms)) in *.
  set (k := Z.of_nat (length scores)) in *.
  destruct (Z.ltb_spec 0 k) as [Hk|Hk]; [|discriminate].
  injection Hr as Hr.
  apply round_quotient_nearest in Hr; [|done].
  split; nia.
Qed.

(** The day's metrics of the sample data score 63. *)
Lemma score_between_25_and_100_witness : (25 ≤ 63 ≤ 100)%Z.
Proof.
  apply (score_between_25_and_100 lcp_good_fid_poor 172805000 63).
  left. vm_compute. reflexivity.
Defined.

(** X2: the dashboard's [getPerformanceScore() || 95] shows the hook's score
    whenever there is one and 95 otherwise: the fallback never replaces a
    score, because a score is never zero. *)
Theorem dashboard_score_fallback (ms : list PerformanceMetric) (now : Z) :
  dashboard_performanceScore ms now = default 95%Z (Monitor.getPerformanceScore ms now)
  ∧ (25 ≤ dashboard_performanceScore ms now ≤ 100)%Z.
Proof.
  unfold dashboard_performanceScore.
  destruct (Monitor.getPerformanceScore ms now) as [r|] eqn:Hr; simpl; [|lia].
  pose proof (score_between_25_and_100 ms now r (or_introl Hr)).
  destruct (decide (r = 0%Z)); lia.
Qed.

(** ** The latest metric of a name *)

Lemma at_index_last {A} (l : list A) :
  JS.at_index l (Z.of_nat (length l) - 1) = last l.
Proof.
  unfold JS.at_index. rewrite last_lookup.
  destruct l as [|x l]; [done|].
  destruct (Z.ltb_spec (Z.of_nat (length (x :: l)) - 1) 0) as [H|H]; [simpl in H; lia|].
  f_equal. simpl. lia.
Qed.

(** X3: for a non-empty name, [getLatestMetric] returns the last metric of
    that name in the store: it carries the name and no metric after it does;
    it returns [undefined] exactly when no metric has the name.  For the
    empty name it returns the last metric of the store, whatever its name. *)
Theorem latest_metric_is_last_of_name (ms : list PerformanceMetric) (now : Z) (n : string) :
  (n ≠ EmptyString →
     Monitor.getLatestMetric ms now n = last (group n ms)
     ∧ (∀ m, Monitor.getLatestMetric ms now n = Some m →
          name m = n
          ∧ ∃ before after, ms = before ++ m :: after ∧ Forall (λ z, name z ≠ n) after)
     ∧ (Monitor.getLatestMetric ms now n = None ↔ Forall (λ z, name z ≠ n) ms))
  ∧ Monitor.getLatestMetric ms now EmptyString = last ms.
Proof.
  split.
  - intros Hn.
    assert (Hlast : Monitor.getLatestMetric ms now n = last (group n ms)).
    { unfold Monitor.getLatestMetric, Monitor.getMetrics. simpl.
      destruct (decide (n = "")); [done|]. apply at_index_last. }
    rewrite Hlast. split; [done|]. split.
    + intros m Hm. split.
      * apply last_Some in Hm as [l Hl].
        assert (Hin : m ∈ group n ms) by (rewrite Hl; set_solver).
        by apply list_elem_of_filter in Hin as [? _].
      * by apply last_filter_Some in Hm.
    + rewrite last_None. unfold group. rewrite Forall_forall. split.
      * intros Hnil m Hm Hname.
        assert (Hin : m ∈ filter (λ z, name z = n) ms) by (by apply list_elem_of_filter).
        rewrite Hnil in Hin. by apply not_elem_of_nil in Hin.
      * intros Hall. destruct (filter _ ms) as [|m l] eqn:Hf; [done|].
        assert (Hin : m ∈ filter (λ z, name z = n) ms) by (rewrite Hf; apply list_elem_of_here).
        apply list_elem_of_filter in Hin as [Hname Hin]. by destruct (Hall m Hin).
  - unfold Monitor.getLatestMetric, Monitor.getMetrics. simpl. apply at_index_last.
Qed.

(** The latest LCP metric of the sample data. *)
Lemma latest_metric_is_last_of_name_witness :
  Monitor.getLatestMetric two_good_of_five 0 "LCP" = last (group "LCP" two_good_of_five).
Proof.
  destruct (latest_metric_is_last_of_name two_good_of_five 0 "LCP") as [Hname _].
  destruct Hname as [Hlast _]; [discriminate|exact Hlast].
Defined.

(** ** Statistics of the store *)

Lemma fold_max_spec (l : list Z) (x : Z) :
  let hi := fold_left Z.max l x in
  (x ≤ hi)%Z ∧ (∀ y, y ∈ l → (y ≤ hi)%Z) ∧ (hi = x ∨ hi ∈ l).
Proof.
  revert x. induction l as [|a l IH]; intros x; simpl.
  - split; [lia|]. split; [|by left]. intros y Hy. by apply not_elem_of_nil in Hy.
  - destruct (IH (Z.max x a)) as (Hx & Hall & Hin). split; [lia|]. split.
    + intros y Hy. apply elem_of_cons in Hy as [->|Hy]; [lia|by apply Hall].
    + destruct Hin as [Hin|Hin].
      * rewrite Hin.
        destruct (Z.max_spec x a) as [[_ ->]|[_ ->]]; [right; apply list_elem_of_here|by left].
      * right. by apply list_elem_of_further.
Qed.

Lemma fold_min_spec (l : list Z) (x : Z) :
  let lo := fold_left Z.min l x in
  (lo ≤ x)%Z ∧ (∀ y, y ∈ l → (lo ≤ y)%Z) ∧ (lo = x ∨ lo ∈ l).
Proof.
  revert x. induction l as [|a l IH]; intros x; simpl.
  - split; [lia|]. split; [|by left]. intros y Hy. by apply not_elem_of_nil in Hy.
  - destruct (IH (Z.min x a)) as (Hx & Hall & Hin). split; [lia|]. split.
    + intros y Hy. apply elem_of_cons in Hy as [->|Hy]; [lia|by apply Hall].
    + destruct Hin as [Hin|Hin].
      * rewrite Hin.
        destruct (Z.min_spec x a) as [[_ ->]|[_ ->]]; [by left|right; apply list_elem_of_here].
      * right. by apply list_elem_of_further.
Qed.

(** X4: for a non-empty store, [getMetricsStats] reports as oldest and newest
    two timestamps that occur in the store and enclose every other one, and
    as time range their non-negative difference; for an empty store it
    reports no oldest, no newest, a range of zero and zero metrics per day. *)
Theorem stats_time_range (ms : list PerformanceMetric) :
  let stats := Monitor.getMetricsStats ms in
  (ms ≠ [] →
     ∃ oldest newest,
       Monitor.oldestMetric stats = Some oldest
       ∧ Monitor.newestMetric stats = Some newest
       ∧ oldest ∈ map timestamp ms ∧ newest ∈ map timestamp ms
       ∧ (∀ m, m ∈ ms → (oldest ≤ timestamp m ≤ newest)%Z)
       ∧ Monitor.timeRange stats = (newest - oldest)%Z
       ∧ (0 ≤ Monitor.timeRange stats)%Z)
  ∧ (ms = [] →
     Monitor.oldestMetric stats = None ∧ Monitor.newestMetric stats = None
     ∧ Monitor.timeRange stats = 0%Z
     ∧ Monitor.averageMetricsPerDay stats = 0%float).
Proof.
  intros stats. split.
  - intros Hms. destruct ms as [|m0 ms]; [done|].
    subst stats. unfold Monitor.getMetricsStats.
    cbn [Monitor.oldestMetric Monitor.newestMetric Monitor.timeRange length Nat.ltb Nat.leb
         map JS.Math_max JS.Math_min].
    destruct (fold_max_spec (map timestamp ms) (timestamp m0)) as (Hx & Hall & Hin).
    destruct (fold_min_spec (map timestamp ms) (timestamp m0)) as (Hx' & Hall' & Hin').
    cbv zeta in *.
    set (hi := fold_left Z.max _ _) in *. set (lo := fold_left Z.min _ _) in *.
    exists lo, hi. split; [done|]. split; [done|].
    split; [destruct Hin' as [->|?]; [apply list_elem_of_here|by apply list_elem_of_further]|].
    split; [destruct Hin as [->|?]; [apply list_elem_of_here|by apply list_elem_of_further]|].
    split; [|split; [done|lia]].
    intros m Hm. apply elem_of_cons in Hm as [->|Hm]; [lia|].
    assert (Ht : timestamp m ∈ map timestamp ms) by (by apply (list_elem_of_fmap_2 timestamp)).
    specialize (Hall _ Ht). specialize (Hall' _ Ht). lia.
  - intros ->. done.
Qed.

(** The sample day runs from timestamp 1000 to timestamp 172804000. *)
Lemma stats_time_range_witness :
  ∃ oldest newest,
    Monitor.oldestMetric (Monitor.getMetricsStats lcp_good_fid_poor) = Some oldest
    ∧ Monitor.newestMetric (Monitor.getMetricsStats lcp_good_fid_poor) = Some newest
    ∧ Monitor.timeRange (Monitor.getMetricsStats lcp_good_fid_poor) = (newest - oldest)%Z.
Proof.
  destruct (stats_time_range lcp_good_fid_poor) as [Hsome _].
  destruct Hsome as (oldest & newest & Ho & Hn & _ & _ & _ & Hr & _); [discriminate|].
  exists oldest, newest. split; [exact Ho|]. split; [exact Hn|exact Hr].
Defined.

Lemma rating_name_inj (r1 r2 : Rating) : Monitor.rating_name r1 = Monitor.rating_name r2 → r1 = r2.
Proof. by destruct r1, r2. Qed.

Lemma rated_snoc (r : Rating) (ms : list PerformanceMetric) (m : PerformanceMetric) :
  rated r (ms ++ [m]) = if decide (rating m = r) then S (rated r ms) else rated r ms.
Proof.
  unfold rated. rewrite filter_app, length_app, filter_cons, filter_nil.
  destruct (decide (rating m = r)); simpl; lia.
Qed.

Lemma ratingDistribution_lookup (ms : list PerformanceMetric) (r : Rating) :
  Monitor.ratingDistribution (Monitor.getMetricsStats ms) !! Monitor.rating_name r
  = if decide (rated r ms = 0) then None else Some (rated r ms).
Proof.
  unfold Monitor.getMetricsStats. cbn [Monitor.ratingDistribution].
  induction ms as [|m ms IH] using rev_ind; [done|].
  rewrite fold_left_app. cbn [fold_left]. rewrite rated_snoc.
  destruct (decide (rating m = r)) as [->|Hne].
  - rewrite lookup_insert_eq, IH.
    destruct (decide (rated r ms = 0)) as [->|]; simpl; f_equal; lia.
  - rewrite lookup_insert_ne; [exact IH|].
    intros Heq. by apply rating_name_inj in Heq.
Qed.

Lemma ratingDistribution_keys (ms : list PerformanceMetric) (k : string) :
  is_Some (Monitor.ratingDistribution (Monitor.getMetricsStats ms) !! k) →
  ∃ r, k = Monitor.rating_name r.
Proof.
  unfold Monitor.getMetricsStats. cbn [Monitor.ratingDistribution].
  induction ms as [|m ms IH] using rev_ind.
  - simpl. rewrite lookup_empty. by intros [? ?].
  - rewrite fold_left_app. cbn [fold_left].
    destruct (decide (Monitor.rating_name (rating m) = k)) as [<-|Hne]; [eauto|].
    by rewrite lookup_insert_ne.
Qed.

Lemma rated_total (ms : list PerformanceMetric) :
  rated good ms + rated needs_improvement ms + rated poor ms = length ms.
Proof.
  induction ms as [|m ms IH] using rev_ind; [done|].
  rewrite !rated_snoc, length_app. simpl.
  destruct (rating m); repeat case_decide; try done; lia.
Qed.

(** X5: the rating distribution of [getMetricsStats] has a key for exactly
    the ratings that occur in the store, each with the number of metrics so
    rated, and these numbers add up to [totalMetrics]. *)
Theorem stats_rating_distribution (ms : list PerformanceMetric) :
  let stats := Monitor.getMetricsStats ms in
  let distribution := Monitor.ratingDistribution stats in
  (∀ r, rated r ms ≠ 0 → distribution !! Monitor.rating_name r = Some (rated r ms))
  ∧ (∀ r, rated r ms = 0 → distribution !! Monitor.rating_name r = None)
  ∧ (∀ k, is_Some (distribution !! k) → ∃ r, k = Monitor.rating_name r)
  ∧ default 0 (distribution !! "good") + default 0 (distribution !! "needs-improvement")
    + default 0 (distribution !! "poor")
    = Monitor.totalMetrics stats.
Proof.
  intros stats distribution. subst distribution stats.
  split; [|split; [|split]].
  - intros r Hr. rewrite ratingDistribution_lookup. by destruct (decide _).
  - intros r Hr. rewrite ratingDistribution_lookup. by destruct (decide _).
  - apply ratingDistribution_keys.
  - change "good" with (Monitor.rating_name good).
    change "needs-improvement" with (Monitor.rating_name needs_improvement).
    change "poor" with (Monitor.rating_name poor).
    rewrite !ratingDistribution_lookup.
    change (Monitor.totalMetrics (Monitor.getMetricsStats ms)) with (length ms).
    rewrite <- (rated_total ms).
    repeat case_decide; simpl; lia.
Qed.

(** Two good and three poor metrics among the five of the sample day. *)
Lemma stats_rating_distribution_witness :
  Monitor.ratingDistribution (Monitor.getMetricsStats lcp_good_fid_poor)
    !! Monitor.rating_name poor
  = Some (rated poor lcp_good_fid_poor).
Proof.
  destruct (stats_rating_distribution lcp_good_fid_poor) as [Hsome _].
  apply Hsome. vm_compute. discriminate.
Defined.

(** ** Distinct names *)

Lemma Set_values_spec (l seen : list string) :
  NoDup seen →
  let out := fold_left (λ seen x, if decide (x ∈ seen) then seen else seen ++ [x]) l seen in
  NoDup out ∧ (∀ x, x ∈ out ↔ x ∈ seen ∨ x ∈ l).
Proof.
  revert seen. induction l as [|a l IH]; intros seen Hseen; simpl.
  - split; [done|]. intros x. split; [by left|]. intros [?|H]; [done|].
    by apply not_elem_of_nil in H.
  - destruct (decide (a ∈ seen)) as [Ha|Ha].
    + destruct (IH seen Hseen) as [Hnd Hel]. split; [done|].
      intros x. rewrite Hel, elem_of_cons. split; [tauto|].
      intros [?|[->|?]]; tauto.
    + assert (Hnd' : NoDup (seen ++ [a])).
      { apply NoDup_app. split; [done|]. split; [|apply NoDup_singleton].
        intros x Hx Hxa. apply list_elem_of_singleton in Hxa as ->. done. }
      destruct (IH _ Hnd') as [Hnd Hel]. split; [done|].
      intros x. rewrite Hel, elem_of_app, list_elem_of_singleton, elem_of_cons. tauto.
Qed.

Lemma Set_values_NoDup (l : list string) : NoDup (JS.Set_values l).
Proof. apply (Set_values_spec l []). apply NoDup_nil_2. Qed.

Lemma Set_values_elem_of (l : list string) (x : string) : x ∈ JS.Set_values l ↔ x ∈ l.
Proof.
  destruct (Set_values_spec l [] (NoDup_nil_2)) as [_ H]. unfold JS.Set_values.
  rewrite H. split; [|by right]. intros [Hx|?]; [|done]. by apply not_elem_of_nil in Hx.
Qed.

Lemma group_nonempty (n : string) (ms : list PerformanceMetric) :
  is_Some (nonempty (group n ms)) ↔ n ∈ map name ms.
Proof.
  unfold group. split.
  - intros [l Hl]. destruct (filter _ ms) as [|m g] eqn:Hf; [discriminate|].
    assert (Hin : m ∈ filter (λ z, name z = n) ms) by (rewrite Hf; apply list_elem_of_here).
    apply list_elem_of_filter in Hin as [<- Hin].
    by apply (list_elem_of_fmap_2 name).
  - intros Hn. apply (list_elem_of_fmap_1 name) in Hn as (m & -> & Hm).
    assert (Hin : m ∈ filter (λ z, name z = name m) ms) by (by apply list_elem_of_filter).
    destruct (filter _ ms); [by apply not_elem_of_nil in Hin|]. simpl. eauto.
Qed.

(** X6: [uniqueMetrics] of [getMetricsStats] is the number of entries
    [getAverages] returns over the whole store, it never exceeds
    [totalMetrics], and it is zero only for an empty store. *)
Theorem stats_unique_metrics (ms : list PerformanceMetric) (now : Z)
    (avgs : gmap string Monitor.Averages) :
  Monitor.getAverages ms now None = JS.Normal avgs →
  Monitor.uniqueMetrics (Monitor.getMetricsStats ms) = size avgs
  ∧ Monitor.uniqueMetrics (Monitor.getMetricsStats ms)
    ≤ Monitor.totalMetrics (Monitor.getMetricsStats ms)
  ∧ (Monitor.uniqueMetrics (Monitor.getMetricsStats ms) = 0 ↔ ms = []).
Proof.
  intros Havgs.
  change (Monitor.uniqueMetrics (Monitor.getMetricsStats ms))
    with (length (JS.Set_values (map name ms))).
  change (Monitor.totalMetrics (Monitor.getMetricsStats ms)) with (length ms).
  assert (Hdom : dom avgs = list_to_set (JS.Set_values (map name ms))).
  { apply set_eq. intros n.
    rewrite elem_of_dom, elem_of_list_to_set, Set_values_elem_of.
    rewrite (Monitor_getAverages_lookup _ _ _ _ n Havgs).
    change (Monitor.getMetrics ms now None None) with ms.
    rewrite <- group_nonempty. rewrite fmap_is_Some. done. }
  split; [|split].
  - rewrite <- size_dom, Hdom. symmetry. apply size_list_to_set, Set_values_NoDup.
  - rewrite <- (length_map name ms).
    apply submseteq_length, NoDup_submseteq; [apply Set_values_NoDup|].
    intros x. by rewrite Set_values_elem_of.
  - split.
    + intros Hzero. apply nil_length_inv in Hzero.
      destruct ms as [|m ms]; [done|].
      assert (Hin : name m ∈ JS.Set_values (map name (m :: ms))).
      { apply Set_values_elem_of. apply list_elem_of_here. }
      rewrite Hzero in Hin. by apply not_elem_of_nil in Hin.
    + by intros ->.
Qed.

(** Four names among the five metrics of the sample day. *)
Lemma stats_unique_metrics_witness :
  Monitor.uniqueMetrics (Monitor.getMetricsStats lcp_good_fid_poor)
  = size (computed (Monitor.getAverages lcp_good_fid_poor 0 None)).
Proof.
  apply (stats_unique_metrics lcp_good_fid_poor 0
           (computed (Monitor.getAverages lcp_good_fid_poor 0 None))).
  vm_compute. reflexivity.
Defined.

(** ** What the averages cover *)

Lemma count_partition (ks : list string) (l : list PerformanceMetric) :
  NoDup ks → (∀ m, m ∈ l → name m ∈ ks) →
  sum_list (map (λ n, length (group n l)) ks) = length l.
Proof.
  intros Hks. induction l as [|m l IH]; intros Hl.
  - clear Hl. induction ks as [|k ks IHk]; [done|]. apply NoDup_cons in Hks as [_ Hks].
    exact (IHk Hks).
  - assert (Hm : name m ∈ ks) by (apply Hl, list_elem_of_here).
    assert (IH' : sum_list (map (λ n, length (group n l)) ks) = length l).
    { apply IH. intros z Hz. by apply Hl, list_elem_of_further. }
    simpl. rewrite <- IH'. clear IH IH' Hl.
    induction ks as [|k ks IHk]; [by apply not_elem_of_nil in Hm|].
    apply NoDup_cons in Hks as [Hk Hks]. simpl.
    unfold group at 1. rewrite filter_cons.
    destruct (decide (name m = k)) as [Heq|Hne].
    + assert (Hrest : map (λ n, length (group n (m :: l))) ks
                      = map (λ n, length (group n l)) ks).
      { apply map_ext_in. intros n Hn. unfold group. rewrite filter_cons.
        destruct (decide (name m = n)) as [Heq'|]; [|done].
        apply list_elem_of_In in Hn. congruence. }
      rewrite Hrest. simpl. unfold group. lia.
    + apply elem_of_cons in Hm as [?|Hm]; [done|].
      rewrite (IHk Hks Hm). unfold group. lia.
Qed.

(** X7: [getAverages] has an entry for exactly the names that occur in the
    window; the entry of a name counts the metrics of that name in the
    window (at least one) and carries their newest timestamp as
    [lastUpdated]; and the counts of all entries add up to the number of
    metrics in the window. *)
Theorem averages_cover_the_window (ms : list PerformanceMetric) (now : Z)
    (timeRange : option Z) (avgs : gmap string Monitor.Averages) :
  Monitor.getAverages ms now timeRange = JS.Normal avgs →
  let relevant := Monitor.getMetrics ms now None timeRange in
  (∀ n, is_Some (avgs !! n) ↔ n ∈ map name relevant)
  ∧ (∀ n a, avgs !! n = Some a →
       Monitor.count a = length (group n relevant)
       ∧ 0 < Monitor.count a
       ∧ ∃ newest, Monitor.lastUpdated a = Some newest
           ∧ newest ∈ map timestamp (group n relevant)
           ∧ ∀ m, m ∈ group n relevant → (timestamp m ≤ newest)%Z)
  ∧ sum_list (map (λ n, default 0 (Monitor.count <$> avgs !! n))
                (JS.Set_values (map name relevant)))
    = length relevant.
Proof.
  intros Havgs relevant.
  assert (Hlook : ∀ n, avgs !! n = Monitor.entry n <$> nonempty (group n relevant)).
  { intros n. apply (Monitor_getAverages_lookup _ _ _ _ n Havgs). }
  split; [|split].
  - intros n. rewrite Hlook, fmap_is_Some. apply group_nonempty.
  - intros n a Ha. rewrite Hlook in Ha.
    destruct (group n relevant) as [|m g] eqn:Hg; [discriminate|].
    injection Ha as <-.
    change (Monitor.count (Monitor.entry n (m :: g))) with (length (m :: g)).
    split; [done|]. split; [simpl; lia|].
    change (Monitor.lastUpdated (Monitor.entry n (m :: g)))
      with (JS.Math_max (map timestamp (m :: g))).
    cbn [map JS.Math_max].
    destruct (fold_max_spec (map timestamp g) (timestamp m)) as (Hx & Hall & Hin).
    cbv zeta in *. eexists. split; [reflexivity|]. split.
    + destruct Hin as [->|?]; [apply list_elem_of_here|by apply list_elem_of_further].
    + intros z Hz. apply elem_of_cons in Hz as [->|Hz]; [done|].
      apply Hall. by apply (list_elem_of_fmap_2 timestamp).
  - rewrite <- (count_partition (JS.Set_values (map name relevant)) relevant).
    + f_equal. apply map_ext_in. intros n _. rewrite Hlook.
      by destruct (group n relevant).
    + apply Set_values_NoDup.
    + intros m Hm. apply Set_values_elem_of. by apply (list_elem_of_fmap_2 name).
Qed.

(** The averages of the sample day. *)
Lemma averages_cover_the_window_witness :
  sum_list (map (λ n, default 0 (Monitor.count
                                   <$> computed (Monitor.getAverages lcp_good_fid_poor 0 None) !! n))
              (JS.Set_values (map name (Monitor.getMetrics lcp_good_fid_poor 0 None None))))
  = length (Monitor.getMetrics lcp_good_fid_poor 0 None None).
Proof.
  apply (averages_cover_the_window lcp_good_fid_poor 0 None
           (computed (Monitor.getAverages lcp_good_fid_poor 0 None))).
  vm_compute. reflexivity.
Defined.

(** ** The order of an object's keys *)

Lemma insert_index_Permutation (k : string) (l : list string) :
  JS.insert_index k l ≡ₚ k :: l.
Proof.
  induction l as [|x l IH]; [done|]. simpl.
  destruct (_ <=? _)%N; [done|].
  rewrite IH. apply Permutation_swap.
Qed.

Lemma sort_indices_Permutation (l : list string) : foldr JS.insert_index [] l ≡ₚ l.
Proof.
  induction l as [|x l IH]; [done|]. simpl.
  by rewrite insert_index_Permutation, IH.
Qed.

Lemma own_keys_Permutation (l : list string) : JS.own_keys l ≡ₚ JS.Set_values l.
Proof.
  unfold JS.own_keys. rewrite sort_indices_Permutation.
  apply filter_app_complement.
Qed.

Lemma own_keys_NoDup (l : list string) : NoDup (JS.own_keys l).
Proof. rewrite own_keys_Permutation. apply Set_values_NoDup. Qed.

Lemma own_keys_elem_of (l : list string) (k : string) : k ∈ JS.own_keys l ↔ k ∈ l.
Proof. rewrite own_keys_Permutation. apply Set_values_elem_of. Qed.

Lemma entries_elem_of {A} (assigned : list string) (o : gmap string A) (k : string) (a : A) :
  (k, a) ∈ JS.entries assigned o ↔ k ∈ assigned ∧ o !! k = Some a.
Proof.
  unfold JS.entries. rewrite list_elem_of_omap. split.
  - intros (k' & Hk' & Hlook). rewrite own_keys_elem_of in Hk'.
    destruct (o !! k') as [a'|] eqn:Ho; [|discriminate].
    injection Hlook as -> ->. done.
  - intros [Hk Hlook]. exists k. split; [by apply own_keys_elem_of|]. by rewrite Hlook.
Qed.

Lemma entries_keys_NoDup {A} (assigned : list string) (o : gmap string A) :
  NoDup (JS.entries assigned o).*1.
Proof.
  unfold JS.entries. generalize (own_keys_NoDup assigned).
  generalize (JS.own_keys assigned). intros ks Hks.
  induction ks as [|k ks IH]; [constructor|].
  apply NoDup_cons in Hks as [Hk Hks]. cbn [omap list_omap].
  destruct (o !! k) as [a|]; cbn [fmap option_fmap option_map]; [|by apply IH].
  cbn [fmap list_fmap fst]. apply NoDup_cons. split; [|by apply IH].
  intros Hin. apply list_elem_of_fmap in Hin as ([k' a'] & -> & Hin).
  apply list_elem_of_omap in Hin as (k'' & Hk'' & Hlook).
  destruct (o !! k''); [|discriminate]. injection Hlook as -> ->. done.
Qed.

(** ** Insights *)

Lemma analyse_fields (insights : Monitor.Insights) (n : string) (a : Monitor.Averages) :
  Monitor.summary (Monitor.analyse insights n a) = Monitor.summary insights
  ∧ Monitor.criticalIssues (Monitor.analyse insights n a)
    = Monitor.criticalIssues insights ++ issues_of n a
  ∧ Monitor.recommendations (Monitor.analyse insights n a)
    = Monitor.recommendations insights ++ advice_of n a
  ∧ Monitor.improvements (Monitor.analyse insights n a)
    = Monitor.improvements insights ++ progress_of n a.
Proof.
  unfold Monitor.analyse, issues_of, advice_of, progress_of, issue_text, advice_text.
  destruct (Monitor.trend a), (Monitor.avg_rating a);
    repeat case_decide; try done; simpl; rewrite ?app_nil_r; done.
Qed.

Lemma analyse_all_fields (es : list (string * Monitor.Averages)) (insights : Monitor.Insights) :
  let out := fold_left (λ insights e, Monitor.analyse insights e.1 e.2) es insights in
  Monitor.summary out = Monitor.summary insights
  ∧ Monitor.criticalIssues out
    = Monitor.criticalIssues insights ++ flat_map (λ e, issues_of e.1 e.2) es
  ∧ Monitor.recommendations out
    = Monitor.recommendations insights ++ flat_map (λ e, advice_of e.1 e.2) es
  ∧ Monitor.improvements out
    = Monitor.improvements insights ++ flat_map (λ e, progress_of e.1 e.2) es.
Proof.
  revert insights. induction es as [|e es IH]; intros insights; simpl.
  - by rewrite !app_nil_r.
  - destruct (IH (Monitor.analyse insights e.1 e.2)) as (-> & -> & -> & ->).
    destruct (analyse_fields insights e.1 e.2) as (-> & -> & -> & ->).
    by rewrite <- !app_assoc.
Qed.

Lemma issue_text_inj (n1 n2 text : string) :
  issue_text n1 = Some text → issue_text n2 = Some text → n1 = n2.
Proof. unfold issue_text. repeat case_decide; congruence. Qed.

Lemma advice_text_inj (n1 n2 text : string) :
  advice_text n1 = Some text → advice_text n2 = Some text → n1 = n2.
Proof. unfold advice_text. repeat case_decide; congruence. Qed.

Lemma text_core_vital (n : string) :
  is_Some (issue_text n) ∨ is_Some (advice_text n) → n ∈ ["LCP"; "FID"; "CLS"].
Proof.
  unfold issue_text, advice_text.
  repeat case_decide; subst; intros [[? ?]|[? ?]]; try discriminate;
    repeat first [apply list_elem_of_here | apply list_elem_of_further].
Qed.

Lemma string_length_append (a b : string) :
  String.length (a +:+ b) = String.length a + String.length b.
Proof. induction a as [|c a IH]; simpl; [done|by rewrite IH]. Qed.

Lemma append_inj_suffix (s a b : string) : a +:+ s = b +:+ s → a = b.
Proof.
  revert b. induction a as [|c a IH]; intros [|d b] H.
  - done.
  - apply (f_equal String.length) in H.
    change (String.length s = S (String.length (b +:+ s))) in H.
    rewrite string_length_append in H. lia.
  - apply (f_equal String.length) in H.
    change (S (String.length (a +:+ s)) = String.length s) in H.
    rewrite string_length_append in H. lia.
  - injection H as -> H. f_equal. by apply IH.
Qed.

Lemma elem_of_flat_map {A B} (f : A → list B) (l : list A) (y : B) :
  y ∈ flat_map f l ↔ ∃ x, x ∈ l ∧ y ∈ f x.
Proof.
  rewrite list_elem_of_In, in_flat_map. split; intros (x & Hx & Hy); exists x.
  - by rewrite !list_elem_of_In.
  - by rewrite <- !list_elem_of_In.
Qed.

(** At most one line per core vital among issues and recommendations. *)
Lemma issues_and_advice_bound (es : list (string * Monitor.Averages)) :
  NoDup es.*1 →
  length (flat_map (λ e, issues_of e.1 e.2) es)
  + length (flat_map (λ e, advice_of e.1 e.2) es) ≤ 3.
Proof.
  intros Hnd.
  assert (Hle : length (flat_map (λ e, issues_of e.1 e.2) es)
                + length (flat_map (λ e, advice_of e.1 e.2) es)
                ≤ length (filter (λ n, n ∈ ["LCP"; "FID"; "CLS"]) es.*1)).
  { clear Hnd. induction es as [|[n a] es IH]; [done|].
    cbn [flat_map fmap list_fmap fst snd]. rewrite !length_app, filter_cons.
    assert (Hone : length (issues_of n a) + length (advice_of n a)
                   ≤ if decide (n ∈ ["LCP"; "FID"; "CLS"]) then 1 else 0).
    { pose proof (text_core_vital n) as Hcore.
      unfold issues_of, advice_of.
      destruct (issue_text n) as [t|] eqn:Hi, (advice_text n) as [t'|] eqn:Ha.
      1-3: destruct (decide (n ∈ ["LCP"; "FID"; "CLS"])) as [_|Hn];
           [|destruct Hn; apply Hcore; eauto];
           destruct (Monitor.avg_rating a); repeat case_decide; try done; simpl; lia.
      repeat case_decide; simpl; lia. }
    destruct (decide (n ∈ ["LCP"; "FID"; "CLS"])); simpl in *; lia. }
  etrans; [exact Hle|].
  change 3 with (length ["LCP"; "FID"; "CLS"]).
  apply submseteq_length, NoDup_submseteq.
  - by apply NoDup_filter.
  - intros n Hn. by apply list_elem_of_filter in Hn as [? _].
Qed.

(** X8: in what [getPerformanceInsights] returns, the critical issue of a
    core vital is listed exactly when the store has metrics of that vital and
    none of its five most recent ones is rated good; its recommendation
    exactly when the good ones among them are a tie or a non-zero minority;
    issues and recommendations together are at most three lines; a name is
    reported as improving exactly when its trend over the whole store is
    improving; and the summary says that no data is available exactly when
    no LCP, FID or CLS metric was taken within the last day, whatever the
    older metrics show. *)
Theorem insights_follow_the_averages (ms : list PerformanceMetric) (now : Z)
    (insights : Monitor.Insights) :
  Monitor.getPerformanceInsights ms now = JS.Normal insights →
  (∀ v text, issue_text v = Some text →
     (text ∈ Monitor.criticalIssues insights
      ↔ group v ms ≠ [] ∧ good_count (map rating (most_recent 5 (group v ms))) = 0))
  ∧ (∀ v text, advice_text v = Some text →
     (text ∈ Monitor.recommendations insights
      ↔ 0 < good_count (map rating (most_recent 5 (group v ms)))
        ∧ 2 * good_count (map rating (most_recent 5 (group v ms)))
          ≤ length (map rating (most_recent 5 (group v ms)))))
  ∧ length (Monitor.criticalIssues insights) + length (Monitor.recommendations insights) ≤ 3
  ∧ (∀ n, (n +:+ " is improving over time") ∈ Monitor.improvements insights
          ↔ group n ms ≠ [] ∧ Monitor.trend (Monitor.entry n (group n ms)) = improving)
  ∧ (Monitor.summary insights = "No performance data available yet."
     ↔ present_scores (last_day now ms) = []).
Proof.
  unfold Monitor.getPerformanceInsights. intros H.
  destruct (Monitor.getAverages ms now None) as [avgs|e] eqn:Havgs; [|discriminate].
  unfold mbind, Completion_bind, JS.bind in H. injection H as <-.
  change (Monitor.getMetrics ms now None None) with ms.
  set (es := JS.entries (map name ms) avgs).
  set (init := {| Monitor.summary := _ |}).
  destruct (analyse_all_fields es init) as (Hsum & Hcrit & Hrec & Himp).
  cbv zeta in Hsum, Hcrit, Hrec, Himp. rewrite Hsum, Hcrit, Hrec, Himp.
  cbn [Monitor.summary Monitor.criticalIssues Monitor.recommendations
       Monitor.improvements init app].
  assert (Hes : ∀ n a, (n, a) ∈ es ↔ group n ms ≠ [] ∧ a = Monitor.entry n (group n ms)).
  { intros n a. subst es. rewrite entries_elem_of.
    rewrite (Monitor_getAverages_lookup _ _ _ _ n Havgs).
    change (Monitor.getMetrics ms now None None) with ms.
    pose proof (group_nonempty n ms) as Hne.
    destruct (group n ms) as [|m g] eqn:Hg; simpl in *.
    - split; [intros [_ ?]; discriminate|intros [? _]; done].
    - split.
      + intros [_ [= <-]]. done.
      + intros [_ ->]. split; [apply Hne; eauto|done]. }
  assert (Hrating : ∀ n, let recent := map rating (most_recent 5 (group n ms)) in
    (Monitor.avg_rating (Monitor.entry n (group n ms)) = poor ↔ good_count recent = 0)
    ∧ (Monitor.avg_rating (Monitor.entry n (group n ms)) = needs_improvement
       ↔ 0 < good_count recent ∧ 2 * good_count recent ≤ length recent)).
  { intros n recent. pose proof (Monitor_entry_rating n (group n ms)) as Hr.
    cbv zeta in Hr. fold recent in Hr. rewrite Hr.
    split; split; repeat case_decide; intros; try done; try lia. }
  split; [|split; [|split; [|split]]].
  - intros v text Hv. rewrite elem_of_flat_map. split.
    + intros ([n a] & Hin & Htext). apply Hes in Hin as [Hne ->].
      unfold issues_of in Htext. cbn [fst snd] in Htext.
      destruct (decide _) as [Hpoor|]; [|by apply not_elem_of_nil in Htext].
      destruct (issue_text n) as [t|] eqn:Hn; [|by apply not_elem_of_nil in Htext].
      apply list_elem_of_singleton in Htext as ->.
      rewrite (issue_text_inj _ _ _ Hv Hn). split; [done|].
      by apply (Hrating n).
    + intros [Hne Hzero]. exists (v, Monitor.entry v (group v ms)). split; [by apply Hes|].
      unfold issues_of. cbn [fst snd]. apply (Hrating v) in Hzero.
      rewrite decide_True by done. rewrite Hv. apply list_elem_of_here.
  - intros v text Hv. rewrite elem_of_flat_map. split.
    + intros ([n a] & Hin & Htext). apply Hes in Hin as [Hne ->].
      unfold advice_of in Htext. cbn [fst snd] in Htext.
      destruct (decide _) as [Hni|]; [|by apply not_elem_of_nil in Htext].
      destruct (advice_text n) as [t|] eqn:Hn; [|by apply not_elem_of_nil in Htext].
      apply list_elem_of_singleton in Htext as ->.
      rewrite (advice_text_inj _ _ _ Hv Hn). by apply (Hrating n).
    + intros Hmin. exists (v, Monitor.entry v (group v ms)). split.
      * apply Hes. split; [|done]. intros Hnil. rewrite Hnil in Hmin.
        destruct Hmin as [Hpos _]. simpl in Hpos. unfold good_count in Hpos. simpl in Hpos. lia.
      * unfold advice_of. cbn [fst snd]. apply (Hrating v) in Hmin.
        rewrite decide_True by done. rewrite Hv. apply list_elem_of_here.
  - apply issues_and_advice_bound. apply entries_keys_NoDup.
  - intros n. rewrite elem_of_flat_map. split.
    + intros ([n' a] & Hin & Htext). apply Hes in Hin as [Hne ->].
      unfold progress_of in Htext. cbn [fst snd] in Htext.
      destruct (decide _) as [Htrend|]; [|by apply not_elem_of_nil in Htext].
      apply list_elem_of_singleton in Htext.
      apply append_inj_suffix in Htext as ->. done.
    + intros [Hne Htrend]. exists (n, Monitor.entry n (group n ms)). split; [by apply Hes|].
      unfold progress_of. cbn [fst snd]. rewrite decide_True by done. apply list_elem_of_here.
  - rewrite getPerformanceScore_scores. cbv zeta.
    destruct (present_scores (last_day now ms)) as [|s scores] eqn:Hscores.
    + done.
    + destruct (Z.ltb_spec 0 (Z.of_nat (length (s :: scores)))) as [_|Hk]; [|simpl in Hk; lia].
      split; [|discriminate].
      repeat (destruct (_ <=? _)%Z); discriminate.
Qed.

(** Metrics older than a day: no summary data, yet a critical issue. *)
Lemma insights_follow_the_averages_witness :
  Monitor.summary (returned no_insights (Monitor.getPerformanceInsights stale_vitals 172805000))
    = "No performance data available yet."
  ∧ "First Input Delay is high - reduce JavaScript execution time"
    ∈ Monitor.criticalIssues
        (returned no_insights (Monitor.getPerformanceInsights stale_vitals 172805000)).
Proof.
  destruct (insights_follow_the_averages stale_vitals 172805000
              (returned no_insights (Monitor.getPerformanceInsights stale_vitals 172805000)))
    as (Hissue & _ & _ & _ & Hsummary).
  - vm_compute. reflexivity.
  - split.
    + apply Hsummary. vm_compute. reflexivity.
    + apply (Hissue "FID"); [reflexivity|]. split; [discriminate|vm_compute; reflexivity].
Defined.

(** ** Saving and loading *)

Lemma recordMetric_frame (cfg : Monitor.Config) (amb : Ambient) (m : MetricInput) (w : World) :
  let w1 := (Monitor.recordMetric cfg amb m w).2 in
  isLoading w1 = isLoading w
  ∧ warnings w1 = warnings w
  ∧ (∀ q, storage_open q w → storage_open q w1)
  ∧ (∀ k, persisted k w1 = persisted k w).
Proof.
  unfold Monitor.recordMetric, thenH, bindH, setMetrics, send_gtag, ret, storage_open, persisted.
  destruct w as [[[st [log|]]|] ms il ws]; cbn [window metrics isLoading warnings];
    destruct (Monitor.enableAnalytics cfg); cbn; repeat split; try done;
    intros q (win & [= <-] & ? & ?); eauto.
Qed.

Lemma saveEffect_open (cfg : Monitor.Config) (w : World) (q : nat) :
  Monitor.enableLocalStorage cfg = true →
  storage_open q w → isLoading w = false → metrics w ≠ [] →
  let w1 := (Monitor.saveEffect cfg w).2 in
  storage_open q w1
  ∧ (length (metrics w) ≤ q →
     persisted (Monitor.storageKey cfg) w1 = Some (ArrayText (metrics w))
     ∧ warnings w1 = warnings w)
  ∧ (q < length (metrics w) →
     (∀ k, persisted k w1 = persisted k w)
     ∧ warnings w1 = warnings w ++ [JS.QuotaExceededError]).
Proof.
  intros Hcfg (win & Hwin & Hdenied & Hquota) Hload Hms.
  unfold Monitor.saveEffect, try_catch_finally, setItem, with_storage, storage_open,
    persisted, JSON_stringify, console_warn.
  destruct w as [[[[den qu it] g]|] ms il ws]; cbn [window metrics isLoading warnings] in *;
    [|discriminate].
  injection Hwin as <-. cbn [localStorage denied quota] in *. subst den qu il.
  rewrite Hcfg.
  assert (Hpos : (0 <? length ms) = true) by (by destruct ms).
  rewrite Hpos, bool_decide_eq_true_2 by eauto.
  cbn [negb andb localStorage denied quota stored_size].
  destruct (Nat.ltb_spec q (length ms)) as [Hfull|Hfits];
    cbn [fst snd id window metrics isLoading warnings localStorage items quota denied gtag].
  - split; [eexists; split; [reflexivity|done]|]. split; [lia|]. done.
  - split; [eexists; split; [reflexivity|done]|]. split; [|lia].
    intros _. split; [apply lookup_insert_eq|done].
Qed.

Lemma record_length_bound (cfg : Monitor.Config) (amb : Ambient) (m : MetricInput) (w : World) :
  (1 ≤ Monitor.maxStoredMetrics cfg)%Z →
  let ms := metrics (Monitor.record cfg amb m w).2 in
  ms ≠ [] ∧ (Z.of_nat (length ms) ≤ Monitor.maxStoredMetrics cfg)%Z.
Proof.
  intros HC.
  destruct (Monitor_record_spec cfg amb m w) as (_ & Hms & _). cbv zeta. rewrite Hms.
  rewrite slice_last by done.
  set (l := metrics w ++ _).
  assert (Hl : 0 < length l) by (subst l; rewrite length_app; simpl; lia).
  split.
  - intros Hnil. apply (f_equal length) in Hnil.
    rewrite most_recent_length in Hnil. simpl in Hnil. lia.
  - rewrite most_recent_length. lia.
Qed.

(** One call on a reachable storage: what is saved and what is logged. *)
Lemma record_saves (cfg : Monitor.Config) (amb : Ambient) (m : MetricInput) (w : World)
    (q : nat) :
  Monitor.enableLocalStorage cfg = true →
  (1 ≤ Monitor.maxStoredMetrics cfg)%Z →
  storage_open q w → isLoading w = false →
  let w1 := (Monitor.record cfg amb m w).2 in
  storage_open q w1 ∧ isLoading w1 = false
  ∧ (length (metrics w1) ≤ q →
     persisted (Monitor.storageKey cfg) w1 = Some (ArrayText (metrics w1))
     ∧ warnings w1 = warnings w)
  ∧ (q < length (metrics w1) →
     (∀ k, persisted k w1 = persisted k w)
     ∧ warnings w1 = warnings w ++ [JS.QuotaExceededError]).
Proof.
  intros Hcfg HC Hopen Hload.
  pose proof (record_length_bound cfg amb m w HC) as [Hne _].
  revert Hne. unfold Monitor.record, Monitor.rendered.
  pose proof (recordMetric_frame cfg amb m w) as (Hl & Hw & Ho & Hp).
  destruct (Monitor.recordMetric cfg amb m w) as [c w0]. cbn [snd] in *.
  destruct (Monitor_saveEffect_frame cfg w0) as (_ & Hm1 & Hl1 & _).
  rewrite Hm1. intros Hne.
  destruct (saveEffect_open cfg w0 q Hcfg (Ho q Hopen) ltac:(congruence) Hne)
    as (Hopen1 & Hfits & Hfull).
  split; [done|]. split; [congruence|]. split.
  - intros Hq. destruct (Hfits Hq) as [? ?]. split; [done|congruence].
  - intros Hq. destruct (Hfull Hq) as [Hk ?]. split; [|congruence].
    intros k. by rewrite Hk, Hp.
Qed.

(** X9: mounting the hook never throws and always ends the loading state,
    and the store it starts with is the stored array cut by
    [slice(-maxStoredMetrics)]; it is empty when persistence is off, there is
    no window, storage is denied, or the text under the key is missing,
    empty, unparseable or not an array. *)
Theorem mount_restores_or_starts_empty (cfg : Monitor.Config) (w : World) :
  let out := Monitor.mount cfg (reload w) in
  out.1 = JS.Normal ()
  ∧ isLoading out.2 = false
  ∧ metrics out.2 = restorable cfg w.
Proof.
  cbv zeta. split; [apply Monitor_mount_returns|].
  unfold Monitor.mount, Monitor.rendered.
  destruct (Monitor.loadEffect cfg (reload w)) as [c w1] eqn:Hload. cbn [snd].
  destruct (Monitor_saveEffect_frame cfg w1) as (_ & -> & -> & _).
  revert Hload.
  unfold Monitor.loadEffect, try_catch_finally, bindH, getItem, with_storage, reload,
    restorable, ret, setMetrics, setIsLoading, console_warn.
  destruct w as [[[[den qu it] g]|] ms il ws]; cbn [window metrics isLoading warnings];
    destruct (Monitor.enableLocalStorage cfg);
    cbn [negb orb andb localStorage denied items].
  - rewrite bool_decide_eq_true_2 by eauto. cbn [negb].
    destruct den; cbn [negb].
    + intros [= _ <-]. done.
    + destruct (it !! Monitor.storageKey cfg) as [[| | |stored]|]; cbn [JSON_parse];
        intros [= _ <-]; done.
  - intros [= _ <-]. done.
  - rewrite bool_decide_eq_false_2 by (intros [? ?]; done).
    intros [= _ <-]. done.
  - intros [= _ <-]. done.
Qed.

Lemma session_open (cfg : Monitor.Config) (calls : list (Ambient * MetricInput)) (w : World)
    (q : nat) :
  Monitor.enableLocalStorage cfg = true →
  (1 ≤ Monitor.maxStoredMetrics cfg)%Z →
  storage_open q w → isLoading w = false →
  storage_open q (Monitor.session cfg calls w)
  ∧ isLoading (Monitor.session cfg calls w) = false.
Proof.
  intros Hcfg HC Hopen Hload.
  induction calls as [|c calls [IHo IHl]] using rev_ind; [done|].
  rewrite Monitor_session_snoc.
  destruct (record_saves cfg c.1 c.2 (Monitor.session cfg calls w) q Hcfg HC IHo IHl)
    as (? & ? & _). done.
Qed.

(** X10: with persistence on, a capacity of at least one and a reachable
    storage that holds a full store, after every non-empty sequence of
    [recordMetric] calls the persisted copy is the store itself, and the hook
    of a later page load starts with exactly this store. *)
Theorem reload_restores_the_store (cfg : Monitor.Config)
    (calls : list (Ambient * MetricInput)) (w : World) (q : nat) :
  Monitor.enableLocalStorage cfg = true →
  (1 ≤ Monitor.maxStoredMetrics cfg ≤ Z.of_nat q)%Z →
  storage_open q w → isLoading w = false →
  calls ≠ [] →
  let w1 := Monitor.session cfg calls w in
  persisted (Monitor.storageKey cfg) w1 = Some (ArrayText (metrics w1))
  ∧ metrics (Monitor.mount cfg (reload w1)).2 = metrics w1
  ∧ isLoading (Monitor.mount cfg (reload w1)).2 = false.
Proof.
  intros Hcfg [HC Hq] Hopen Hload Hcalls w1.
  destruct calls as [|c calls _] using rev_ind; [done|].
  subst w1. rewrite Monitor_session_snoc.
  set (w0 := Monitor.session cfg calls w).
  destruct (session_open cfg calls w q Hcfg HC Hopen Hload) as [Ho Hl]. fold w0 in Ho, Hl.
  destruct (record_length_bound cfg c.1 c.2 w0 HC) as [Hne Hlen]. cbv zeta in Hne, Hlen.
  destruct (record_saves cfg c.1 c.2 w0 q Hcfg HC Ho Hl) as (Ho1 & Hl1 & Hfits & _).
  set (w1 := (Monitor.record cfg c.1 c.2 w0).2) in *.
  destruct Hfits as [Hsaved _]; [lia|].
  split; [exact Hsaved|].
  destruct (mount_restores_or_starts_empty cfg w1) as (_ & Hloading & Hms).
  split; [|exact Hloading].
  rewrite Hms. unfold restorable.
  destruct Ho1 as (win & Hwin & Hdenied & _).
  unfold persisted in Hsaved. rewrite Hwin in Hsaved |- *.
  rewrite Hcfg, Hdenied, Hsaved. cbn [negb andb].
  rewrite slice_last by done. unfold most_recent.
  replace (length (metrics w1) - _) with 0 by lia. apply drop_0.
Qed.

(** Three calls, a reload, and the same three metrics. *)
Lemma reload_restores_the_store_witness :
  metrics (Monitor.mount Monitor.DEFAULT_CONFIG
             (reload (Monitor.session Monitor.DEFAULT_CONFIG three_calls
                        (browser open_storage [])))).2
  = metrics (Monitor.session Monitor.DEFAULT_CONFIG three_calls (browser open_storage [])).
Proof.
  apply (reload_restores_the_store Monitor.DEFAULT_CONFIG three_calls
           (browser open_storage []) 5000).
  - reflexivity.
  - simpl. lia.
  - eexists. split; [reflexivity|]. split; reflexivity.
  - reflexivity.
  - discriminate.
Defined.

(** X11: where the store no longer fits the storage quota, [recordMetric]
    still returns and keeps the new metric in the store; the persisted copy
    stays as it was, and one [QuotaExceededError] is logged as a warning. *)
Theorem full_storage_keeps_the_metric (cfg : Monitor.Config) (amb : Ambient)
    (m : MetricInput) (w : World) (q : nat) :
  Monitor.enableLocalStorage cfg = true →
  (1 ≤ Monitor.maxStoredMetrics cfg)%Z →
  storage_open q w → isLoading w = false →
  let out := Monitor.record cfg amb m w in
  q < length (metrics out.2) →
  out.1 = JS.Normal ()
  ∧ metrics out.2
    = most_recent (Z.to_nat (Monitor.maxStoredMetrics cfg))
        (metrics w ++ [Monitor.newMetric (has_window w) amb m])
  ∧ (∀ k, persisted k out.2 = persisted k w)
  ∧ warnings out.2 = warnings w ++ [JS.QuotaExceededError].
Proof.
  intros Hcfg HC Hopen Hload out Hfull. subst out.
  destruct (Monitor_record_spec cfg amb m w) as (Hret & Hms & _).
  destruct (record_saves cfg amb m w q Hcfg HC Hopen Hload) as (_ & _ & _ & Hq).
  destruct (Hq Hfull) as [Hkept Hwarn].
  split; [exact Hret|]. split; [|split; [exact Hkept|exact Hwarn]].
  rewrite Hms. by apply slice_last.
Qed.

(** The third call on a storage that holds two metrics. *)
Lemma full_storage_keeps_the_metric_witness :
  warnings
    (Monitor.record Monitor.DEFAULT_CONFIG (at_time 30) (call "CLS" 0.3 poor None)
       (Monitor.session Monitor.DEFAULT_CONFIG (take 2 three_calls)
          (browser small_storage []))).2
  = warnings (Monitor.session Monitor.DEFAULT_CONFIG (take 2 three_calls)
                (browser small_storage []))
    ++ [JS.QuotaExceededError].
Proof.
  apply (full_storage_keeps_the_metric Monitor.DEFAULT_CONFIG (at_time 30)
           (call "CLS" 0.3 poor None)
           (Monitor.session Monitor.DEFAULT_CONFIG (take 2 three_calls)
              (browser small_storage []))
           2).
  - reflexivity.
  - simpl. lia.
  - eexists. split; [vm_compute; reflexivity|]. split; reflexivity.
  - vm_compute. reflexivity.
  - vm_compute. lia.
Defined.

(** ** Analytics events *)

Lemma saveEffect_gtag (cfg : Monitor.Config) (w : World) :
  gtag_log (Monitor.saveEffect cfg w).2 = gtag_log w.
Proof.
  unfold Monitor.saveEffect, try_catch_finally, setItem, with_storage, gtag_log, console_warn.
  destruct (_ && _); [|done].
  destruct w as [[[st g]|] ms il ws]; cbn [window metrics isLoading warnings localStorage gtag];
    [|done].
  destruct (denied st); [done|].
  destruct (quota st <? _); done.
Qed.

Lemma record_gtag (cfg : Monitor.Config) (amb : Ambient) (m : MetricInput) (w : World) :
  gtag_log (Monitor.record cfg amb m w).2
  = if Monitor.enableAnalytics cfg
    then (λ log, log ++ [gtag_event (Monitor.newMetric (has_window w) amb m)]) <$> gtag_log w
    else gtag_log w.
Proof.
  unfold Monitor.record, Monitor.rendered.
  destruct (Monitor.recordMetric cfg amb m w) as [c w1] eqn:Hrec. cbn [snd].
  rewrite saveEffect_gtag. revert Hrec.
  unfold Monitor.recordMetric, thenH, bindH, setMetrics, send_gtag, ret, gtag_log,
    has_window, gtag_event.
  destruct w as [[[st [log|]]|] ms il ws]; cbn [window metrics isLoading warnings];
    destruct (Monitor.enableAnalytics cfg); intros [= _ <-]; done.
Qed.

(** X12: with analytics enabled and the snippet installed, a sequence of
    [recordMetric] calls hands [gtag] exactly one event per call, in call
    order, labelled with the metric's name, rating and url, also for the
    metrics the store has evicted since; with analytics disabled, as under
    [useSimplePerformanceMonitor], or without the snippet, it hands over
    nothing. *)
Theorem one_event_per_call (cfg : Monitor.Config) (calls : list (Ambient * MetricInput))
    (w : World) :
  (Monitor.enableAnalytics cfg = true →
   gtag_log (Monitor.session cfg calls w)
   = (λ log, log ++ map gtag_event (recorded w calls)) <$> gtag_log w)
  ∧ (Monitor.enableAnalytics cfg = false →
     gtag_log (Monitor.session cfg calls w) = gtag_log w)
  ∧ gtag_log (Monitor.session Monitor.useSimplePerformanceMonitor calls w) = gtag_log w.
Proof.
  assert (Hoff : ∀ cfg', Monitor.enableAnalytics cfg' = false →
                 gtag_log (Monitor.session cfg' calls w) = gtag_log w).
  { intros cfg' Hcfg. induction calls as [|c calls IH] using rev_ind; [done|].
    by rewrite Monitor_session_snoc, record_gtag, Hcfg. }
  split; [|split; [apply Hoff|by apply Hoff]].
  clear Hoff. intros Hcfg. induction calls as [|c calls IH] using rev_ind.
  - simpl. destruct (gtag_log w); simpl; [by rewrite app_nil_r|done].
  - rewrite Monitor_session_snoc, record_gtag, Hcfg, IH.
    rewrite Monitor_session_has_window, recorded_snoc, map_app.
    destruct (gtag_log w); simpl; [by rewrite app_assoc|done].
Qed.

(** Three calls in a browser with the snippet installed. *)
Lemma one_event_per_call_witness :
  gtag_log (Monitor.session Monitor.DEFAULT_CONFIG three_calls (tracked_browser open_storage []))
  = (λ log, log ++ map gtag_event (recorded (tracked_browser open_storage []) three_calls))
      <$> gtag_log (tracked_browser open_storage []).
Proof.
  destruct (one_event_per_call Monitor.DEFAULT_CONFIG three_calls
              (tracked_browser open_storage [])) as [Hon _].
  apply Hon. reflexivity.
Defined.

(** ** Queries as sublists *)

(** X13: whatever the arguments, [getMetrics] returns metrics of the store in
    the store's order; and of two non-zero windows the narrower one returns a
    sublist of what the wider one returns. *)
Theorem query_returns_sublists (ms : list PerformanceMetric) (now : Z)
    (n : option string) (window wider : option Z) :
  Monitor.getMetrics ms now n window `sublist_of` ms
  ∧ (∀ w1 w2, window = Some w1 → wider = Some w2 → w1 ≠ 0%Z → (w1 ≤ w2)%Z →
     Monitor.getMetrics ms now n window `sublist_of` Monitor.getMetrics ms now n wider).
Proof.
  split.
  - unfold Monitor.getMetrics.
    destruct (JS.truthy_string n), (JS.truthy_number window); cbv zeta;
      repeat (etrans; [apply sublist_filter|]); done.
  - intros w1 w2 -> -> Hw1 Hle. unfold Monitor.getMetrics. simpl.
    destruct (decide (w1 = 0%Z)); [done|].
    set (base := match JS.truthy_string n with Some _ => _ | None => _ end).
    destruct (decide (w2 = 0%Z)) as [|_]; [apply sublist_filter|].
    rewrite <- (list_filter_filter_l (λ m, (now - w1 < timestamp m)%Z)
                                     (λ m, (now - w2 < timestamp m)%Z));
      [apply sublist_filter|].
    intros m. lia.
Qed.

(** A window of 100 within a window of 200. *)
Lemma query_returns_sublists_witness :
  Monitor.getMetrics on_the_cutoff 1000 None (Some 100%Z)
    `sublist_of` Monitor.getMetrics on_the_cutoff 1000 None (Some 200%Z).
Proof.
  destruct (query_returns_sublists on_the_cutoff 1000 None (Some 100%Z) (Some 200%Z))
    as [_ Hnarrow].
  apply (Hnarrow 100%Z 200%Z); [reflexivity|reflexivity|discriminate|lia].
Defined.

(** ** The web-vitals hook: reporting *)

(** X14: a [reportMetric] call whose draw of [Math.random()] exceeds the
    sample rate does nothing at all; every other call appends the metric to
    the end of the store, whatever [fetch] does, keeps the calls made before
    it, and evicts nothing; under the default sample rate of 1 every draw
    below 1 stores the metric. *)
Theorem reportMetric_stores_sampled_metrics (cfg : WebVitals.Config)
    (env : WebVitals.Surroundings) (m : WebVitals.WebVitalMetric) (s : WebVitals.State)
    (development : bool) :
  ((WebVitals.sampleRate cfg <? WebVitals.random env)%float = true →
     WebVitals.reportMetric cfg env m s = s)
  ∧ ((WebVitals.sampleRate cfg <? WebVitals.random env)%float = false →
     WebVitals.metrics (WebVitals.reportMetric cfg env m s) = WebVitals.metrics s ++ [m]
     ∧ WebVitals.calls s `prefix_of` WebVitals.calls (WebVitals.reportMetric cfg env m s))
  ∧ ((WebVitals.random env <? 1)%float = true →
     WebVitals.metrics (WebVitals.reportMetric (WebVitals.defaults development) env m s)
     = WebVitals.metrics s ++ [m]).
Proof.
  assert (Hstored : ∀ cfg',
    (WebVitals.sampleRate cfg' <? WebVitals.random env)%float = false →
    WebVitals.metrics (WebVitals.reportMetric cfg' env m s) = WebVitals.metrics s ++ [m]
    ∧ WebVitals.calls s `prefix_of` WebVitals.calls (WebVitals.reportMetric cfg' env m s)).
  { intros cfg' Hin. unfold WebVitals.reportMetric. rewrite Hin.
    destruct (WebVitals.enableConsoleLogging cfg'),
      (WebVitals.reportToAnalytics cfg' && WebVitals.in_browser env
       && WebVitals.gtag_installed env),
      (WebVitals.in_browser env && negb (bool_decide (WebVitals.endpoint cfg' = ""))),
      (WebVitals.fetch_rejects env);
      cbn [WebVitals.called WebVitals.metrics WebVitals.calls];
      (split; [done|]); rewrite <- ?app_assoc;
      first [done | by eexists]. }
  split; [|split; [apply Hstored|]].
  - intros Hout. unfold WebVitals.reportMetric. by rewrite Hout.
  - intros Hdraw. apply Hstored. by apply float_lt_asym.
Qed.

(** A draw of 0.25 under the default sample rate. *)
Lemma reportMetric_stores_sampled_metrics_witness :
  WebVitals.metrics
    (WebVitals.reportMetric (WebVitals.defaults true) quiet_page (vital "LCP" 2300 good 50)
       {| WebVitals.metrics := unordered_vitals; WebVitals.calls := [] |})
  = unordered_vitals ++ [vital "LCP" 2300 good 50].
Proof.
  destruct (reportMetric_stores_sampled_metrics (WebVitals.defaults true) quiet_page
              (vital "LCP" 2300 good 50)
              {| WebVitals.metrics := unordered_vitals; WebVitals.calls := [] |} true)
    as (_ & _ & Hdefault).
  apply Hdefault. vm_compute. reflexivity.
Defined.

(** ** The web-vitals hook: the newest metric of a name *)

Lemma sort_newest_first (l : list WebVitals.WebVitalMetric) :
  match head (JS.sort (λ a b, (WebVitals.timestamp b - WebVitals.timestamp a)%Z) l) with
  | None => l = []
  | Some m =>
      ∃ before after, l = before ++ m :: after
        ∧ Forall (λ z, (WebVitals.timestamp z < WebVitals.timestamp m)%Z) before
        ∧ Forall (λ z, (WebVitals.timestamp z ≤ WebVitals.timestamp m)%Z) after
  end.
Proof.
  induction l as [|x l IH]; [done|].
  unfold JS.sort in *. cbn [foldr].
  destruct (foldr _ [] l) as [|h t] eqn:Hsorted; cbn [head] in IH.
  - subst l. cbn. exists [], []. split; [done|]. split; constructor.
  - destruct IH as (before & after & -> & Hbefore & Hafter).
    cbn [JS.sort_insert].
    destruct (Z.ltb_spec 0 (WebVitals.timestamp h - WebVitals.timestamp x)) as [Hlt|Hge];
      cbn [head].
    + exists (x :: before), after. split; [done|]. split; [|done].
      constructor; [lia|done].
    + exists [], (before ++ h :: after). split; [done|]. split; [constructor|].
      apply Forall_app. split.
      * eapply Forall_impl; [exact Hbefore|]. intros z Hz. simpl in Hz. lia.
      * constructor; [lia|]. eapply Forall_impl; [exact Hafter|].
        intros z Hz. simpl in Hz. lia.
Qed.

Lemma at_index_head {A} (l : list A) : JS.at_index l 0 = head l.
Proof. by destruct l. Qed.

Lemma newest_spec (ms : list WebVitals.WebVitalMetric) (n : string) :
  match WebVitals.newest ms n with
  | None => Forall (λ z, WebVitals.name z ≠ n) ms
  | Some m =>
      m ∈ ms ∧ WebVitals.name m = n
      ∧ ∀ z, z ∈ ms → WebVitals.name z = n →
             (WebVitals.timestamp z ≤ WebVitals.timestamp m)%Z
  end.
Proof.
  unfold WebVitals.newest. rewrite at_index_head.
  pose proof (sort_newest_first (filter (λ z, WebVitals.name z = n) ms)) as H.
  destruct (head _) as [m|].
  - destruct H as (before & after & Hl & Hbefore & Hafter).
    assert (Hin : m ∈ filter (λ z, WebVitals.name z = n) ms).
    { rewrite Hl. apply elem_of_app. right. apply list_elem_of_here. }
    apply list_elem_of_filter in Hin as [Hname Hin].
    split; [done|]. split; [done|].
    intros z Hz Hzn.
    assert (Hzin : z ∈ filter (λ z, WebVitals.name z = n) ms) by (by apply list_elem_of_filter).
    rewrite Hl in Hzin. apply elem_of_app in Hzin as [Hz1|Hz2].
    + rewrite Forall_forall in Hbefore. specialize (Hbefore z Hz1). simpl in Hbefore. lia.
    + apply elem_of_cons in Hz2 as [->|Hz2]; [lia|].
      rewrite Forall_forall in Hafter. by apply Hafter.
  - rewrite Forall_forall. intros z Hz Hzn.
    assert (Hzin : z ∈ filter (λ z, WebVitals.name z = n) ms) by (by apply list_elem_of_filter).
    rewrite H in Hzin. by apply not_elem_of_nil in Hzin.
Qed.

(** ** The web-vitals hook: the score *)

Lemma group_as_performance (ms : list WebVitals.WebVitalMetric) (n : string) :
  group n (map as_performance ms) = map as_performance (WebVitals.getMetricsByName ms n).
Proof.
  unfold group, WebVitals.getMetricsByName.
  induction ms as [|m ms IH]; [done|].
  cbn [map]. rewrite !filter_cons. cbn [as_performance name].
  destruct (decide (WebVitals.name m = n)); cbn [map]; by rewrite IH.
Qed.

Lemma latest_rating_as_performance (ms : list WebVitals.WebVitalMetric) (n : string) :
  latest_rating (map as_performance ms) n
  = WebVitals.rating <$> WebVitals.getLatestMetric ms n.
Proof.
  unfold latest_rating, WebVitals.getLatestMetric.
  rewrite group_as_performance, at_index_last.
  change (map as_performance ?l) with (as_performance <$> l).
  rewrite fmap_last. by destruct (last _).
Qed.

Lemma WebVitals_score_loop (ms : list WebVitals.WebVitalMetric) (vitals : list string)
    (sc : Z * Z) :
  fold_left (λ '(totalScore, metricsCount) vital,
      match WebVitals.getLatestMetric ms vital with
      | Some latestMetric =>
          let score :=
            match WebVitals.rating latestMetric with
            | good => 100
            | needs_improvement => 75
            | poor => 25
            end%Z in
          ((totalScore + score)%Z, (metricsCount + 1)%Z)
      | None => (totalScore, metricsCount)
      end)
    vitals sc
  = fold_left (λ sc vital,
      match latest_rating (map as_performance ms) vital with
      | Some r => ((sc.1 + Monitor.metricScore r)%Z, (sc.2 + 1)%Z)
      | None => sc
      end)
    vitals sc.
Proof.
  revert sc. induction vitals as [|v vs IH]; intros [score count]; [done|].
  cbn [fold_left fst snd]. rewrite latest_rating_as_performance.
  destruct (WebVitals.getLatestMetric ms v) as [m|]; cbn [fmap option_fmap option_map].
  - rewrite <- IH. by destruct (WebVitals.rating m).
  - apply IH.
Qed.

Lemma WebVitals_score_scores (ms : list WebVitals.WebVitalMetric) :
  WebVitals.getPerformanceScore ms
  = let scores := present_scores (map as_performance ms) in
    if (0 <? Z.of_nat (length scores))%Z
    then Some (JS.Math_round (inject_Z (sumZ scores) / inject_Z (Z.of_nat (length scores))))
    else None.
Proof.
  unfold WebVitals.getPerformanceScore.
  rewrite WebVitals_score_loop, score_loop_total. reflexivity.
Qed.

Lemma filter_all {A} (P : A → Prop) `{∀ x, Decision (P x)} (l : list A) :
  Forall P l → filter P l = l.
Proof.
  induction 1 as [|x l Hx _ IH]; [done|].
  by rewrite filter_cons, decide_True, IH.
Qed.

Lemma latest_rating_projection (ms : list WebVitals.WebVitalMetric) (n : string) :
  WebVitals.rating <$> WebVitals.getLatestMetric ms n
  = last (snd <$> filter (λ p : string * Rating, p.1 = n)
                    ((λ m, (WebVitals.name m, WebVitals.rating m)) <$> ms)).
Proof.
  unfold WebVitals.getLatestMetric. rewrite at_index_last, <- fmap_last. f_equal.
  unfold WebVitals.getMetricsByName.
  induction ms as [|m l IH]; [done|].
  rewrite fmap_cons, !filter_cons. cbn [fst].
  destruct (decide (WebVitals.name m = n)); [rewrite !fmap_cons; cbn [snd]|]; by rewrite IH.
Qed.

(** X15: the score of the web-vitals hook lies between 25 and 100 whenever
    there is one; it is the score the monitor hook computes over the same
    metrics as long as all of them were taken within the last day; and it
    depends on the names and ratings of the metrics alone, so that no metric
    ever ages out of it. *)
Theorem web_vitals_score_ignores_age (ms ms' : list WebVitals.WebVitalMetric) (now : Z) :
  (∀ r, WebVitals.getPerformanceScore ms = Some r → (25 ≤ r ≤ 100)%Z)
  ∧ (Forall (λ m, (now - day < WebVitals.timestamp m)%Z) ms →
     WebVitals.getPerformanceScore ms
     = Monitor.getPerformanceScore (map as_performance ms) now)
  ∧ ((λ m, (WebVitals.name m, WebVitals.rating m)) <$> ms
     = (λ m, (WebVitals.name m, WebVitals.rating m)) <$> ms' →
     WebVitals.getPerformanceScore ms = WebVitals.getPerformanceScore ms').
Proof.
  split; [|split].
  - intros r Hr. rewrite WebVitals_score_scores in Hr. cbv zeta in Hr.
    pose proof (present_scores_bounds (map as_performance ms)) as Hb. cbv zeta in Hb.
    set (scores := present_scores (map as_performance ms)) in *.
    set (k := Z.of_nat (length scores)) in *.
    destruct (Z.ltb_spec 0 k) as [Hk|Hk]; [|discriminate].
    injection Hr as Hr. apply round_quotient_nearest in Hr; [|done].
    split; nia.
  - intros Hl. rewrite WebVitals_score_scores, getPerformanceScore_scores.
    unfold last_day. rewrite filter_all; [done|].
    induction Hl as [|m l' Hm _ IH]; cbn [map]; constructor; [exact Hm|exact IH].
  - intros Hsame. rewrite !WebVitals_score_scores. cbv zeta.
    assert (Hscores : present_scores (map as_performance ms)
                      = present_scores (map as_performance ms')).
    { unfold present_scores. cbn [omap list_omap].
      by rewrite !latest_rating_as_performance, !latest_rating_projection, Hsame. }
    by rewrite Hscores.
Qed.

(** Three web vitals taken at times 20 to 50, seen at time 100, and the same
    three with other values, taken at time 0. *)
Lemma web_vitals_score_ignores_age_witness :
  WebVitals.getPerformanceScore unordered_vitals
  = Monitor.getPerformanceScore (map as_performance unordered_vitals) 100
  ∧ WebVitals.getPerformanceScore unordered_vitals
    = WebVitals.getPerformanceScore
        [ vital "LCP" 1000 good 0; vital "FID" 500 poor 0; vital "LCP" 5000 poor 0 ].
Proof.
  destruct (web_vitals_score_ignores_age unordered_vitals
              [ vital "LCP" 1000 good 0; vital "FID" 500 poor 0; vital "LCP" 5000 poor 0 ]
              100)
    as (_ & Hrecent & Hsame).
  split; [apply Hrecent; repeat constructor|apply Hsame; reflexivity].
Defined.

(** ** The web-vitals hook: performance budgets *)

Lemma checkPerformanceBudgets_loop (ms : list WebVitals.WebVitalMetric)
    (budgets : list (string * float)) (acc : gmap string WebVitals.BudgetStatus) (k : string) :
  NoDup budgets.*1 →
  let result :=
    fold_left (λ result e,
        match WebVitals.newest ms e.1 with
        | Some latestMetric =>
            JS.assign e.1
              {| WebVitals.withinBudget := (WebVitals.value latestMetric <=? e.2)%float;
                 WebVitals.currentValue := WebVitals.value latestMetric;
                 WebVitals.budget := e.2 |}
              result
        | None => result
        end)
      budgets acc in
  (k ∉ budgets.*1 ∨ k = "__proto__" → result !! k = acc !! k)
  ∧ (∀ b, (k, b) ∈ budgets → k ≠ "__proto__" →
       result !! k
       = match WebVitals.newest ms k with
         | Some m => Some {| WebVitals.withinBudget := (WebVitals.value m <=? b)%float;
                             WebVitals.currentValue := WebVitals.value m;
                             WebVitals.budget := b |}
         | None => acc !! k
         end).
Proof.
  revert acc. induction budgets as [|[k0 b0] budgets IH]; intros acc Hnd; cbn zeta.
  - split; [done|]. intros b Hb. by apply not_elem_of_nil in Hb.
  - rewrite fmap_cons in Hnd. apply NoDup_cons in Hnd as [Hk0 Hnd]. cbn [fst] in Hk0.
    cbn [fold_left fst snd].
    set (acc' := match WebVitals.newest ms k0 with Some _ => _ | None => _ end).
    destruct (IH acc' Hnd) as [IHout IHin]. cbn zeta in IHout, IHin.
    assert (Hacc' : k ≠ k0 ∨ k = "__proto__" → acc' !! k = acc !! k).
    { intros Hk. subst acc'. destruct (WebVitals.newest ms k0); [|done].
      unfold JS.assign. destruct (decide (k0 = "__proto__")) as [->|Hp]; [done|].
      apply lookup_insert_ne. destruct Hk as [Hk| ->]; congruence. }
    split.
    + intros Hk. rewrite IHout.
      * apply Hacc'. destruct Hk as [Hk|Hk]; [left|by right].
        intros ->. apply Hk. rewrite fmap_cons. apply list_elem_of_here.
      * destruct Hk as [Hk|Hk]; [left|by right].
        intros Hin. apply Hk. rewrite fmap_cons. by apply list_elem_of_further.
    + intros b Hb Hp. apply elem_of_cons in Hb as [Hb|Hb].
      * injection Hb as -> ->. rewrite IHout by (by left).
        subst acc'. destruct (WebVitals.newest ms k0); [|done].
        unfold JS.assign. rewrite decide_False by done. apply lookup_insert_eq.
      * rewrite (IHin b Hb Hp). destruct (WebVitals.newest ms k); [done|].
        apply Hacc'. left. intros ->. apply Hk0.
        apply (list_elem_of_fmap_2 fst) in Hb. exact Hb.
Qed.

(** X16: for budgets as [Object.entries] lists them, the status
    [checkPerformanceBudgets] holds for a budgeted name is taken from a
    metric of that name whose timestamp no other metric of the name exceeds,
    wherever the store holds it: [currentValue] is its value, [budget] the
    budget and [withinBudget] the comparison [value <= budget]; a name with
    no metric has no status; and the result has own properties for budgeted
    names only, never for the key [__proto__]. *)
Theorem budgets_check_the_newest_metric (ms : list WebVitals.WebVitalMetric)
    (budgets : list (string * float)) :
  NoDup budgets.*1 →
  let result := WebVitals.checkPerformanceBudgets ms budgets in
  (∀ k b, (k, b) ∈ budgets → k ≠ "__proto__" →
     match result !! k with
     | Some status =>
         ∃ m, m ∈ ms ∧ WebVitals.name m = k
           ∧ (∀ z, z ∈ ms → WebVitals.name z = k →
                (WebVitals.timestamp z ≤ WebVitals.timestamp m)%Z)
           ∧ WebVitals.currentValue status = WebVitals.value m
           ∧ WebVitals.budget status = b
           ∧ WebVitals.withinBudget status = (WebVitals.value m <=? b)%float
     | None => Forall (λ z, WebVitals.name z ≠ k) ms
     end)
  ∧ (∀ k, is_Some (result !! k) → k ∈ budgets.*1 ∧ k ≠ "__proto__").
Proof.
  intros Hnd result. split.
  - intros k b Hb Hp.
    destruct (checkPerformanceBudgets_loop ms budgets ∅ k Hnd) as [_ Hin].
    cbn zeta in Hin. subst result. unfold WebVitals.checkPerformanceBudgets.
    rewrite (Hin b Hb Hp). pose proof (newest_spec ms k) as Hnew.
    destruct (WebVitals.newest ms k) as [m|]; [|by rewrite lookup_empty].
    destruct Hnew as (Hm & Hname & Hmax). exists m. by repeat split.
  - intros k Hk.
    destruct (checkPerformanceBudgets_loop ms budgets ∅ k Hnd) as [Hout _].
    cbn zeta in Hout. subst result. unfold WebVitals.checkPerformanceBudgets in Hk.
    destruct (decide (k ∈ budgets.*1)) as [Hin|Hnin].
    + split; [done|]. intros ->. rewrite Hout in Hk by (by right).
      rewrite lookup_empty in Hk. by destruct Hk.
    + rewrite Hout in Hk by (by left). rewrite lookup_empty in Hk. by destruct Hk.
Qed.

(** Budgets for LCP and TTFB over three web vitals, none of them a TTFB. *)
Lemma budgets_check_the_newest_metric_witness :
  match WebVitals.checkPerformanceBudgets unordered_vitals
          [("LCP", 2500%float); ("TTFB", 800%float)] !! "LCP" with
  | Some status =>
      ∃ m, m ∈ unordered_vitals ∧ WebVitals.name m = "LCP"
        ∧ (∀ z, z ∈ unordered_vitals → WebVitals.name z = "LCP" →
             (WebVitals.timestamp z ≤ WebVitals.timestamp m)%Z)
        ∧ WebVitals.currentValue status = WebVitals.value m
        ∧ WebVitals.budget status = 2500%float
        ∧ WebVitals.withinBudget status = (WebVitals.value m <=? 2500)%float
  | None => Forall (λ z, WebVitals.name z ≠ "LCP") unordered_vitals
  end.
Proof.
  assert (Hnd : NoDup [("LCP", 2500%float); ("TTFB", 800%float)].*1).
  { repeat constructor; rewrite ?elem_of_cons, ?elem_of_nil; intros H; by intuition. }
  apply (proj1 (budgets_check_the_newest_metric unordered_vitals
                  [("LCP", 2500%float); ("TTFB", 800%float)] Hnd) "LCP" 2500%float).
  - apply list_elem_of_here.
  - discriminate.
Defined.

Lemma StronglySorted_filter {A} (R : relation A) (P : A → Prop) `{∀ x, Decision (P x)}
    (l : list A) :
  StronglySorted R l → StronglySorted R (filter P l).
Proof.
  induction 1 as [|x l Hl IH Hx]; [constructor|].
  rewrite filter_cons. destruct (decide (P x)); [|done].
  constructor; [done|]. rewrite Forall_forall in Hx |- *.
  intros y Hy. apply Hx. by apply list_elem_of_filter in Hy as [_ Hy].
Qed.

(** X17: the metric the budget check and the report pick by timestamp and
    the metric [getLatestMetric] picks by position carry the same timestamp
    when the store's timestamps never decrease, and they are the same metric
    when the timestamps strictly increase. *)
Theorem newest_is_latest_when_ordered (ms : list WebVitals.WebVitalMetric) (n : string) :
  (StronglySorted (λ a b, (WebVitals.timestamp a ≤ WebVitals.timestamp b)%Z) ms →
     WebVitals.timestamp <$> WebVitals.newest ms n
     = WebVitals.timestamp <$> WebVitals.getLatestMetric ms n)
  ∧ (StronglySorted (λ a b, (WebVitals.timestamp a < WebVitals.timestamp b)%Z) ms →
     WebVitals.newest ms n = WebVitals.getLatestMetric ms n).
Proof.
  unfold WebVitals.newest, WebVitals.getLatestMetric, WebVitals.getMetricsByName.
  rewrite at_index_head, at_index_last.
  pose proof (sort_newest_first (filter (λ z, WebVitals.name z = n) ms)) as H.
  set (l := filter (λ z, WebVitals.name z = n) ms) in *.
  destruct (head _) as [m|]; [|by rewrite H].
  destruct H as (before & after & Hl & _ & Hafter).
  destruct (last after) as [z|] eqn:Hlast.
  - assert (Hz : z ∈ after).
    { apply last_Some in Hlast as [l' ->]. apply elem_of_app. right. apply list_elem_of_here. }
    assert (Hll : last l = Some z).
    { rewrite Hl, last_app, last_cons, Hlast. done. }
    rewrite Forall_forall in Hafter. specialize (Hafter z Hz). cbn beta in Hafter.
    split; intros Hs; apply (StronglySorted_filter _ (λ z, WebVitals.name z = n)) in Hs;
      fold l in Hs; rewrite Hl in Hs;
      apply StronglySorted_app_1_r, StronglySorted_cons in Hs as [Hs _];
      rewrite Forall_forall in Hs; specialize (Hs z Hz); cbn beta in Hs.
    + rewrite Hll. cbn. f_equal. lia.
    + lia.
  - apply last_None in Hlast as ->.
    assert (Hll : last l = Some m) by (by rewrite Hl, last_snoc).
    rewrite Hll. done.
Qed.

(** Two LCP metrics in the order they were taken in. *)
Lemma newest_is_latest_when_ordered_witness :
  WebVitals.newest [ vital "LCP" 4100 poor 30; vital "LCP" 2300 good 50 ] "LCP"
  = WebVitals.getLatestMetric [ vital "LCP" 4100 poor 30; vital "LCP" 2300 good 50 ] "LCP".
Proof.
  apply (proj2 (newest_is_latest_when_ordered
                  [ vital "LCP" 4100 poor 30; vital "LCP" 2300 good 50 ] "LCP")).
  repeat constructor.
Defined.

Lemma checkPerformanceBudgets_lookup (ms : list WebVitals.WebVitalMetric)
    (budgets : list (string * float)) (k : string) (status : WebVitals.BudgetStatus) :
  NoDup budgets.*1 →
  WebVitals.checkPerformanceBudgets ms budgets !! k = Some status
  ↔ ∃ b m, (k, b) ∈ budgets ∧ k ≠ "__proto__" ∧ WebVitals.newest ms k = Some m
      ∧ status = {| WebVitals.withinBudget := (WebVitals.value m <=? b)%float;
                    WebVitals.currentValue := WebVitals.value m;
                    WebVitals.budget := b |}.
Proof.
  intros Hnd. destruct (checkPerformanceBudgets_loop ms budgets ∅ k Hnd) as [Hout Hin].
  cbn zeta in Hout, Hin. unfold WebVitals.checkPerformanceBudgets. split.
  - intros Hk. destruct (decide (k ∈ budgets.*1)) as [Hkin|Hkout].
    + destruct (decide (k = "__proto__")) as [Hp|Hp].
      { rewrite Hout in Hk by (by right). by rewrite lookup_empty in Hk. }
      apply list_elem_of_fmap in Hkin as ([k' b] & -> & Hb). cbn [fst] in *.
      rewrite (Hin b Hb Hp) in Hk.
      destruct (WebVitals.newest ms k') as [m|]; [|by rewrite lookup_empty in Hk].
      injection Hk as <-. by exists b, m.
    + rewrite Hout in Hk by (by left). by rewrite lookup_empty in Hk.
  - intros (b & m & Hb & Hp & Hm & ->). by rewrite (Hin b Hb Hp), Hm.
Qed.

(** X18: [getBudgetViolations] lists exactly the budgeted names whose newest
    metric fails [value <= budget], each with its budget, that value and
    their difference as overage; in [getBudgetSummary], [passing] lies
    between zero and [total], [total] never exceeds the number of budgets,
    and [passing] equals [total] exactly when there is no violation. *)
Theorem violations_exceed_their_budget (ms : list WebVitals.WebVitalMetric)
    (budgets : list (string * float)) :
  NoDup budgets.*1 →
  let status := WebVitals.budgetStatus ms budgets in
  let summary := WebVitals.getBudgetSummary status in
  (∀ v, v ∈ WebVitals.getBudgetViolations status
        ↔ ∃ k b m, (k, b) ∈ budgets ∧ k ≠ "__proto__" ∧ WebVitals.newest ms k = Some m
            ∧ (WebVitals.value m <=? b)%float = false
            ∧ v = {| WebVitals.metric := k; WebVitals.violated_budget := b;
                     WebVitals.current := WebVitals.value m;
                     WebVitals.overage := (WebVitals.value m - b)%float |})
  ∧ (0 ≤ WebVitals.passing summary ≤ Z.of_nat (WebVitals.total summary))%Z
  ∧ WebVitals.total summary ≤ length budgets
  ∧ (WebVitals.passing summary = Z.of_nat (WebVitals.total summary)
     ↔ WebVitals.getBudgetViolations status = []).
Proof.
  intros Hnd status summary.
  assert (Hviolations : length (WebVitals.getBudgetViolations status) ≤ length status).
  { unfold WebVitals.getBudgetViolations. rewrite length_map. apply length_filter. }
  refine (conj _ (conj _ (conj _ _))).
  - intros v. unfold WebVitals.getBudgetViolations.
    change (map ?f ?l) with (f <$> l). rewrite list_elem_of_fmap. split.
    + intros ([k st] & -> & He). apply list_elem_of_filter in He as [Hwithin He].
      cbn [fst snd] in *. apply entries_elem_of in He as [_ Hst].
      apply checkPerformanceBudgets_lookup in Hst as (b & m & Hb & Hp & Hm & ->); [|done].
      cbn in Hwithin. exists k, b, m. by repeat split.
    + intros (k & b & m & Hb & Hp & Hm & Hover & ->).
      exists (k, {| WebVitals.withinBudget := (WebVitals.value m <=? b)%float;
                    WebVitals.currentValue := WebVitals.value m;
                    WebVitals.budget := b |}).
      split; [done|]. apply list_elem_of_filter. split; [done|].
      apply entries_elem_of. split.
      * change (map fst budgets) with (budgets.*1).
        apply (list_elem_of_fmap_2 fst) in Hb. exact Hb.
      * apply checkPerformanceBudgets_lookup; [done|]. by exists b, m.
  - subst summary. cbn [WebVitals.getBudgetSummary WebVitals.passing WebVitals.total]. lia.
  - subst summary. cbn [WebVitals.getBudgetSummary WebVitals.total].
    rewrite <- (length_fmap fst status), <- (length_fmap fst budgets).
    apply submseteq_length, NoDup_submseteq; [apply entries_keys_NoDup|].
    intros k Hk. apply list_elem_of_fmap in Hk as ([k' st] & -> & He).
    by apply entries_elem_of in He as [He _].
  - subst summary. cbn [WebVitals.getBudgetSummary WebVitals.passing WebVitals.total].
    split.
    + intros Hpass. apply length_zero_iff_nil. lia.
    + intros ->. cbn [length]. lia.
Qed.

(** Budgets for LCP and FID over three web vitals; the FID metric took 320. *)
Lemma violations_exceed_their_budget_witness :
  {| WebVitals.metric := "FID"; WebVitals.violated_budget := 100%float;
     WebVitals.current := 320%float; WebVitals.overage := (320 - 100)%float |}
  ∈ WebVitals.getBudgetViolations
      (WebVitals.budgetStatus unordered_vitals [("LCP", 2500%float); ("FID", 100%float)]).
Proof.
  assert (Hnd : NoDup [("LCP", 2500%float); ("FID", 100%float)].*1).
  { repeat constructor; rewrite ?elem_of_cons, ?elem_of_nil; intros H; by intuition. }
  apply (proj1 (violations_exceed_their_budget unordered_vitals
                  [("LCP", 2500%float); ("FID", 100%float)] Hnd)).
  exists "FID", 100%float, (vital "FID" 320 poor 20).
  split; [apply list_elem_of_further, list_elem_of_here|].
  split; [discriminate|]. split; [reflexivity|]. split; reflexivity.
Defined.

(** ** The web-vitals hook: the performance report *)

Lemma newest_is_Some (ms : list WebVitals.WebVitalMetric) (n : string) :
  is_Some (WebVitals.newest ms n) ↔ n ∈ map WebVitals.name ms.
Proof.
  pose proof (newest_spec ms n) as H. destruct (WebVitals.newest ms n) as [m|]; split.
  - intros _. destruct H as (Hm & <- & _). by apply (list_elem_of_fmap_2 WebVitals.name).
  - by eexists.
  - intros [? ?]. discriminate.
  - intros Hn. apply (list_elem_of_fmap_1 WebVitals.name) in Hn as (m & -> & Hm).
    rewrite Forall_forall in H. by destruct (H m Hm).
Qed.

Lemma report_threshold (totalMetrics goodMetrics : nat) :
  goodMetrics ≤ totalMetrics ≤ 5 → goodMetrics ≠ totalMetrics →
  (JS.number totalMetrics * 0.8 <=? JS.number goodMetrics)%float = true
  ↔ totalMetrics = 5 ∧ goodMetrics = 4.
Proof.
  intros [Hg Ht] Hne.
  do 6 (destruct totalMetrics as [|totalMetrics]; [
    do 6 (destruct goodMetrics as [|goodMetrics];
          [first [lia | vm_compute; split; [discriminate|intros [? ?]; lia]
                 | vm_compute; split; [done|done]]|]); lia|]).
  lia.
Qed.

Lemma recommend_length (recs : list string) (n : string) (d : WebVitals.VitalData) :
  length (WebVitals.recommend recs n d)
  = length recs
    + (if decide (n ∈ ["LCP"; "FID"; "CLS"] ∧ WebVitals.vital_rating d ≠ good) then 1 else 0).
Proof.
  unfold WebVitals.recommend.
  assert (Hmem : n ∈ ["LCP"; "FID"; "CLS"] ↔ n = "LCP" ∨ n = "FID" ∨ n = "CLS").
  { rewrite !elem_of_cons, elem_of_nil. tauto. }
  destruct (WebVitals.vital_rating d) eqn:Hr;
    repeat case_decide; try congruence; rewrite ?length_app; cbn [length]; try lia;
    exfalso; intuition congruence.
Qed.

Lemma length_filter_all {A} (P : A → Prop) `{∀ x, Decision (P x)} (l : list A) :
  length (filter P l) = length l ↔ Forall P l.
Proof.
  split.
  - intros Hlen. apply Forall_forall. intros x Hx.
    destruct (decide (P x)) as [|Hno]; [done|].
    pose proof (length_filter_lt P l x Hx Hno). lia.
  - intros Hall. by rewrite filter_all.
Qed.

Lemma report_names (ms : list WebVitals.WebVitalMetric) (names : list string) :
  (omap (λ name,
      match WebVitals.newest ms name with
      | Some latest =>
          Some (name, {| WebVitals.vital_value := WebVitals.value latest;
                         WebVitals.vital_rating := WebVitals.rating latest;
                         WebVitals.vital_timestamp := WebVitals.timestamp latest |})
      | None => None
      end) names).*1
  = filter (λ n, n ∈ map WebVitals.name ms) names.
Proof.
  induction names as [|n names IH]; [done|].
  cbn [omap list_omap]. rewrite filter_cons.
  pose proof (newest_is_Some ms n) as Hn.
  destruct (WebVitals.newest ms n) as [m|].
  - rewrite decide_True by (apply Hn; by eexists). rewrite fmap_cons. cbn [fst]. by rewrite IH.
  - rewrite decide_False; [done|]. intros Hin. apply Hn in Hin as [? ?]. discriminate.
Qed.

Lemma recommendations_length (es : list (string * WebVitals.VitalData)) (recs : list string) :
  length (fold_left (λ recs e, WebVitals.recommend recs e.1 e.2) es recs)
  = length recs
    + length (filter (λ e, e.1 ∈ ["LCP"; "FID"; "CLS"] ∧ WebVitals.vital_rating e.2 ≠ good)
                es).
Proof.
  revert recs. induction es as [|[n d] es IH]; intros recs.
  - cbn. lia.
  - cbn [fold_left fst snd]. rewrite IH, recommend_length, filter_cons. cbn [fst snd].
    destruct (decide _); cbn [length]; lia.
Qed.

(** X19: the [coreVitals] of [generatePerformanceReport] are keyed by the
    names among LCP, FID, CLS, FCP and TTFB that occur in the store, in this
    order, each with the data of a metric of that name that no other exceeds
    in timestamp.  The summary reports no data exactly when none of the five
    occurs, excellence exactly when some occur and all are rated good, and
    good performance exactly when all five occur and four of them are rated
    good: the 0.8 threshold is out of reach with fewer vitals.  There is one
    recommendation per LCP, FID or CLS entry that is not rated good. *)
Theorem report_follows_the_newest_vitals (ms : list WebVitals.WebVitalMetric) :
  let report := WebVitals.generatePerformanceReport ms in
  let vitals := WebVitals.coreVitals report in
  let goodMetrics := length (filter (λ e, WebVitals.vital_rating e.2 = good) vitals) in
  vitals.*1 = filter (λ n, n ∈ map WebVitals.name ms) ["LCP"; "FID"; "CLS"; "FCP"; "TTFB"]
  ∧ (∀ n d, (n, d) ∈ vitals →
       ∃ m, m ∈ ms ∧ WebVitals.name m = n
         ∧ (∀ z, z ∈ ms → WebVitals.name z = n →
              (WebVitals.timestamp z ≤ WebVitals.timestamp m)%Z)
         ∧ d = {| WebVitals.vital_value := WebVitals.value m;
                  WebVitals.vital_rating := WebVitals.rating m;
                  WebVitals.vital_timestamp := WebVitals.timestamp m |})
  ∧ (WebVitals.summary report = "No Core Web Vitals data available yet." ↔ vitals = [])
  ∧ (WebVitals.summary report = "Excellent! All Core Web Vitals are performing well."
     ↔ vitals ≠ [] ∧ Forall (λ e, WebVitals.vital_rating e.2 = good) vitals)
  ∧ (WebVitals.summary report = "Good performance with minor areas for improvement."
     ↔ length vitals = 5 ∧ goodMetrics = 4)
  ∧ length (WebVitals.recommendations report)
    = length (filter (λ e, e.1 ∈ ["LCP"; "FID"; "CLS"] ∧ WebVitals.vital_rating e.2 ≠ good)
                vitals).
Proof.
  intros report vitals goodMetrics.
  assert (Hnames : vitals.*1
    = filter (λ n, n ∈ map WebVitals.name ms) ["LCP"; "FID"; "CLS"; "FCP"; "TTFB"]).
  { apply report_names. }
  assert (Htotal : length vitals ≤ 5).
  { rewrite <- (length_fmap fst vitals), Hnames.
    etransitivity; [apply length_filter|done]. }
  assert (Hgood : goodMetrics ≤ length vitals) by apply length_filter.
  assert (Hsummary : WebVitals.summary report
    = if decide (length vitals = 0) then "No Core Web Vitals data available yet."
      else if decide (goodMetrics = length vitals) then
        "Excellent! All Core Web Vitals are performing well."
      else if (JS.number (length vitals) * 0.8 <=? JS.number goodMetrics)%float then
        "Good performance with minor areas for improvement."
      else "Performance needs attention. Several metrics require optimization.")
    by reflexivity.
  refine (conj Hnames (conj _ (conj _ (conj _ (conj _ _))))).
  - intros n d Hd. subst vitals report.
    cbn [WebVitals.generatePerformanceReport WebVitals.coreVitals] in Hd.
    apply list_elem_of_omap in Hd as (n' & _ & Hd).
    pose proof (newest_spec ms n') as Hnew.
    destruct (WebVitals.newest ms n') as [m|]; [|discriminate].
    injection Hd as <- <-. destruct Hnew as (Hm & Hname & Hmax). by exists m.
  - rewrite Hsummary, <- length_zero_iff_nil.
    repeat case_decide; try destruct (_ <=? _)%float; split; try done; lia.
  - rewrite Hsummary, <- length_filter_all. fold goodMetrics.
    rewrite <- length_zero_iff_nil.
    repeat case_decide; try destruct (_ <=? _)%float; split; try done;
      try (intros [? ?]; done); try (intros [? ?]; lia).
  - rewrite Hsummary.
    destruct (decide (length vitals = 0)) as [Hz|Hz]; [split; [done|lia]|].
    destruct (decide (goodMetrics = length vitals)) as [He|He]; [split; [done|lia]|].
    rewrite <- (report_threshold (length vitals) goodMetrics) by (done || lia).
    destruct (_ <=? _)%float; split; done.
  - subst vitals report. apply (recommendations_length _ []).
Qed.

(** ** The web-vitals hook: the summary *)

Lemma latestMetrics_loop (ms : list WebVitals.WebVitalMetric) (keys : list string)
    (acc : gmap string WebVitals.WebVitalMetric) (n : string) :
  fold_left (λ latestMetrics metricName,
      match WebVitals.getLatestMetric ms metricName with
      | Some latest => JS.assign metricName latest latestMetrics
      | None => latestMetrics
      end)
    keys acc !! n
  = if decide (n ∈ keys ∧ n ≠ "__proto__" ∧ is_Some (WebVitals.getLatestMetric ms n))
    then WebVitals.getLatestMetric ms n
    else acc !! n.
Proof.
  revert acc. induction keys as [|k keys IH]; intros acc.
  - cbn [fold_left]. rewrite decide_False; [done|].
    intros [Hn _]. by apply not_elem_of_nil in Hn.
  - cbn [fold_left]. rewrite IH.
    destruct (decide (n ∈ keys ∧ n ≠ "__proto__" ∧ is_Some (WebVitals.getLatestMetric ms n)))
      as [(Hn & Hp & Hs)|Hno].
    + rewrite decide_True; [done|]. split; [by apply list_elem_of_further|done].
    + destruct (decide (n = k)) as [->|Hnk].
      * destruct (WebVitals.getLatestMetric ms k) as [m|] eqn:Hm.
        -- unfold JS.assign. destruct (decide (k = "__proto__")) as [Hp|Hp].
           ++ rewrite decide_False; [done|]. by intros (_ & ? & _).
           ++ rewrite decide_True, lookup_insert_eq; [done|].
              split; [apply list_elem_of_here|]. split; [done|by eexists].
        -- rewrite decide_False; [done|]. intros (_ & _ & [? ?]). discriminate.
      * rewrite decide_False.
        -- destruct (WebVitals.getLatestMetric ms k); [|done].
           unfold JS.assign. destruct (decide (k = "__proto__")); [done|].
           by apply lookup_insert_ne.
        -- intros (Hn & Hp & Hs). apply Hno. split; [|done].
           apply elem_of_cons in Hn as [?|?]; [done|done].
Qed.

Lemma WebVitals_latest_is_Some (ms : list WebVitals.WebVitalMetric) (n : string) :
  is_Some (WebVitals.getLatestMetric ms n) ↔ n ∈ map WebVitals.name ms.
Proof.
  unfold WebVitals.getLatestMetric. rewrite at_index_last, last_is_Some.
  unfold WebVitals.getMetricsByName. split.
  - intros Hne. destruct (filter _ ms) as [|m l] eqn:Hl; [done|].
    assert (Hm : m ∈ filter (λ metric, WebVitals.name metric = n) ms).
    { rewrite Hl. apply list_elem_of_here. }
    apply list_elem_of_filter in Hm as [<- Hm].
    by apply (list_elem_of_fmap_2 WebVitals.name).
  - intros Hn Hnil. apply (list_elem_of_fmap_1 WebVitals.name) in Hn as (m & -> & Hm).
    assert (Hin : m ∈ filter (λ metric, WebVitals.name metric = WebVitals.name m) ms).
    { by apply list_elem_of_filter. }
    rewrite Hnil in Hin. by apply not_elem_of_nil in Hin.
Qed.

Lemma length_filter_ne (l : list string) (x : string) :
  NoDup l →
  length (filter (λ n, n ≠ x) l) = length l - (if decide (x ∈ l) then 1 else 0).
Proof.
  induction 1 as [|y l Hy Hl IH]; [done|].
  rewrite filter_cons. destruct (decide (y ≠ x)) as [Hne|He].
  - cbn [length]. rewrite IH. destruct (decide (x ∈ l)) as [Hin|Hout].
    + rewrite decide_True by (by apply list_elem_of_further).
      destruct l; [by apply not_elem_of_nil in Hin|cbn [length]; lia].
    + rewrite decide_False; [lia|]. intros Hin.
      apply elem_of_cons in Hin as [->|?]; done.
  - assert (y = x) as -> by (by destruct (decide (y = x)); [|exfalso; apply He]).
    rewrite IH, decide_False by done. rewrite decide_True by apply list_elem_of_here.
    cbn [length]. lia.
Qed.

(** X20: the [latestMetrics] of [getMetricsSummary] hold, as own
    properties, the latest metric of every name but [__proto__], for which
    the assignment creates none; so they number [uniqueMetrics], less one
    where a metric is named [__proto__].  [uniqueMetrics] never exceeds
    [totalMetrics], and it is zero only for an empty store. *)
Theorem summary_holds_the_latest_metrics (ms : list WebVitals.WebVitalMetric) :
  let summary := WebVitals.getMetricsSummary ms in
  (∀ n, n ≠ "__proto__" →
     WebVitals.latestMetrics summary !! n = WebVitals.getLatestMetric ms n)
  ∧ WebVitals.latestMetrics summary !! "__proto__" = None
  ∧ size (WebVitals.latestMetrics summary)
    = WebVitals.uniqueMetrics summary
      - (if decide ("__proto__" ∈ map WebVitals.name ms) then 1 else 0)
  ∧ WebVitals.uniqueMetrics summary ≤ WebVitals.totalMetrics summary
  ∧ (WebVitals.uniqueMetrics summary = 0 ↔ ms = []).
Proof.
  intros summary.
  assert (Hlookup : ∀ n, WebVitals.latestMetrics summary !! n
    = if decide (n = "__proto__") then None else WebVitals.getLatestMetric ms n).
  { intros n. subst summary. cbn [WebVitals.getMetricsSummary WebVitals.latestMetrics].
    rewrite latestMetrics_loop, lookup_empty.
    destruct (decide (n = "__proto__")) as [->|Hp].
    - rewrite decide_False; [done|]. by intros (_ & ? & _).
    - destruct (WebVitals.getLatestMetric ms n) as [m|] eqn:Hm.
      + rewrite decide_True; [done|]. split; [|done].
        apply Set_values_elem_of, WebVitals_latest_is_Some. by eexists.
      + by destruct (decide _). }
  refine (conj _ (conj _ (conj _ (conj _ _)))).
  - intros n Hp. by rewrite Hlookup, decide_False.
  - by rewrite Hlookup.
  - assert (Hdom : dom (WebVitals.latestMetrics summary)
      = list_to_set (filter (λ n, n ≠ "__proto__")
                       (JS.Set_values (map WebVitals.name ms)))).
    { apply set_eq. intros n.
      rewrite elem_of_dom, elem_of_list_to_set, list_elem_of_filter, Set_values_elem_of,
        Hlookup.
      destruct (decide (n = "__proto__")) as [->|Hp].
      - split; [intros [? ?]; discriminate|by intros [? _]].
      - rewrite WebVitals_latest_is_Some. tauto. }
    rewrite <- size_dom, Hdom, size_list_to_set by apply NoDup_filter, Set_values_NoDup.
    rewrite length_filter_ne by apply Set_values_NoDup.
    subst summary. cbn [WebVitals.getMetricsSummary WebVitals.uniqueMetrics].
    destruct (decide ("__proto__" ∈ map WebVitals.name ms)) as [Hin|Hout].
    + by rewrite decide_True by (by apply Set_values_elem_of).
    + by rewrite decide_False by (by rewrite Set_values_elem_of).
  - subst summary.
    cbn [WebVitals.getMetricsSummary WebVitals.uniqueMetrics WebVitals.totalMetrics].
    rewrite <- (length_map WebVitals.name ms).
    apply submseteq_length, NoDup_submseteq; [apply Set_values_NoDup|].
    intros n. by rewrite Set_values_elem_of.
  - subst summary. cbn [WebVitals.getMetricsSummary WebVitals.uniqueMetrics].
    rewrite length_zero_iff_nil. split.
    + intros Hnil. destruct ms as [|m ms]; [done|].
      assert (Hin : WebVitals.name m ∈ JS.Set_values (map WebVitals.name (m :: ms))).
      { apply Set_values_elem_of, list_elem_of_here. }
      rewrite Hnil in Hin. by apply not_elem_of_nil in Hin.
    + by intros ->.
Qed.
